(** * FinChat: query routing and financial calculators

    A shallow embedding of [core/query_router.py], [agents/calculator.py]
    and [config.py], and the properties of the routing core; then of the
    engine of [core/llm_engine.py] and of the portfolio recommendation of
    [agents/market_data_agent.py], which the router calls.

    Conventions of the embedding.
    - A query is a [string]; its characters are read as ASCII code points,
      and [str.lower], [\d], [\s], [\w] and [\b] are modelled on that range.
    - Python's [re] patterns are values of [Re.regex], run by a backtracking
      matcher with Python's priorities (greedy repetition, ordered
      alternation, leftmost start).
    - The floats of the detectors ([float(...)], [val * 100000], [int(...)])
      are IEEE binary64 values, computed with [SpecFloat].
    - The calculators are modelled in exact rational arithmetic: every
      [+ - * /] is exact, [**] is the parameter [fpow], and [round] is
      round-half-to-even on the exact value.
    - A Python exception is a value [Raise e] of the [result] monad. *)

From Stdlib Require Import Ascii String ZArith QArith Qround Qabs Qcanon Qpower.
From Stdlib Require Import Floats.SpecFloat Lia Lqa.
From stdpp Require Import base option list strings pretty gmap.

Open Scope Z_scope.

(** ** Strings *)

Module PyStr.

Definition chars (s : string) : list ascii := list_ascii_of_string s.

Definition in_range (lo hi c : ascii) : bool :=
  (N_of_ascii lo <=? N_of_ascii c)%N && (N_of_ascii c <=? N_of_ascii hi)%N.

Definition is_digit (c : ascii) : bool := in_range "0" "9" c.

Definition is_upper (c : ascii) : bool := in_range "A" "Z" c.

Definition is_lower (c : ascii) : bool := in_range "a" "z" c.

(** [\s]: tab, newline, vertical tab, form feed, carriage return, the four
    separators 0x1c-0x1f and the space. *)
Definition is_space (c : ascii) : bool :=
  let n := N_of_ascii c in
  ((9 <=? n)%N && (n <=? 13)%N) || ((28 <=? n)%N && (n <=? 32)%N).

(** [\w]: letters, digits and the underscore. *)
Definition is_word (c : ascii) : bool :=
  is_digit c || is_upper c || is_lower c || Ascii.eqb c "_".

Definition lower_char (c : ascii) : ascii :=
  if is_upper c then ascii_of_N (N_of_ascii c + 32) else c.

(** [s.lower()] *)
Definition lower (s : string) : string :=
  string_of_list_ascii (map lower_char (chars s)).

Fixpoint is_prefix (p s : list ascii) : bool :=
  match p, s with
  | [], _ => true
  | a :: p', b :: s' => Ascii.eqb a b && is_prefix p' s'
  | _ :: _, [] => false
  end.

Fixpoint contains_chars (p s : list ascii) : bool :=
  is_prefix p s ||
  match s with
  | [] => false
  | _ :: s' => contains_chars p s'
  end.

(** [sub in s] *)
Definition contains (sub s : string) : bool :=
  contains_chars (chars sub) (chars s).

(** [any(kw in s for kw in kws)] *)
Definition any_in (kws : list string) (s : string) : bool :=
  existsb (fun kw => contains kw s) kws.

(** The longest run of digits at the head of [s]. *)
Fixpoint leading_digits (s : list ascii) : list ascii :=
  match s with
  | c :: s' => if is_digit c then c :: leading_digits s' else []
  | [] => []
  end.

Definition digit_val (c : ascii) : Z := Z.of_N (N_of_ascii c) - 48.

(** The value of a run of decimal digits, as [int] reads it. *)
Definition digits_val (ds : list ascii) : Z :=
  fold_left (fun acc c => 10 * acc + digit_val c) ds 0.

End PyStr.

(** ** Regular expressions, as [re.search] runs them *)

Module Re.
Import PyStr.

Inductive cclass := Digit | Space.

Definition in_class (k : cclass) (c : ascii) : bool :=
  match k with
  | Digit => is_digit c
  | Space => is_space c
  end.

Inductive regex :=
| Eps
| Chr (c : ascii)
| Rep (k : cclass) (lo : nat) (hi : option nat)
| Bnd
| Cat (r1 r2 : regex)
| Alt (r1 r2 : regex)
| Opt (r : regex)
| Grp (i : nat) (r : regex).

(** A literal word. *)
Definition Lit (s : string) : regex :=
  foldr (fun c r => Cat (Chr c) r) Eps (chars s).

(** A sequence of pieces. *)
Definition Seq (rs : list regex) : regex := foldr Cat Eps rs.

(** One of several pieces, tried from left to right. *)
Fixpoint Any (rs : list regex) : regex :=
  match rs with
  | [] => Eps
  | [r] => r
  | r :: rs' => Alt r (Any rs')
  end.

Definition plus (k : cclass) : regex := Rep k 1 None.
Definition star (k : cclass) : regex := Rep k 0 None.

(** The matcher's position: the characters already passed (last one
    first), the characters ahead, and the groups captured so far. *)
Record mstate := MState {
  seen : list ascii;
  rest : list ascii;
  caps : list (nat * list ascii)
}.

Definition at_boundary (st : mstate) : bool :=
  let before := match seen st with c :: _ => is_word c | [] => false end in
  let after := match rest st with c :: _ => is_word c | [] => false end in
  xorb before after.

Definition more_allowed (hi : option nat) : bool :=
  match hi with
  | Some O => false
  | _ => true
  end.

Section Matcher.
Context {R : Type}.

(** Greedy [k{lo,hi}]: take one more character while allowed, and give
    back on failure of what follows. *)
Fixpoint rep (k : cclass) (lo : nat) (hi : option nat)
    (sn rs : list ascii) (K : list ascii -> list ascii -> option R)
    {struct rs} : option R :=
  let stop := match lo with O => K sn rs | S _ => None end in
  match rs with
  | c :: rs' =>
      if in_class k c && more_allowed hi then
        match rep k (Nat.pred lo) (Nat.pred <$> hi) (c :: sn) rs' K with
        | Some x => Some x
        | None => stop
        end
      else stop
  | [] => stop
  end.

Fixpoint rmatch (r : regex) (st : mstate) (K : mstate -> option R)
    {struct r} : option R :=
  match r with
  | Eps => K st
  | Chr c =>
      match rest st with
      | c' :: rs' =>
          if Ascii.eqb c c' then K (MState (c' :: seen st) rs' (caps st))
          else None
      | [] => None
      end
  | Rep k lo hi =>
      rep k lo hi (seen st) (rest st)
        (fun sn rs => K (MState sn rs (caps st)))
  | Bnd => if at_boundary st then K st else None
  | Cat r1 r2 => rmatch r1 st (fun st' => rmatch r2 st' K)
  | Alt r1 r2 =>
      match rmatch r1 st K with
      | Some x => Some x
      | None => rmatch r2 st K
      end
  | Opt r1 =>
      match rmatch r1 st K with
      | Some x => Some x
      | None => K st
      end
  | Grp i r1 =>
      rmatch r1 st (fun st' =>
        let text := take (length (rest st) - length (rest st')) (rest st) in
        K (MState (seen st') (rest st') ((i, text) :: caps st')))
  end.
End Matcher.

(** A match object: the groups that took part in the match. *)
Definition rmatch_obj := list (nat * list ascii).

Definition match_here (r : regex) (sn rs : list ascii) : option rmatch_obj :=
  rmatch r (MState sn rs []) (fun st => Some (caps st)).

Fixpoint search_from (r : regex) (sn rs : list ascii) : option rmatch_obj :=
  match match_here r sn rs with
  | Some m => Some m
  | None =>
      match rs with
      | [] => None
      | c :: rs' => search_from r (c :: sn) rs'
      end
  end.

(** [re.search(r, s)] *)
Definition search (r : regex) (s : string) : option rmatch_obj :=
  search_from r [] (chars s).

(** [m.group(i)], [None] when the group did not take part. *)
Fixpoint group (m : rmatch_obj) (i : nat) : option (list ascii) :=
  match m with
  | [] => None
  | (j, text) :: m' => if Nat.eqb i j then Some text else group m' i
  end.


(** [bool(re.search(r, s))] *)
Definition matches (r : regex) (s : string) : bool :=
  match search r s with
  | Some _ => true
  | None => false
  end.

End Re.

(** ** IEEE binary64, for the floats of the detectors *)

Module Float64.

Definition prec : Z := 53.
Definition emax : Z := 1024.

Abbreviation float := spec_float.

Definition of_int_exact (z : Z) : spec_float :=
  match z with
  | Z0 => S754_zero false
  | Zpos p => S754_finite false p 0
  | Zneg p => S754_finite true p 0
  end.

(** The double nearest to [n / d] (ties to even). *)
Definition of_ratio (n d : Z) : float :=
  SFdiv prec emax (of_int_exact n) (of_int_exact d).

(** The double nearest to the integer [z]. *)
Definition of_Z (z : Z) : float := binary_normalize prec emax z 0 false.

(** [float(text)] for [text] of the shape [\d+(\.\d+)?]. *)
Definition of_decimal (text : list ascii) : float :=
  let ip := PyStr.leading_digits text in
  let fp := drop (S (length ip)) text in
  of_ratio (PyStr.digits_val (ip ++ fp)) (10 ^ Z.of_nat (length fp)).

Definition mul (x y : float) : float := SFmul prec emax x y.

Definition is_finite (x : float) : bool :=
  match x with
  | S754_zero _ | S754_finite _ _ _ => true
  | _ => false
  end.

(** The exact value of a finite double. *)
Definition to_Q (x : float) : Q :=
  match x with
  | S754_finite s m e =>
      let v := match e with
               | Z0 => inject_Z (Zpos m)
               | Zpos k => inject_Z (Zpos m * 2 ^ e)
               | Zneg k => Qmake (Zpos m) (2 ^ k)
               end in
      if s then Qopp v else v
  | _ => 0%Q
  end.

(** Truncation toward zero of a finite double. *)
Definition trunc (x : float) : Z :=
  match x with
  | S754_finite s m e =>
      let v := match e with
               | Z0 => Zpos m
               | Zpos _ => Zpos m * 2 ^ e
               | Zneg k => Zpos m / 2 ^ Zpos k
               end in
      if s then - v else v
  | _ => 0
  end.

Definition leb (x y : float) : bool :=
  match SFcompare x y with
  | Some Lt | Some Eq => true
  | _ => false
  end.

End Float64.

(** ** Python values, exceptions and results *)

Module Py.

(** The values that travel in parameter and result dictionaries. A float
    is given by its exact value. *)
#[warnings="-register-all"]
Inductive pyval :=
| VNone
| VBool (b : bool)
| VInt (z : Z)
| VFloat (q : Q)
| VStr (s : string)
| VList (l : list pyval)
| VDict (d : gmap string pyval).

Abbreviation pydict := (gmap string pyval).

(** An exception: its class and [str(e)]. The wording of the built-in
    errors is indicative; no property below depends on it. *)
Record exn := Exn { exn_class : string; exn_msg : string }.

Definition ValueError (msg : string) : exn := Exn "ValueError" msg.
Definition TypeError (msg : string) : exn := Exn "TypeError" msg.
Definition KeyError (key : string) : exn := Exn "KeyError" ("'" +:+ key +:+ "'").
Definition AttributeError (msg : string) : exn := Exn "AttributeError" msg.
Definition OverflowError (msg : string) : exn := Exn "OverflowError" msg.
Definition ZeroDivisionError (msg : string) : exn :=
  Exn "ZeroDivisionError" msg.

Inductive result (A : Type) :=
| Ok (a : A)
| Raise (e : exn).
Arguments Ok {A} a.
Arguments Raise {A} e.

#[export] Instance result_ret : MRet result := fun A a => Ok a.
#[export] Instance result_bind : MBind result := fun A B f r =>
  match r with
  | Ok a => f a
  | Raise e => Raise e
  end.

(** [try: body  except Exception as e: handler(e)] *)
Definition try_except {A} (body : result A) (handler : exn -> result A)
    : result A :=
  match body with
  | Ok a => Ok a
  | Raise e => handler e
  end.

(** [try: body  except ValueError as e: handler(e)] *)
Definition try_except_ValueError {A} (body : result A)
    (handler : exn -> result A) : result A :=
  match body with
  | Ok a => Ok a
  | Raise e =>
      if String.eqb (exn_class e) "ValueError" then handler e else Raise e
  end.

Definition type_name (v : pyval) : string :=
  match v with
  | VNone => "NoneType"
  | VBool _ => "bool"
  | VInt _ => "int"
  | VFloat _ => "float"
  | VStr _ => "str"
  | VList _ => "list"
  | VDict _ => "dict"
  end.

(** The value of a number; comparing or computing with anything else is
    a [TypeError]. *)
Definition as_number (v : pyval) : result Q :=
  match v with
  | VBool b => Ok (if b then 1%Q else 0%Q)
  | VInt z => Ok (inject_Z z)
  | VFloat q => Ok q
  | _ => Raise (TypeError ("unsupported operand type: '" +:+ type_name v +:+ "'"))
  end.

(** [d[key]] *)
Definition getitem (d : pyval) (key : string) : result pyval :=
  match d with
  | VDict m =>
      match m !! key with
      | Some v => Ok v
      | None => Raise (KeyError key)
      end
  | _ => Raise (TypeError ("'" +:+ type_name d +:+ "' object is not subscriptable"))
  end.

(** [d.get(key, dflt)] *)
Definition get (d : pyval) (key : string) (dflt : pyval) : result pyval :=
  match d with
  | VDict m => Ok (default dflt (m !! key))
  | _ => Raise (AttributeError ("'" +:+ type_name d +:+ "' object has no attribute 'get'"))
  end.

(** [bool(v)] *)
Definition truthy (v : pyval) : bool :=
  match v with
  | VNone => false
  | VBool b => b
  | VInt z => negb (z =? 0)
  | VFloat q => negb (Qeq_bool q 0)
  | VStr s => negb (String.eqb s EmptyString)
  | VList l => match l with [] => false | _ => true end
  | VDict d => negb (bool_decide (d = ∅))
  end.

(** [int(x)] of a float *)
Definition int_of_float (x : Float64.float) : result Z :=
  match x with
  | S754_infinity _ =>
      Raise (OverflowError "cannot convert float infinity to integer")
  | S754_nan => Raise (ValueError "cannot convert float NaN to integer")
  | _ => Ok (Float64.trunc x)
  end.

(** [float(z)] of an int *)
Definition float_of_int (z : Z) : result Float64.float :=
  let x := Float64.of_Z z in
  if Float64.is_finite x then Ok x
  else Raise (OverflowError "int too large to convert to float").

(** The double of a float value. *)
Definition float_of_Q (q : Q) : Float64.float :=
  Float64.of_ratio (Qnum q) (Zpos (Qden q)).

End Py.

(** ** config.py *)

Module Config.

(** A float literal [n/d] of the source: the double nearest to it. *)
Definition float_lit (n d : Z) : Q := Float64.to_Q (Float64.of_ratio n d).

Definition DEFAULT_SIP_RETURN : Q := float_lit 12 100.
Definition DEFAULT_EMI_INTEREST : Q := float_lit 85 10.
Definition DEFAULT_INFLATION : Q := float_lit 6 100.
Definition DEFAULT_POST_RET_RETURN : Q := float_lit 4 100.
Definition DEFAULT_POST_RET_YEARS : Z := 25.

Definition SIP_MIN_AMOUNT : Z := 100.
Definition SIP_MAX_AMOUNT : Z := 1000000.
Definition SIP_MIN_YEARS : Z := 1.
Definition SIP_MAX_YEARS : Z := 50.

Definition EMI_MIN_LOAN : Z := 50000.
Definition EMI_MAX_LOAN : Z := 100000000.
Definition EMI_MIN_INTEREST : Z := 1.
Definition EMI_MAX_INTEREST : Z := 30.
Definition EMI_MIN_TENURE : Z := 1.
Definition EMI_MAX_TENURE : Z := 30.

Definition MIN_AGE : Z := 18.
Definition MAX_AGE : Z := 80.
Definition MIN_RETIREMENT_AGE : Z := 30.
Definition MAX_RETIREMENT_AGE : Z := 100.

Definition MIN_INVESTMENT : Z := 1000.
Definition MAX_INVESTMENT : Z := 100000000.

Definition MIN_MONTHLY_EXPENSE : Z := 1000.
Definition MAX_MONTHLY_EXPENSE : Z := 1000000.

Definition MF_TOP_FUNDS_LIMIT : Z := 10.

End Config.

(** ** Float operations taken as parameters

    [fpow b e] is the C library's [pow] at an exponent that is not a whole
    number; [fstr x] is [str(x)] of a float; [ffix n x] is [f"{x:.nf}"]. *)

Class FloatLib := {
  fpow : Q -> Q -> Q;
  fstr : Q -> string;
  ffix : nat -> Q -> string
}.

(** ** agents/calculator.py *)

Module FinancialCalculator.
Import Py Config.

Definition Qltb (x y : Q) : bool := negb (Qle_bool y x).

(** [x / y] *)
Definition fdiv (x y : Q) : result Q :=
  if Qeq_bool y 0 then Raise (ZeroDivisionError "float division by zero")
  else Ok (x / y)%Q.

(** Round-half-to-even to a whole number. *)
Definition round_half_even (x : Q) : Z :=
  let f := Qfloor x in
  match Qcompare (x - inject_Z f) (1 # 2) with
  | Lt => f
  | Gt => f + 1
  | Eq => if Z.even f then f else f + 1
  end.

(** [round(x, ndigits)] *)
Definition round (x : Q) (ndigits : nat) : Q :=
  let scale := inject_Z (10 ^ Z.of_nat ndigits) in
  (inject_Z (round_half_even (x * scale)) / scale)%Q.

(** What a calculator returns: [{"error": message}] or its payload. *)
Inductive outcome (A : Type) :=
| Error (error : string)
| Success (payload : A).
Arguments Error {A} error.
Arguments Success {A} payload.

Definition outcome_dict {A} (to_dict : A -> pydict) (o : outcome A) : pydict :=
  match o with
  | Error msg => {[ "error" := VStr msg ]}
  | Success p => to_dict p
  end.

(** A number as the validators print it. *)
Inductive num :=
| Int (z : Z)
| Float (q : Q).

Definition num_val (n : num) : Q :=
  match n with
  | Int z => inject_Z z
  | Float q => q
  end.

Record sip_year := {
  sy_year : Z;
  sy_invested : Q;
  sy_value : Q;
  sy_gains : Q
}.

Record sip_payload := {
  sip_monthly_sip : Q;
  sip_years : Z;
  sip_expected_return : Q;
  sip_total_invested : Q;
  sip_maturity_amount : Q;
  sip_gains : Q;
  sip_returns_percentage : Q;
  sip_total_months : Z;
  sip_monthly_rate_percent : Q;
  sip_yearly_breakdown : list sip_year;
  sip_year_5 : option sip_year;
  sip_year_10 : option sip_year;
  sip_year_15 : option sip_year;
  sip_year_20 : option sip_year
}.

Record emi_year := {
  ey_year : Z;
  ey_principal_paid : Q;
  ey_interest_paid : Q;
  ey_total_paid : Q;
  ey_remaining_balance : Q
}.

Record emi_payload := {
  emi_loan_amount : Q;
  emi_interest_rate : Q;
  emi_tenure_years : Z;
  emi_tenure_months : Z;
  emi_monthly_emi : Q;
  emi_total_payment : Q;
  emi_total_interest : Q;
  emi_principal_percentage : Q;
  emi_interest_percentage : Q;
  emi_monthly_rate_percent : Q;
  emi_interest_to_principal_ratio : Q;
  emi_yearly_breakdown : list emi_year;
  emi_year_1 : option emi_year;
  emi_year_5 : option emi_year;
  emi_year_10 : option emi_year;
  emi_year_15 : option emi_year;
  emi_year_20 : option emi_year;
  emi_first_year_principal : Q;
  emi_first_year_interest : Q;
  emi_last_year_principal : Q;
  emi_last_year_interest : Q
}.

Record retirement_payload := {
  ret_current_age : Z;
  ret_retirement_age : Z;
  ret_years_to_retirement : Z;
  ret_current_monthly_expense : Q;
  ret_future_monthly_expense : Q;
  ret_corpus_needed : Q;
  ret_monthly_sip_required : Q;
  ret_total_sip_investment : Q;
  ret_inflation_rate : Q;
  ret_assumed_sip_return : Q;
  ret_assumed_post_retirement_return : Q;
  ret_post_retirement_years : Z;
  ret_inflation_multiplier : Q;
  ret_annual_expense_at_retirement : Q;
  ret_total_for_post_retirement : Q;
  ret_discount_factor : Q
}.

Section Calculator.
Context {floats : FloatLib}.

Definition num_str (n : num) : string :=
  match n with
  | Int z => pretty z
  | Float q => fstr q
  end.

(** [b ** e]. Every base below is one plus a validated rate, hence
    positive. *)
Definition pow (b e : Q) : Q :=
  let e' := Qred e in
  if Pos.eqb (Qden e') 1 then Qpower b (Qnum e') else fpow b e.

Definition _validate_positive (value : num) (name : string) : result unit :=
  if Qle_bool (num_val value) 0 then
    Raise (ValueError (name +:+ " must be positive, got " +:+ num_str value))
  else Ok tt.

Definition _validate_percentage (value : Q) (name : string) : result unit :=
  if Qle_bool 0 value && Qle_bool value 1 then Ok tt
  else Raise (ValueError (name +:+ " must be between 0 and 1 (as decimal), got "
                          +:+ fstr value)).

Definition _validate_age (age : Z) (name : string) : result unit :=
  if (0 <? age) && (age <? 120) then Ok tt
  else Raise (ValueError (name +:+ " must be between 0 and 120, got "
                          +:+ pretty age)).

(** The body of a validation [try] block: [None] when it passes, the
    message of the [ValueError] otherwise. *)
Definition validation (checks : result unit) : result (option string) :=
  try_except_ValueError (_ ← checks; mret None)
    (fun e => mret (Some (exn_msg e))).

(** *** sip_returns *)

(** [monthly_sip * (((1 + monthly_rate) ** m - 1) / monthly_rate)
     * (1 + monthly_rate)] *)
Definition sip_value (monthly_sip monthly_rate : Q) (m : Z) : result Q :=
  a ← fdiv (pow (1 + monthly_rate) (inject_Z m) - 1) monthly_rate;
  mret (monthly_sip * a * (1 + monthly_rate))%Q.

Definition sip_year_row (monthly_sip monthly_rate : Q) (year : Z)
    : result sip_year :=
  let m := year * 12 in
  value ← sip_value monthly_sip monthly_rate m;
  let invested := (monthly_sip * inject_Z m)%Q in
  let gain := (value - invested)%Q in
  mret {| sy_year := year;
          sy_invested := round invested 0;
          sy_value := round value 0;
          sy_gains := round gain 0 |}.

Definition sip_checks (monthly_sip : Q) (years : Z) (expected_return : Q)
    : result unit :=
  _ ← _validate_positive (Float monthly_sip) "Monthly SIP";
  _ ← _validate_positive (Int years) "Investment years";
  _ ← _validate_percentage expected_return "Expected return";
  if SIP_MAX_YEARS <? years then
    Raise (ValueError ("Investment period cannot exceed "
                       +:+ pretty SIP_MAX_YEARS +:+ " years"))
  else Ok tt.

Definition sip_returns (monthly_sip : Q) (years : Z)
    (expected_return : option Q) : result (outcome sip_payload) :=
  let expected_return := default DEFAULT_SIP_RETURN expected_return in
  failed ← validation (sip_checks monthly_sip years expected_return);
  match failed with
  | Some msg => mret (Error msg)
  | None =>
      let months := years * 12 in
      let monthly_rate := (expected_return / 12)%Q in
      maturity_value ← sip_value monthly_sip monthly_rate months;
      let total_invested := (monthly_sip * inject_Z months)%Q in
      let gains := (maturity_value - total_invested)%Q in
      yearly_breakdown ←
        mapM (sip_year_row monthly_sip monthly_rate) (seqZ 1 years);
      returns ← fdiv gains total_invested;
      let pick (n : nat) (y : Z) :=
        if y <=? years then yearly_breakdown !! n else None in
      mret (Success
        {| sip_monthly_sip := monthly_sip;
           sip_years := years;
           sip_expected_return := expected_return;
           sip_total_invested := round total_invested 0;
           sip_maturity_amount := round maturity_value 0;
           sip_gains := round gains 0;
           sip_returns_percentage := round (returns * 100) 2;
           sip_total_months := months;
           sip_monthly_rate_percent := round (monthly_rate * 100) 4;
           sip_yearly_breakdown := yearly_breakdown;
           sip_year_5 := pick 4%nat 5;
           sip_year_10 := pick 9%nat 10;
           sip_year_15 := pick 14%nat 15;
           sip_year_20 := pick 19%nat 20 |})
  end.

(** *** emi_calculator *)

Definition emi_checks (loan_amount interest_rate : Q) (tenure_years : Z)
    : result unit :=
  _ ← _validate_positive (Float loan_amount) "Loan amount";
  _ ← _validate_positive (Float interest_rate) "Interest rate";
  _ ← _validate_positive (Int tenure_years) "Tenure";
  _ ← (if Qltb (inject_Z EMI_MAX_INTEREST) interest_rate then
         Raise (ValueError ("Interest rate cannot exceed "
                            +:+ pretty EMI_MAX_INTEREST +:+ "%"))
       else Ok tt);
  _ ← (if EMI_MAX_TENURE <? tenure_years then
         Raise (ValueError ("Tenure cannot exceed "
                            +:+ pretty EMI_MAX_TENURE +:+ " years"))
       else Ok tt);
  if Qltb (inject_Z EMI_MAX_LOAN) loan_amount then
    Raise (ValueError "Loan amount cannot exceed ₹100,000,000")
  else Ok tt.

(** One month of the amortisation loop, on
    [(year_principal, year_interest, remaining_principal)]. [Qred] keeps
    the fractions in lowest terms and leaves their values unchanged. *)
Definition emi_month (emi monthly_rate : Q) (acc : Q * Q * Q) : Q * Q * Q :=
  let '(year_principal, year_interest, remaining_principal) := acc in
  if Qltb 0 remaining_principal then
    let month_interest := (remaining_principal * monthly_rate)%Q in
    let month_principal := (emi - month_interest)%Q in
    (Qred (year_principal + month_principal),
     Qred (year_interest + month_interest),
     Qred (remaining_principal - month_principal))
  else acc.

Fixpoint emi_schedule (emi monthly_rate remaining_principal : Q)
    (years : list Z) : list emi_year :=
  match years with
  | [] => []
  | year :: years' =>
      let '(year_principal, year_interest, remaining) :=
        Nat.iter 12 (emi_month emi monthly_rate) (0%Q, 0%Q, remaining_principal) in
      {| ey_year := year;
         ey_principal_paid := round year_principal 0;
         ey_interest_paid := round year_interest 0;
         ey_total_paid := round (year_principal + year_interest) 0;
         ey_remaining_balance :=
           round (if Qltb 0 remaining then remaining else 0%Q) 0 |}
      :: emi_schedule emi monthly_rate remaining years'
  end.

Definition emi_calculator (loan_amount : Q) (interest_rate : option Q)
    (tenure_years : Z) : result (outcome emi_payload) :=
  let interest_rate := default DEFAULT_EMI_INTEREST interest_rate in
  failed ← validation (emi_checks loan_amount interest_rate tenure_years);
  match failed with
  | Some msg => mret (Error msg)
  | None =>
      let monthly_rate := (interest_rate / 12 / 100)%Q in
      let months := tenure_years * 12 in
      emi ←
        (if Qeq_bool monthly_rate 0 then fdiv loan_amount (inject_Z months)
         else
           let growth := pow (1 + monthly_rate) (inject_Z months) in
           fdiv (loan_amount * monthly_rate * growth) (growth - 1));
      let total_payment := (emi * inject_Z months)%Q in
      let total_interest := (total_payment - loan_amount)%Q in
      let yearly_breakdown :=
        emi_schedule emi monthly_rate loan_amount (seqZ 1 tenure_years) in
      principal_share ← fdiv loan_amount total_payment;
      interest_share ← fdiv total_interest total_payment;
      ratio ← fdiv total_interest loan_amount;
      let pick (n : nat) (y : Z) :=
        if y <=? tenure_years then yearly_breakdown !! n else None in
      let of_row (f : emi_year -> Q) (row : option emi_year) :=
        match row with Some r => f r | None => 0%Q end in
      mret (Success
        {| emi_loan_amount := loan_amount;
           emi_interest_rate := interest_rate;
           emi_tenure_years := tenure_years;
           emi_tenure_months := months;
           emi_monthly_emi := round emi 0;
           emi_total_payment := round total_payment 0;
           emi_total_interest := round total_interest 0;
           emi_principal_percentage := round (principal_share * 100) 2;
           emi_interest_percentage := round (interest_share * 100) 2;
           emi_monthly_rate_percent := round (monthly_rate * 100) 4;
           emi_interest_to_principal_ratio := round ratio 2;
           emi_yearly_breakdown := yearly_breakdown;
           emi_year_1 := pick 0%nat 1;
           emi_year_5 := pick 4%nat 5;
           emi_year_10 := pick 9%nat 10;
           emi_year_15 := pick 14%nat 15;
           emi_year_20 := pick 19%nat 20;
           emi_first_year_principal :=
             of_row ey_principal_paid (head yearly_breakdown);
           emi_first_year_interest :=
             of_row ey_interest_paid (head yearly_breakdown);
           emi_last_year_principal :=
             of_row ey_principal_paid (last yearly_breakdown);
           emi_last_year_interest :=
             of_row ey_interest_paid (last yearly_breakdown) |})
  end.

(** *** retirement_corpus *)

Definition retirement_checks (current_age retirement_age : Z)
    (monthly_expense inflation : Q) (post_retirement_years : Z)
    (sip_return post_ret_return : Q) : result unit :=
  _ ← _validate_age current_age "Current age";
  _ ← _validate_age retirement_age "Retirement age";
  _ ← _validate_positive (Float monthly_expense) "Monthly expense";
  _ ← _validate_percentage inflation "Inflation rate";
  _ ← _validate_percentage sip_return "SIP return rate";
  _ ← _validate_percentage post_ret_return "Post-retirement return rate";
  _ ← (if retirement_age <=? current_age then
         Raise (ValueError "Retirement age must be greater than current age")
       else Ok tt);
  _ ← (if 50 <? retirement_age - current_age then
         Raise (ValueError "Years to retirement cannot exceed 50")
       else Ok tt);
  if 50 <? post_retirement_years then
    Raise (ValueError "Post-retirement years cannot exceed 50")
  else Ok tt.

Definition retirement_corpus (current_age retirement_age : Z)
    (monthly_expense : Q) (inflation : option Q)
    (post_retirement_years : option Z)
    (sip_return post_ret_return : option Q)
    : result (outcome retirement_payload) :=
  let inflation := default DEFAULT_INFLATION inflation in
  let post_retirement_years :=
    default DEFAULT_POST_RET_YEARS post_retirement_years in
  let sip_return := default DEFAULT_SIP_RETURN sip_return in
  let post_ret_return := default DEFAULT_POST_RET_RETURN post_ret_return in
  failed ← validation
    (retirement_checks current_age retirement_age monthly_expense inflation
       post_retirement_years sip_return post_ret_return);
  match failed with
  | Some msg => mret (Error msg)
  | None =>
      let years_to_retirement := retirement_age - current_age in
      let inflation_multiplier :=
        pow (1 + inflation) (inject_Z years_to_retirement) in
      let future_monthly_expense :=
        (monthly_expense * inflation_multiplier)%Q in
      let annual_expense_at_retirement := (future_monthly_expense * 12)%Q in
      let total_for_post_retirement :=
        (annual_expense_at_retirement * inject_Z post_retirement_years)%Q in
      let discount_factor :=
        pow (1 + post_ret_return) (inject_Z post_retirement_years / 2) in
      corpus_needed ← fdiv total_for_post_retirement discount_factor;
      let months_to_retirement := years_to_retirement * 12 in
      let monthly_sip_rate := (sip_return / 12)%Q in
      monthly_sip_required ←
        (if Qeq_bool monthly_sip_rate 0 then
           fdiv corpus_needed (inject_Z months_to_retirement)
         else
           fdiv (corpus_needed * monthly_sip_rate)
             ((pow (1 + monthly_sip_rate) (inject_Z months_to_retirement) - 1)
              * (1 + monthly_sip_rate)));
      let total_sip_investment :=
        (monthly_sip_required * inject_Z months_to_retirement)%Q in
      mret (Success
        {| ret_current_age := current_age;
           ret_retirement_age := retirement_age;
           ret_years_to_retirement := years_to_retirement;
           ret_current_monthly_expense := monthly_expense;
           ret_future_monthly_expense := round future_monthly_expense 0;
           ret_corpus_needed := round corpus_needed 0;
           ret_monthly_sip_required := round monthly_sip_required 0;
           ret_total_sip_investment := round total_sip_investment 0;
           ret_inflation_rate := inflation;
           ret_assumed_sip_return := sip_return;
           ret_assumed_post_retirement_return := post_ret_return;
           ret_post_retirement_years := post_retirement_years;
           ret_inflation_multiplier := round inflation_multiplier 2;
           ret_annual_expense_at_retirement :=
             round annual_expense_at_retirement 0;
           ret_total_for_post_retirement :=
             round total_for_post_retirement 0;
           ret_discount_factor := round discount_factor 2 |})
  end.

End Calculator.
End FinancialCalculator.

(** ** The collaborators of the router *)

(** [agents/market_data_agent.py] *)
Class MarketDataAgent := {
  get_stock_price : Py.pyval -> Py.result Py.pydict;
  get_stock_metric : Py.pyval -> Py.result Py.pydict;
  get_etf_price : Py.pyval -> Py.result Py.pydict;
  search_fund_dynamic : Py.pyval -> Py.result Py.pydict;
  get_top_funds_by_category : Py.pyval -> Py.pyval -> Py.result Py.pydict;
  get_personalized_portfolio :
    Py.pyval -> Py.pyval -> Py.pyval -> Py.result Py.pydict
}.

(** [agents/calculator.py], as the executor calls it: with whatever values
    the parameter dictionary holds. *)
Class Calculator := {
  calc_sip_returns : Py.pyval -> Py.pyval -> Py.pyval -> Py.result Py.pydict;
  calc_emi_calculator : Py.pyval -> Py.pyval -> Py.pyval -> Py.result Py.pydict;
  calc_retirement_corpus :
    Py.pyval -> Py.pyval -> Py.pyval -> Py.result Py.pydict
}.

(** [core/llm_engine.py] *)
Class LLMEngine := {
  summarize_data : Py.pydict -> string -> Py.result string;
  get_response : string -> string -> string -> Py.result Py.pydict
}.

(** [core/retriever.py] *)
Class Retriever := {
  get_context : string -> Py.result string
}.

(** [agents/user_profile.py]; [load_profile] catches its own errors and
    returns [None] for a missing or unreadable profile. *)
Class UserProfileManager := {
  load_profile : string -> Py.pyval;
  get_context_summary : string -> Py.result string
}.

(** [str(v)] and [format(v, spec)] of the values the router prints. *)
Class PyFormat := {
  py_repr : Py.pyval -> string;
  py_format : Py.pyval -> string -> Py.result string
}.

(** ** core/query_router.py *)

Module QueryRouter.
Import PyStr Re Py Config.

(** A detected action: [{"action": ..., "parameters": {...}}]. *)
Record detected := Detected {
  action : string;
  parameters : pydict
}.

(** The router's state: [self._profile_cache]. *)
Abbreviation profile_cache := (gmap string pyval).

(** A method of the router: it reads and updates the cache and returns or
    raises. *)
Definition Router (A : Type) : Type :=
  profile_cache -> result A * profile_cache.

#[export] Instance router_ret : MRet Router := fun A a c => (Ok a, c).
#[export] Instance router_bind : MBind Router := fun A B f m c =>
  match m c with
  | (Ok a, c') => f a c'
  | (Raise e, c') => (Raise e, c')
  end.

Definition lift {A} (r : result A) : Router A := fun c => (r, c).

(** [try: body  except Exception as e: handler(e)] *)
Definition router_try {A} (body : Router A) (handler : exn -> Router A)
    : Router A :=
  fun c =>
    match body c with
    | (Ok a, c') => (Ok a, c')
    | (Raise e, c') => handler e c'
    end.

Definition text (cs : list ascii) : string := string_of_list_ascii cs.

(** [m.group(i)] of a group that took part in the match. *)
Definition group_text (m : rmatch_obj) (i : nat) : list ascii :=
  default [] (group m i).

(** *** The patterns *)

Definition sp1 : regex := plus Space.
Definition sp0 : regex := star Space.

(** [\d+(?:\.\d+)?] *)
Definition number : regex :=
  Cat (plus Digit) (Opt (Cat (Chr ".") (plus Digit))).

Definition metric_patterns : list regex := [
  Seq [Bnd; Lit "p/e"; sp1; Opt (Cat (Lit "ratio") sp1); Lit "of"; Bnd];
  Seq [Bnd; Lit "pe"; sp1; Opt (Cat (Lit "ratio") sp1); Lit "of"; Bnd];
  Seq [Bnd; Lit "p"; sp1; Lit "e"; sp1; Opt (Cat (Lit "ratio") sp1);
       Lit "of"; Bnd];
  Seq [Bnd; Lit "dividend"; sp1; Lit "yield"; sp1; Lit "of"; Bnd];
  Seq [Bnd; Lit "yield"; sp1; Lit "of"; Bnd];
  Seq [Bnd; Lit "p/e"; sp1; Lit "ratio"; Bnd];
  Seq [Bnd; Lit "pe"; sp1; Lit "ratio"; Bnd];
  Seq [Bnd; Lit "dividend"; sp1; Lit "yield"; Bnd]
].

(** [(\d+(?:\.\d+)?)\s*k\b] *)
Definition sip_k_pattern : regex :=
  Seq [Grp 1 number; sp0; Lit "k"; Bnd].

(** [(\d{3,9})] *)
Definition sip_plain_pattern : regex := Grp 1 (Rep Digit 3 (Some 9%nat)).

(** [(\d{1,2})\s*(year|years|yrs|y)] *)
Definition sip_years_pattern : regex :=
  Seq [Grp 1 (Rep Digit 1 (Some 2%nat)); sp0;
       Grp 2 (Any [Lit "year"; Lit "years"; Lit "yrs"; Lit "y"])].

(** [\s*(lakh|lakhs|crore|cr|k)?] *)
Definition amount_unit : regex :=
  Seq [sp0;
       Opt (Grp 2 (Any [Lit "lakh"; Lit "lakhs"; Lit "crore"; Lit "cr";
                        Lit "k"]))].

(** [(\d+(?:\.\d+)?)\s*(lakh|lakhs|crore|cr|k)?] *)
Definition amount_pattern : regex := Cat (Grp 1 number) amount_unit.

(** [(\d+(?:\.\d+)?)\s*%] *)
Definition interest_pattern : regex := Seq [Grp 1 number; sp0; Lit "%"].

(** [(\d{1,2})\s*(year|years|yrs)] *)
Definition tenure_pattern : regex :=
  Seq [Grp 1 (Rep Digit 1 (Some 2%nat)); sp0;
       Grp 2 (Any [Lit "year"; Lit "years"; Lit "yrs"])].

(** [(?:age|i am|i\'m)\s*(\d{1,2})] *)
Definition age_pattern : regex :=
  Seq [Any [Lit "age"; Lit "i am"; Lit "i'm"]; sp0;
       Grp 1 (Rep Digit 1 (Some 2%nat))].

(** [(?:retire\s*at|retirement\s*age)\s*(\d{2})] *)
Definition retire_pattern : regex :=
  Seq [Any [Seq [Lit "retire"; sp0; Lit "at"];
            Seq [Lit "retirement"; sp0; Lit "age"]];
       sp0; Grp 1 (Rep Digit 2 (Some 2%nat))].

(** [(?:expense|spend|need)\s*(\d+(?:\.\d+)?)\s*(k|lakh|lakhs|crore|cr)?] *)
Definition expense_pattern : regex :=
  Seq [Any [Lit "expense"; Lit "spend"; Lit "need"]; sp0; Grp 1 number; sp0;
       Opt (Grp 2 (Any [Lit "k"; Lit "lakh"; Lit "lakhs"; Lit "crore";
                        Lit "cr"]))].

(** *** Amounts *)

(** [int(float(digits) * factor)] *)
Definition scaled (digits : list ascii) (factor : Z) : result Z :=
  int_of_float (Float64.mul (Float64.of_decimal digits) (Float64.of_Z factor)).

(** The unit ladder shared by the EMI, retirement and portfolio
    detectors: [val = float(m.group(1))], [unit = (m.group(2) or '').lower()],
    then the multiplier of the first unit word found in [unit]. *)
Definition resolve_amount (m : rmatch_obj) : result Z :=
  let val := group_text m 1 in
  let unit := lower (text (group_text m 2)) in
  if contains "lakh" unit then scaled val 100000
  else if contains "crore" unit || contains "cr" unit then scaled val 10000000
  else if contains "k" unit then scaled val 1000
  else int_of_float (Float64.of_decimal val).

(** [lo <= v <= hi] for a value of any type. *)
Definition between (lo : Z) (v : pyval) (hi : Z) : result bool :=
  x ← as_number v;
  mret (Qle_bool (inject_Z lo) x && Qle_bool x (inject_Z hi)).

(** [int(monthly_income * share)] when [monthly_income] is a positive
    number, [fallback] otherwise. *)
Definition income_share (monthly_income : pyval) (share : Float64.float)
    (fallback : Z) : result Z :=
  match monthly_income with
  | VBool b =>
      if b then x ← float_of_int 1; int_of_float (Float64.mul x share)
      else Ok fallback
  | VInt z =>
      if 0 <? z then x ← float_of_int z; int_of_float (Float64.mul x share)
      else Ok fallback
  | VFloat q =>
      if FinancialCalculator.Qltb 0 q then
        int_of_float (Float64.mul (float_of_Q q) share)
      else Ok fallback
  | _ => Ok fallback
  end.

(** *** The detectors that read the query alone *)

Definition q_action (name query : string) : detected :=
  Detected name {[ "query" := VStr query ]}.

(** [any(re.search(pattern, q) for pattern in metric_patterns)] *)
Definition metric_trigger (q : string) : bool :=
  existsb (fun pattern => matches pattern q) metric_patterns.

Definition metric_exclusions : list string :=
  ["mutual fund"; "fund"; "best"; "top"].

Definition _detect_stock_metric (query : string) : option detected :=
  let q := lower query in
  if metric_trigger q then
    if negb (any_in metric_exclusions q) then
      Some (q_action "get_stock_metric" query)
    else None
  else None.

Definition stock_keywords : list string :=
  ["stock"; "price"; "share"; "trading"; "quote"; "market cap"].

Definition stock_exclusions : list string :=
  ["mutual fund"; "nav"; "sip"; "emi"; "portfolio"; "best"; "top"; "etf";
   "bees"; "fund"; "p/e"; "pe ratio"; "dividend yield"].

Definition _detect_stock_price (query : string) : option detected :=
  let q := lower query in
  if any_in stock_keywords q then
    if negb (any_in stock_exclusions q) then
      Some (q_action "get_stock_price" query)
    else None
  else None.

Definition _detect_etf (query : string) : option detected :=
  let q := lower query in
  if contains "etf" q || contains "bees" q || contains "index fund" q then
    Some (q_action "get_etf_price" query)
  else None.

Definition _detect_mf_nav (query : string) : option detected :=
  let q := lower query in
  if contains "nav" q || (contains "mutual fund" q && contains "price" q) then
    if negb (any_in ["best"; "top"; "good"; "recommend"] q) then
      Some (q_action "search_mutual_fund" query)
    else None
  else None.

Definition _detect_fund_category (query : string) : option detected :=
  let q := lower query in
  let category_keywords := ["best"; "top"; "good"; "show"; "recommend"] in
  let fund_types :=
    ["large cap"; "mid cap"; "small cap"; "elss"; "equity"; "debt"; "hybrid";
     "mutual fund"; "balanced"] in
  if any_in category_keywords q && any_in fund_types q then
    let category :=
      if contains "large cap" q || contains "largecap" q then "large cap"
      else if contains "mid cap" q || contains "midcap" q then "mid cap"
      else if contains "small cap" q || contains "smallcap" q then "small cap"
      else if contains "elss" q || contains "tax saver" q then "elss"
      else if contains "debt" q || contains "bond" q then "debt"
      else if contains "hybrid" q || contains "balanced" q then "hybrid"
      else "equity" in
    Some (Detected "get_top_funds"
            {[ "category" := VStr category;
               "limit" := VInt MF_TOP_FUNDS_LIMIT ]})
  else None.

(** The amount extraction of the EMI and portfolio detectors: the first
    match of [amount_pattern] resolved by the unit ladder, [None] when the
    query holds no number. *)
Definition extract_amount (q : string) : result (option Z) :=
  match search amount_pattern q with
  | Some m_amt => amt ← resolve_amount m_amt; mret (Some amt)
  | None => mret None
  end.

Definition _detect_emi (query : string) : result (option detected) :=
  let q := lower query in
  if any_in ["emi"; "loan"] q then
    found ← extract_amount q;
    match found with
    | Some amt =>
        if negb ((EMI_MIN_LOAN <=? amt) && (amt <=? EMI_MAX_LOAN)) then
          mret None
        else
          let interest :=
            match search interest_pattern q with
            | Some m_int => Float64.of_decimal (group_text m_int 1)
            | None => float_of_Q DEFAULT_EMI_INTEREST
            end in
          if negb (Float64.leb (Float64.of_Z EMI_MIN_INTEREST) interest
                   && Float64.leb interest (Float64.of_Z EMI_MAX_INTEREST))
          then mret None
          else
            let tenure :=
              match search tenure_pattern q with
              | Some m_tenure => digits_val (group_text m_tenure 1)
              | None => 20
              end in
            if negb ((EMI_MIN_TENURE <=? tenure) && (tenure <=? EMI_MAX_TENURE))
            then mret None
            else
              mret (Some (Detected "calculate_emi"
                {[ "loan_amount" := VInt amt;
                   "interest_rate" := VFloat (Float64.to_Q interest);
                   "tenure_years" := VInt tenure ]}))
    | None => mret None
    end
  else mret None.

(** [int(m_years.group(1)) if m_years else 10] *)
Definition sip_years (q : string) : Z :=
  match search sip_years_pattern q with
  | Some m_years => digits_val (group_text m_years 1)
  | None => 10
  end.

(** *** The detectors that read the user's profile *)

Section Profiles.
Context {profiles : UserProfileManager}.

Definition _get_cached_profile (user_id : string) : Router pyval :=
  fun cache =>
    let cache' :=
      match cache !! user_id with
      | None =>
          let profile_data := load_profile user_id in
          <[ user_id := if truthy profile_data then profile_data
                        else VDict ∅ ]> cache
      | Some _ => cache
      end in
    (match cache' !! user_id with
     | Some profile => Ok profile
     | None => Raise (KeyError user_id)
     end, cache').

(** [self._get_cached_profile(user_id).get("profile", {})] *)
Definition user_profile (user_id : string) : Router pyval :=
  cached ← _get_cached_profile user_id;
  lift (get cached "profile" (VDict ∅)).

(** The SIP detector's amount from the query: [None] when the query
    holds neither a [k] amount nor a run of three digits. *)
Definition sip_query_amount (q : string) : result (option Z) :=
  match search sip_k_pattern q with
  | Some m_amt => amount ← scaled (group_text m_amt 1) 1000; mret (Some amount)
  | None =>
      match search sip_plain_pattern q with
      | Some m_amt => mret (Some (digits_val (group_text m_amt 1)))
      | None => mret None
      end
  end.

(** The amount the SIP detector resolves: from the query, else 20% of
    the profile's monthly income, else 5000. *)
Definition sip_amount (q user_id : string) : Router Z :=
  found ← lift (sip_query_amount q);
  match found with
  | Some amount => mret amount
  | None =>
      profile ← user_profile user_id;
      monthly_income ← lift (get profile "monthly_income" (VInt 0));
      lift (income_share monthly_income (Float64.of_ratio 20 100) 5000)
  end.

Definition _detect_sip (query user_id : string) : Router (option detected) :=
  let q := lower query in
  if contains "sip" q then
    amount ← sip_amount q user_id;
    if negb ((SIP_MIN_AMOUNT <=? amount) && (amount <=? SIP_MAX_AMOUNT)) then
      mret None
    else
      let years := sip_years q in
      if negb ((SIP_MIN_YEARS <=? years) && (years <=? SIP_MAX_YEARS)) then
        mret None
      else
        mret (Some (Detected "calculate_sip"
          {[ "monthly_sip" := VInt amount;
             "years" := VInt years;
             "expected_return" := VFloat DEFAULT_SIP_RETURN ]}))
  else mret None.

Definition _detect_retirement (query user_id : string)
    : Router (option detected) :=
  let q := lower query in
  if contains "retirement" q || contains "corpus" q || contains "retire" q
  then
    profile ← user_profile user_id;
    current_age ←
      match search age_pattern q with
      | Some m_age => mret (VInt (digits_val (group_text m_age 1)))
      | None => lift (get profile "age" (VInt 30))
      end;
    age_ok ← lift (between MIN_AGE current_age MAX_AGE);
    if negb age_ok then mret None
    else
      let retirement_age :=
        match search retire_pattern q with
        | Some m_ret => digits_val (group_text m_ret 1)
        | None => 60
        end in
      if negb ((MIN_RETIREMENT_AGE <=? retirement_age)
               && (retirement_age <=? MAX_RETIREMENT_AGE)) then mret None
      else
        age ← lift (as_number current_age);
        if Qle_bool (inject_Z retirement_age) age then mret None
        else
          monthly_expense ←
            match search expense_pattern q with
            | Some m_exp => lift (resolve_amount m_exp)
            | None =>
                monthly_income ← lift (get profile "monthly_income" (VInt 0));
                lift (income_share monthly_income (Float64.of_ratio 7 10)
                        50000)
            end;
          if negb ((MIN_MONTHLY_EXPENSE <=? monthly_expense)
                   && (monthly_expense <=? MAX_MONTHLY_EXPENSE)) then
            mret None
          else
            mret (Some (Detected "calculate_retirement"
              {[ "current_age" := current_age;
                 "retirement_age" := VInt retirement_age;
                 "monthly_expense" := VInt monthly_expense ]}))
  else mret None.

Definition _detect_portfolio (query user_id : string)
    : Router (option detected) :=
  let q := lower query in
  if contains "portfolio" q
     || (contains "invest" q
         && any_in ["i have"; "create"; "suggest"; "build"] q)
  then
    profile ← user_profile user_id;
    found ← lift (extract_amount q);
    let amt := default 100000 found in
    if negb ((MIN_INVESTMENT <=? amt) && (amt <=? MAX_INVESTMENT)) then
      mret None
    else
      age ← lift (get profile "age" (VInt 30));
      risk ← lift (get profile "risk_appetite" (VStr "moderate"));
      mret (Some (Detected "get_portfolio_recommendation"
        {[ "age" := age;
           "risk_appetite" := risk;
           "investment_amount" := VInt amt ]}))
  else mret None.

(** *** The priority dispatcher *)

(** [result = detector(...); if result: return result], then the rest. *)
Definition or_else (first : Router (option detected))
    (next : Router (option detected)) : Router (option detected) :=
  found ← first;
  match found with
  | Some result => mret (Some result)
  | None => next
  end.

Definition _detect_action_with_priority (query user_id : string)
    : Router (option detected) :=
  or_else (mret (_detect_stock_metric query))
  (or_else (mret (_detect_stock_price query))
  (or_else (mret (_detect_etf query))
  (or_else (mret (_detect_mf_nav query))
  (or_else (mret (_detect_fund_category query))
  (or_else (_detect_sip query user_id)
  (or_else (lift (_detect_emi query))
  (or_else (_detect_retirement query user_id)
  (or_else (_detect_portfolio query user_id)
  (mret None))))))))).

End Profiles.

(** *** The action executor and the query handler *)

(** What [handle_query] returns:
    [{"type": ..., "response": ..., "data": {...}}]. *)
Record reply := Reply {
  type : string;
  response : pyval;
  data : pydict
}.

Section Handler.
Context {market : MarketDataAgent} {calculator : Calculator}
        {llm : LLMEngine} {retriever : Retriever}
        {profiles : UserProfileManager} {format : PyFormat}.

(** [str(v)], the text of [{v}] in an f-string. *)
Definition str (v : pyval) : string :=
  match v with
  | VStr s => s
  | _ => py_repr v
  end.

(** [action == name] *)
Definition is_action (action : pyval) (name : string) : bool :=
  match action with
  | VStr s => String.eqb s name
  | _ => false
  end.

Definition error_result (msg : string) : pydict := {[ "error" := VStr msg ]}.

Definition _execute_action (action parameters : pyval) : result pydict :=
  try_except
    (if is_action action "get_stock_price" then
       query ← getitem parameters "query"; get_stock_price query
     else if is_action action "get_stock_metric" then
       query ← getitem parameters "query"; get_stock_metric query
     else if is_action action "get_etf_price" then
       query ← getitem parameters "query"; get_etf_price query
     else if is_action action "search_mutual_fund" then
       query ← getitem parameters "query"; search_fund_dynamic query
     else if is_action action "get_top_funds" then
       category ← getitem parameters "category";
       limit ← get parameters "limit" (VInt MF_TOP_FUNDS_LIMIT);
       get_top_funds_by_category category limit
     else if is_action action "calculate_sip" then
       monthly_sip ← getitem parameters "monthly_sip";
       years ← getitem parameters "years";
       expected_return ←
         get parameters "expected_return" (VFloat DEFAULT_SIP_RETURN);
       calc_sip_returns monthly_sip years expected_return
     else if is_action action "calculate_emi" then
       loan_amount ← getitem parameters "loan_amount";
       interest_rate ←
         get parameters "interest_rate" (VFloat DEFAULT_EMI_INTEREST);
       tenure_years ← getitem parameters "tenure_years";
       calc_emi_calculator loan_amount interest_rate tenure_years
     else if is_action action "calculate_retirement" then
       current_age ← getitem parameters "current_age";
       retirement_age ← getitem parameters "retirement_age";
       monthly_expense ← getitem parameters "monthly_expense";
       calc_retirement_corpus current_age retirement_age monthly_expense
     else if is_action action "get_portfolio_recommendation" then
       age ← getitem parameters "age";
       risk_appetite ← getitem parameters "risk_appetite";
       investment_amount ← getitem parameters "investment_amount";
       get_personalized_portfolio age risk_appetite investment_amount
     else
       mret (error_result ("Unknown action: " +:+ str action)))
    (fun e =>
       mret (error_result ("Error executing " +:+ str action +:+ ": "
                           +:+ exn_msg e))).

Definition _needs_knowledge_retrieval (query : string) : bool :=
  any_in ["what is"; "explain"; "difference"; "how does"; "why";
          "tell me about"; "define"; "meaning"] (lower query).

Definition has_key (key : string) (d : pydict) : bool :=
  bool_decide (is_Some (d !! key)).

(** [d[key]] of a dictionary *)
Definition item (d : pydict) (key : string) : result pyval :=
  getitem (VDict d) key.

Definition _fallback_summary (data : pydict) (query : string)
    : result string :=
  if has_key "error" data then
    e ← item data "error"; mret ("Sorry, " +:+ str e)
  else if has_key "company" data && has_key "price" data then
    company ← item data "company";
    price ← item data "price";
    change ← py_format (default (VInt 0) (data !! "change_percent")) "+.2f";
    mret (str company +:+ " is trading at ₹" +:+ str price +:+ ", "
          +:+ change +:+ "% today.")
  else if has_key "dividend_yield" data then
    dy ← item data "dividend_yield";
    mret ("Dividend yield: " +:+ str dy +:+ "%")
  else if has_key "pe_ratio" data then
    pe ← item data "pe_ratio"; mret ("P/E ratio: " +:+ str pe)
  else if has_key "monthly_emi" data then
    emi ← item data "monthly_emi";
    shown ← py_format emi ",.0f";
    mret ("Monthly EMI: ₹" +:+ shown)
  else if has_key "maturity_amount" data then
    maturity ← item data "maturity_amount";
    shown ← py_format maturity ",.0f";
    mret ("SIP maturity value: ₹" +:+ shown)
  else mret "Here's the data you requested.".

(** The body of the outer [try] of [handle_query]. *)
Definition handle_query_body (query user_id : string) : Router reply :=
  detected_action ← _detect_action_with_priority query user_id;
  match detected_action with
  | Some found =>
      result ← lift (_execute_action (VStr (action found))
                       (VDict (parameters found)));
      summary ← lift (try_except (summarize_data result query)
                        (fun _ => _fallback_summary result query));
      mret (Reply "finance_response" (VStr summary) result)
  | None =>
      user_context ← lift (get_context_summary user_id);
      rag_context ←
        (if _needs_knowledge_retrieval query then lift (get_context query)
         else mret EmptyString);
      match get_response query rag_context user_context with
      | Raise e =>
          mret (Reply "error"
                  (VStr "I'm having trouble processing your query. The AI service may be unavailable.")
                  {[ "error" := VStr (exn_msg e) ]})
      | Ok llm_response =>
          if has_key "action" llm_response
             && has_key "parameters" llm_response then
            proposed ← lift (item llm_response "action");
            params ← lift (item llm_response "parameters");
            result ← lift (_execute_action proposed params);
            summary ← lift (summarize_data result query);
            mret (Reply "finance_response" (VStr summary) result)
          else
            mret (Reply "conversational"
                    (default (VStr "I'm not sure how to help with that.")
                       (llm_response !! "content"))
                    ∅)
      end
  end.

Definition handle_query (query user_id : string) : Router reply :=
  router_try (handle_query_body query user_id)
    (fun e =>
       mret (Reply "error" (VStr ("An error occurred: " +:+ exn_msg e))
               {[ "error" := VStr (exn_msg e) ]})).

End Handler.

End QueryRouter.

(** ** The calculator as the router's collaborator *)

Module CalculatorBinding.
Import Py FinancialCalculator.

Definition as_int (v : pyval) : result Z :=
  match v with
  | VBool b => Ok (if b then 1 else 0)
  | VInt z => Ok z
  | _ => Raise (TypeError ("'" +:+ type_name v
                           +:+ "' object cannot be interpreted as an integer"))
  end.

Definition as_optional_number (v : pyval) : result (option Q) :=
  match v with
  | VNone => Ok None
  | _ => x ← as_number v; mret (Some x)
  end.

Definition opt_dict {A} (to_dict : A -> pydict) (o : option A) : pyval :=
  match o with
  | Some a => VDict (to_dict a)
  | None => VNone
  end.

Section Dictionaries.
Context {floats : FloatLib}.

Definition sip_year_dict (r : sip_year) : pydict :=
  list_to_map [
    ("year", VInt (sy_year r)); ("invested", VFloat (sy_invested r));
    ("value", VFloat (sy_value r)); ("gains", VFloat (sy_gains r)) ].

Definition sip_dict (p : sip_payload) : pydict :=
  list_to_map [
    ("monthly_sip", VFloat (sip_monthly_sip p));
    ("years", VInt (sip_years p));
    ("investment_period", VStr (pretty (sip_years p) +:+ " years"));
    ("expected_return", VFloat (sip_expected_return p));
    ("expected_return_display",
       VStr (ffix 1 (sip_expected_return p * 100) +:+ "%"));
    ("total_invested", VFloat (sip_total_invested p));
    ("maturity_amount", VFloat (sip_maturity_amount p));
    ("gains", VFloat (sip_gains p));
    ("returns_percentage", VFloat (sip_returns_percentage p));
    ("calculation_breakdown", VDict (list_to_map [
       ("step1_monthly_sip", VFloat (sip_monthly_sip p));
       ("step2_total_months", VInt (sip_total_months p));
       ("step3_monthly_rate", VFloat (sip_monthly_rate_percent p));
       ("step4_total_invested", VFloat (sip_total_invested p));
       ("step5_maturity_value", VFloat (sip_maturity_amount p));
       ("step6_total_gains", VFloat (sip_gains p));
       ("step7_returns_percent", VFloat (sip_returns_percentage p)) ]));
    ("yearly_breakdown",
       VList (map (fun r => VDict (sip_year_dict r)) (sip_yearly_breakdown p)));
    ("milestones", VDict (list_to_map [
       ("year_5", opt_dict sip_year_dict (sip_year_5 p));
       ("year_10", opt_dict sip_year_dict (sip_year_10 p));
       ("year_15", opt_dict sip_year_dict (sip_year_15 p));
       ("year_20", opt_dict sip_year_dict (sip_year_20 p)) ])) ].

Definition emi_year_dict (r : emi_year) : pydict :=
  list_to_map [
    ("year", VInt (ey_year r));
    ("principal_paid", VFloat (ey_principal_paid r));
    ("interest_paid", VFloat (ey_interest_paid r));
    ("total_paid", VFloat (ey_total_paid r));
    ("remaining_balance", VFloat (ey_remaining_balance r)) ].

Definition emi_dict (p : emi_payload) : pydict :=
  list_to_map [
    ("loan_amount", VFloat (emi_loan_amount p));
    ("interest_rate", VFloat (emi_interest_rate p));
    ("interest_rate_display", VStr (fstr (emi_interest_rate p) +:+ "%"));
    ("tenure", VStr (pretty (emi_tenure_years p) +:+ " years"));
    ("tenure_years", VInt (emi_tenure_years p));
    ("tenure_months", VInt (emi_tenure_months p));
    ("monthly_emi", VFloat (emi_monthly_emi p));
    ("total_payment", VFloat (emi_total_payment p));
    ("total_interest", VFloat (emi_total_interest p));
    ("principal_percentage", VFloat (emi_principal_percentage p));
    ("interest_percentage", VFloat (emi_interest_percentage p));
    ("calculation_breakdown", VDict (list_to_map [
       ("step1_loan_amount", VFloat (emi_loan_amount p));
       ("step2_monthly_interest_rate", VFloat (emi_monthly_rate_percent p));
       ("step3_total_months", VInt (emi_tenure_months p));
       ("step4_monthly_emi", VFloat (emi_monthly_emi p));
       ("step5_total_payment", VFloat (emi_total_payment p));
       ("step6_total_interest", VFloat (emi_total_interest p));
       ("step7_interest_to_principal_ratio",
          VFloat (emi_interest_to_principal_ratio p)) ]));
    ("yearly_breakdown",
       VList (map (fun r => VDict (emi_year_dict r)) (emi_yearly_breakdown p)));
    ("milestones", VDict (list_to_map [
       ("year_1", opt_dict emi_year_dict (emi_year_1 p));
       ("year_5", opt_dict emi_year_dict (emi_year_5 p));
       ("year_10", opt_dict emi_year_dict (emi_year_10 p));
       ("year_15", opt_dict emi_year_dict (emi_year_15 p));
       ("year_20", opt_dict emi_year_dict (emi_year_20 p)) ]));
    ("summary", VDict (list_to_map [
       ("first_year_principal", VFloat (emi_first_year_principal p));
       ("first_year_interest", VFloat (emi_first_year_interest p));
       ("last_year_principal", VFloat (emi_last_year_principal p));
       ("last_year_interest", VFloat (emi_last_year_interest p)) ])) ].

Definition retirement_dict (p : retirement_payload) : pydict :=
  list_to_map [
    ("current_age", VInt (ret_current_age p));
    ("retirement_age", VInt (ret_retirement_age p));
    ("years_to_retirement", VInt (ret_years_to_retirement p));
    ("current_monthly_expense", VFloat (ret_current_monthly_expense p));
    ("future_monthly_expense", VFloat (ret_future_monthly_expense p));
    ("corpus_needed", VFloat (ret_corpus_needed p));
    ("monthly_sip_required", VFloat (ret_monthly_sip_required p));
    ("total_sip_investment", VFloat (ret_total_sip_investment p));
    ("inflation_rate", VFloat (ret_inflation_rate p));
    ("assumed_sip_return", VFloat (ret_assumed_sip_return p));
    ("assumed_post_retirement_return",
       VFloat (ret_assumed_post_retirement_return p));
    ("post_retirement_years", VInt (ret_post_retirement_years p));
    ("calculation_breakdown", VDict (list_to_map [
       ("step1_years_to_retirement", VInt (ret_years_to_retirement p));
       ("step2_inflation_multiplier", VFloat (ret_inflation_multiplier p));
       ("step3_future_monthly_expense",
          VFloat (ret_future_monthly_expense p));
       ("step4_annual_expense_at_retirement",
          VFloat (ret_annual_expense_at_retirement p));
       ("step5_total_for_25_years", VFloat (ret_total_for_post_retirement p));
       ("step6_discount_factor", VFloat (ret_discount_factor p));
       ("step7_final_corpus", VFloat (ret_corpus_needed p)) ])) ].

(** The calculator behind [self.calculator]: each argument is read at
    its annotated type, and a value of another type is a [TypeError]. *)
#[export] Instance financial_calculator : Calculator := {|
  calc_sip_returns := fun monthly_sip years expected_return =>
    P ← as_number monthly_sip;
    Y ← as_int years;
    r ← as_optional_number expected_return;
    o ← sip_returns P Y r;
    mret (outcome_dict sip_dict o);
  calc_emi_calculator := fun loan_amount interest_rate tenure_years =>
    L ← as_number loan_amount;
    r ← as_optional_number interest_rate;
    T ← as_int tenure_years;
    o ← emi_calculator L r T;
    mret (outcome_dict emi_dict o);
  calc_retirement_corpus := fun current_age retirement_age monthly_expense =>
    a ← as_int current_age;
    b ← as_int retirement_age;
    e ← as_number monthly_expense;
    o ← retirement_corpus a b e None None None None;
    mret (outcome_dict retirement_dict o)
|}.

End Dictionaries.
End CalculatorBinding.

(** ** A router with no collaborator reachable

    No profile is stored, every external call fails, and floats print as
    fractions. These instances run the router on concrete queries. *)

Module Offline.
Import Py.

Definition unreachable {A} : result A :=
  Raise (Exn "ConnectionError" "service unavailable").

Definition no_profiles : UserProfileManager := {|
  load_profile := fun _ => VNone;
  get_context_summary := fun _ => Ok EmptyString
|}.

Definition no_market : MarketDataAgent := {|
  get_stock_price := fun _ => unreachable;
  get_stock_metric := fun _ => unreachable;
  get_etf_price := fun _ => unreachable;
  search_fund_dynamic := fun _ => unreachable;
  get_top_funds_by_category := fun _ _ => unreachable;
  get_personalized_portfolio := fun _ _ _ => unreachable
|}.

Definition no_llm : LLMEngine := {|
  summarize_data := fun _ _ => unreachable;
  get_response := fun _ _ _ => unreachable
|}.

Definition no_retriever : Retriever := {|
  get_context := fun _ => unreachable
|}.

Definition plain_format : PyFormat := {|
  py_repr := fun v => type_name v;
  py_format := fun v _ => Ok (type_name v)
|}.

(** Exact powers at whole exponents; [fpow] rounds the exponent down. *)
Definition fraction_lib : FloatLib := {|
  fpow := fun b e => Qpower b (Qfloor e);
  fstr := fun x => pretty (Qnum x) +:+ "/" +:+ pretty (Zpos (Qden x));
  ffix := fun _ x => pretty (Qnum x) +:+ "/" +:+ pretty (Zpos (Qden x))
|}.

End Offline.

(** ** The words of the specification *)

Module Spec.
Import Py Config.

(** The nine recognised action kinds. *)
Definition action_kinds : list string :=
  ["get_stock_metric"; "get_stock_price"; "get_etf_price";
   "search_mutual_fund"; "get_top_funds"; "calculate_sip"; "calculate_emi";
   "calculate_retirement"; "get_portfolio_recommendation"].



(** The three shapes of a response. *)
Definition response_types : list string :=
  ["finance_response"; "conversational"; "error"].

(** An input that violates the validation rules of [sip_returns]. *)
Definition sip_invalid (monthly_sip : Q) (years : Z) (expected_return : Q)
    : Prop :=
  (monthly_sip <= 0)%Q \/ years <= 0 \/ 50 < years
  \/ (expected_return < 0)%Q \/ (1 < expected_return)%Q.

(** An input that violates the validation rules of [emi_calculator]. *)
Definition emi_invalid (loan_amount interest_rate : Q) (tenure_years : Z)
    : Prop :=
  (loan_amount <= 0)%Q \/ (inject_Z EMI_MAX_LOAN < loan_amount)%Q
  \/ (interest_rate <= 0)%Q \/ (30 < interest_rate)%Q
  \/ tenure_years <= 0 \/ 30 < tenure_years.

Definition rate_invalid (rate : Q) : Prop := (rate < 0)%Q \/ (1 < rate)%Q.

Definition age_invalid (age : Z) : Prop := age <= 0 \/ 120 <= age.

(** An input that violates the validation rules of [retirement_corpus]. *)
Definition retirement_invalid (current_age retirement_age : Z)
    (monthly_expense inflation : Q) (post_retirement_years : Z)
    (sip_return post_ret_return : Q) : Prop :=
  age_invalid current_age \/ age_invalid retirement_age
  \/ (monthly_expense <= 0)%Q
  \/ retirement_age <= current_age
  \/ 50 < retirement_age - current_age
  \/ 50 < post_retirement_years
  \/ rate_invalid inflation \/ rate_invalid sip_return
  \/ rate_invalid post_ret_return.

(** An input that passes the validation rules of [retirement_corpus]. *)
Definition retirement_valid (current_age retirement_age : Z)
    (monthly_expense inflation : Q) (post_retirement_years : Z)
    (sip_return post_ret_return : Q) : Prop :=
  0 < current_age < 120 /\ 0 < retirement_age < 120
  /\ (0 < monthly_expense)%Q
  /\ current_age < retirement_age
  /\ retirement_age - current_age <= 50
  /\ post_retirement_years <= 50
  /\ (0 <= inflation <= 1)%Q /\ (0 <= sip_return <= 1)%Q
  /\ (0 <= post_ret_return <= 1)%Q.

End Spec.

(** ** What the executor reads from the parameters *)

Module Contract.

(** The keys [_execute_action] subscripts for each action kind. *)
Definition required_keys (action : string) : list string :=
  if String.eqb action "get_stock_price" then ["query"]
  else if String.eqb action "get_stock_metric" then ["query"]
  else if String.eqb action "get_etf_price" then ["query"]
  else if String.eqb action "search_mutual_fund" then ["query"]
  else if String.eqb action "get_top_funds" then ["category"]
  else if String.eqb action "calculate_sip" then ["monthly_sip"; "years"]
  else if String.eqb action "calculate_emi" then ["loan_amount"; "tenure_years"]
  else if String.eqb action "calculate_retirement" then
    ["current_age"; "retirement_age"; "monthly_expense"]
  else if String.eqb action "get_portfolio_recommendation" then
    ["age"; "risk_appetite"; "investment_amount"]
  else [].

(** The cache once the profile of [user_id] is memoised in it. *)
Definition memoised `{UserProfileManager} (user_id : string)
    (cache : gmap string Py.pyval) : gmap string Py.pyval :=
  (QueryRouter._get_cached_profile user_id cache).2.

(** A method of the router that changes the cache at most by memoising
    the profile of [user_id]. *)
Definition frames `{UserProfileManager} {A : Type} (user_id : string)
    (method : QueryRouter.Router A) : Prop :=
  forall cache : gmap string Py.pyval,
    (method cache).2 = cache \/ (method cache).2 = memoised user_id cache.

End Contract.

(** ** The loops of the calculators in closed form *)

Module Closed.
Import FinancialCalculator.

Section Rows.
Context {floats : FloatLib}.

(** The row [sip_returns] appends for [year], away from a zero rate. *)
Definition sip_row_of (monthly_sip monthly_rate : Q) (year : Z) : sip_year :=
  let m := year * 12 in
  let value :=
    (monthly_sip * ((pow (1 + monthly_rate) (inject_Z m) - 1) / monthly_rate)
     * (1 + monthly_rate))%Q in
  let invested := (monthly_sip * inject_Z m)%Q in
  {| sy_year := year;
     sy_invested := round invested 0;
     sy_value := round value 0;
     sy_gains := round (value - invested) 0 |}.


(** The instalment [emi_calculator] computes at a rate that is not zero. *)
Definition emi_of (loan_amount monthly_rate : Q) (months : Z) : Q :=
  let growth := pow (1 + monthly_rate) (inject_Z months) in
  (loan_amount * monthly_rate * growth / (growth - 1))%Q.

End Rows.
End Closed.

(** ** core/llm_engine.py *)

(** The model server and the parts of the engine that parse and print JSON:
    [chat_completion prompt temperature max_tokens] is
    [client.chat.completions.create(...).choices[0].message.content.strip()],
    [extract_json] is [_extract_json], [json_dumps] is
    [json.dumps(data, indent=2)], [template_summary] is the engine's
    [_fallback_summary], and the two prompt texts are those of
    [_get_system_prompt] and [_get_action_prompt]. *)
Class ChatClient := {
  chat_completion : string -> Q -> Z -> Py.result string;
  extract_json : string -> Py.result (option Py.pydict);
  json_dumps : Py.pydict -> string;
  template_summary : Py.pydict -> string -> Py.result string;
  system_prompt : string;
  action_prompt : string
}.

Module LLM.
Import PyStr Py.

Definition LLM_MAX_TOKENS_QUERY : Z := 300.
Definition LLM_MAX_TOKENS_SUMMARY : Z := 200.
Definition LLM_MAX_TOKENS_CONVERSATION : Z := 500.
Definition LLM_TEMPERATURE_JSON : Q := Config.float_lit 3 10.
Definition LLM_TEMPERATURE_CHAT : Q := Config.float_lit 4 10.

Definition RuntimeError (msg : string) : exn := Exn "RuntimeError" msg.

(** [s[:n]] *)
Definition prefix (n : nat) (s : string) : string :=
  string_of_list_ascii (take n (chars s)).

Definition newline : string := String "010"%char EmptyString.

Definition dquote : string := String "034"%char EmptyString.

(** [bool(s)] of a string *)
Definition nonempty (s : string) : bool := negb (String.eqb s EmptyString).

(** What [generate] sends to the model. *)
Record chat_request := ChatRequest {
  req_prompt : string;
  req_temperature : Q;
  req_max_tokens : Z
}.

Section Engine.
Context {client : ChatClient}.

Definition generate_request (prompt : string) (json_mode : bool)
    (context : string) (max_tokens : Z) : chat_request :=
  if json_mode then
    ChatRequest
      (action_prompt +:+ newline +:+ newline
       +:+ (if nonempty context then
              "Context: " +:+ prefix 500 context +:+ newline +:+ newline
            else EmptyString)
       +:+ "Query: " +:+ prompt)
      LLM_TEMPERATURE_JSON
      (Z.min max_tokens LLM_MAX_TOKENS_QUERY)
  else
    ChatRequest
      (system_prompt +:+ newline +:+ newline
       +:+ (if nonempty context then
              "Context: " +:+ prefix 800 context +:+ newline +:+ newline
            else EmptyString)
       +:+ "User: " +:+ prompt)
      LLM_TEMPERATURE_CHAT
      (Z.min max_tokens LLM_MAX_TOKENS_CONVERSATION).

Definition generate (prompt : string) (json_mode : bool) (context : string)
    (max_tokens : Z) : result string :=
  let request := generate_request prompt json_mode context max_tokens in
  try_except
    (chat_completion (req_prompt request) (req_temperature request)
       (req_max_tokens request))
    (fun e => Raise (RuntimeError ("LLM generation failed: " +:+ exn_msg e))).

(** The context [get_response] passes on: at most 600 characters of the
    retrieved text, a newline, and at most 200 of the profile summary. *)
Definition full_context (context user_profile : string) : string :=
  (if nonempty context then prefix 600 context +:+ newline else EmptyString)
  +:+ (if nonempty user_profile then prefix 200 user_profile else EmptyString).

Definition get_response (user_query context user_profile : string)
    : result pydict :=
  let full_context := full_context context user_profile in
  try_except
    (response ← generate user_query true full_context LLM_MAX_TOKENS_QUERY;
     parsed ← extract_json response;
     match parsed with
     | Some d =>
         if truthy (VDict d)
            && bool_decide (is_Some (d !! "action"))
            && bool_decide (is_Some (d !! "parameters"))
         then mret d
         else
           conv_response ← generate user_query false full_context
                             LLM_MAX_TOKENS_CONVERSATION;
           mret {[ "content" := VStr conv_response ]}
     | None =>
         conv_response ← generate user_query false full_context
                           LLM_MAX_TOKENS_CONVERSATION;
         mret {[ "content" := VStr conv_response ]}
     end)
    (fun e =>
       mret {[ "error" := VStr (exn_msg e);
               "content" := VStr "I'm having trouble connecting to the AI model. Please check if LM Studio is running." ]}).

Section Summary.
Context {format : PyFormat}.

(** [str(v)] *)
Definition str (v : pyval) : string :=
  match v with
  | VStr s => s
  | _ => py_repr v
  end.

Definition summary_prompt (data : pydict) (original_query : string) : string :=
  "Summarize for: " +:+ dquote +:+ original_query +:+ dquote
  +:+ newline +:+ newline
  +:+ "Data: " +:+ prefix 1000 (json_dumps data) +:+ newline +:+ newline
  +:+ "Requirements:" +:+ newline
  +:+ "- Use exact asset name from query" +:+ newline
  +:+ "- Include key metrics" +:+ newline
  +:+ "- 2-3 sentences max" +:+ newline
  +:+ "- Use â‚¹ for currency" +:+ newline
  +:+ "- Don't use ticker symbols" +:+ newline +:+ newline
  +:+ "Summary:".

Definition summarize_data (data : pydict) (original_query : string)
    : result string :=
  if bool_decide (is_Some (data !! "error")) then
    mret ("Sorry, I couldn't find information for '" +:+ original_query
          +:+ "'. " +:+ str (default (VStr EmptyString) (data !! "error")))
  else
    try_except
      (generate (summary_prompt data original_query) false EmptyString
         LLM_MAX_TOKENS_SUMMARY)
      (fun _ => template_summary data original_query).

(** The engine, as the router holds it in [self.llm]. *)
Definition engine : LLMEngine := Build_LLMEngine summarize_data get_response.
End Summary.
End Engine.
End LLM.

(** ** agents/market_data_agent.py: the portfolio recommendation *)

Module MarketData.
Import PyStr Py.

Definition adjustments : gmap string Z :=
  {[ "aggressive" := 20; "moderate" := 0; "conservative" := -20 ]}.

Definition _calculate_equity_allocation (age : Z) (risk : string) : Z :=
  let base_equity := Z.max 20 (Z.min 90 (100 - age)) in
  let adjustment := default 0 (adjustments !! lower risk) in
  Z.max 20 (Z.min 90 (base_equity + adjustment)).

(** The category weights for an equity share, in the order of the
    dictionary literal. *)
Definition allocation_for (equity_pct : Z) : list (string * Q) :=
  if 70 <=? equity_pct then
    [("large cap", Config.float_lit 40 100); ("mid cap", Config.float_lit 30 100);
     ("small cap", Config.float_lit 20 100); ("elss", Config.float_lit 10 100)]
  else if 50 <=? equity_pct then
    [("large cap", Config.float_lit 50 100); ("mid cap", Config.float_lit 30 100);
     ("hybrid", Config.float_lit 20 100)]
  else
    [("large cap", Config.float_lit 30 100); ("hybrid", Config.float_lit 40 100);
     ("debt", Config.float_lit 30 100)].

(** [x * y] of two floats, by value. *)
Definition fmul (x y : Q) : Q :=
  Float64.to_Q (Float64.mul (float_of_Q x) (float_of_Q y)).

(** [for x in items: acc = step(acc, x)], stopped by the first exception. *)
Fixpoint for_each {A B : Type} (step : B -> A -> result B) (acc : B)
    (items : list A) : result B :=
  match items with
  | [] => mret acc
  | x :: items' => acc' ← step acc x; for_each step acc' items'
  end.

Section Portfolio.
(** [self.get_top_funds_by_category(category, limit=3)] *)
Variable top_funds : string -> Z -> result pydict.

(** One turn of the loop over [allocation.items()], on
    [portfolio["recommended_funds"]]. *)
Definition recommend (investment_amount : Q) (recommended : pydict)
    (entry : string * Q) : result pydict :=
  let '(category, percentage) := entry in
  funds_data ← top_funds category 3;
  if truthy (default VNone (funds_data !! "success")) then
    funds ← getitem (VDict funds_data) "funds";
    mret (<[ category := VDict
               {[ "allocation_percentage" := VFloat (fmul percentage 100);
                  "monthly_amount" :=
                    VFloat (FinancialCalculator.round
                              (fmul investment_amount percentage) 0);
                  "top_funds" := funds ]} ]> recommended)
  else mret recommended.

Definition get_personalized_portfolio (age : Z) (risk_appetite : string)
    (investment_amount : Q) : result pydict :=
  try_except
    (let equity_pct := _calculate_equity_allocation age risk_appetite in
     let debt_pct := 100 - equity_pct in
     let allocation := allocation_for equity_pct in
     recommended_funds ←
       for_each (recommend investment_amount) ∅ allocation;
     mret {[ "total_investment" := VFloat investment_amount;
             "allocation" :=
               VDict (list_to_map (prod_map id VFloat <$> allocation));
             "recommended_funds" := VDict recommended_funds;
             "profile" := VDict
               {[ "age" := VInt age;
                  "risk_appetite" := VStr risk_appetite;
                  "equity_allocation" := VInt equity_pct;
                  "debt_allocation" := VInt debt_pct ]} ]})
    (fun e => mret {[ "error" := VStr (exn_msg e) ]}).

End Portfolio.
End MarketData.

(** ** An engine whose model server is down, and a fund list with no match *)

Module OfflineEngine.
Import Py.

Definition no_client : ChatClient := {|
  chat_completion := fun _ _ _ => Offline.unreachable;
  extract_json := fun _ => Ok None;
  json_dumps := fun _ => "{}";
  template_summary := fun _ _ => Ok "Here's the data you requested.";
  system_prompt := "You are a financial assistant.";
  action_prompt := "Detect the action."
|}.

Definition no_funds (category : string) (limit : Z) : result pydict :=
  Ok {[ "error" := VStr ("No funds found for '" +:+ category +:+ "'") ]}.

(** A knowledge base that answers every query with the same passage. *)
Definition one_passage : Retriever := {|
  get_context := fun _ => Ok "A SIP is a systematic investment plan."
|}.

End OfflineEngine.

(** * Strings and the matcher *)

Section StringFacts.
Import PyStr.






End StringFacts.

Section MatcherFacts.
Import PyStr Re.
Context {R : Type}.






End MatcherFacts.

(** * The amount pattern *)

Section AmountPattern.
Import PyStr Re Py Config QueryRouter Spec.




Section Number.
Context {R : Type} (K : mstate -> option R).
Hypothesis K_total : forall st, is_Some (K st).

End Number.







End AmountPattern.

(** * The action executor *)

Section ExecutorFacts.
Import Py QueryRouter Spec.
Context {market : MarketDataAgent} {calculator : Calculator}
        {format : PyFormat}.

Lemma is_action_other (name kind : string) :
  name <> kind -> is_action (VStr name) kind = false.
Proof. intros Hne. simpl. by apply String.eqb_neq. Qed.

(** C6. An action name outside the nine recognised kinds yields
    [{"error": "Unknown action: <name>"}], and the executor returns. *)
Theorem execute_unknown_action (name : string) (parameters : pyval) :
  name ∉ action_kinds ->
  _execute_action (VStr name) parameters
  = Ok {[ "error" := VStr ("Unknown action: " +:+ name) ]}.
Proof.
  intros Hout. unfold action_kinds in Hout.
  unfold _execute_action.
  rewrite !is_action_other; [reflexivity | intros ->; apply Hout; set_solver ..].
Qed.

(** The executor never raises: whatever the collaborator does, the result
    is a dictionary. *)
Lemma execute_returns (action parameters : pyval) :
  exists result, _execute_action action parameters = Ok result.
Proof.
  unfold _execute_action, try_except.
  match goal with |- context [match ?b with Ok _ => _ | Raise _ => _ end] =>
    destruct b end; eauto.
Qed.

End ExecutorFacts.

(** The executor of the offline router, given a name it does not know. *)
Lemma execute_unknown_action_witness :
  @QueryRouter._execute_action Offline.no_market
    (@CalculatorBinding.financial_calculator Offline.fraction_lib)
    Offline.plain_format (Py.VStr "buy_gold") (Py.VDict ∅)
  = Py.Ok {[ "error" := Py.VStr "Unknown action: buy_gold" ]}.
Proof.
  apply (execute_unknown_action (market := Offline.no_market)).
  unfold Spec.action_kinds. intros Hin.
  repeat (apply elem_of_cons in Hin as [Heq | Hin]; [discriminate Heq |]).
  by apply elem_of_nil in Hin.
Defined.

(** * The query handler *)

Section HandlerFacts.
Import Py QueryRouter Spec.
Context {market : MarketDataAgent} {calculator : Calculator}
        {llm : LLMEngine} {retriever : Retriever}
        {profiles : UserProfileManager} {format : PyFormat}.

(** Every reply built inside the [try] of [handle_query] has one of the
    three types. *)
Lemma handle_query_body_type (query user_id : string)
    (cache cache' : profile_cache) (r : reply) :
  handle_query_body query user_id cache = (Ok r, cache') ->
  type r ∈ response_types.
Proof.
  unfold handle_query_body, response_types.
  unfold mbind, router_bind, lift, mret, router_ret.
  intros Hbody.
  repeat case_match; simplify_eq; simpl; set_solver.
Qed.

(** C5. For every query and user id, [handle_query] returns a reply whose
    type is ["finance_response"], ["conversational"] or ["error"]; no
    exception leaves it. *)
Theorem handle_query_three_shapes (query user_id : string)
    (cache : profile_cache) :
  exists (r : reply) (cache' : profile_cache),
    handle_query query user_id cache = (Ok r, cache')
    /\ type r ∈ response_types.
Proof.
  unfold handle_query, router_try.
  destruct (handle_query_body query user_id cache) as [[r | e] cache'] eqn:Hbody.
  - exists r, cache'. split; [reflexivity |].
    eapply handle_query_body_type, Hbody.
  - eexists _, cache'. split; [reflexivity |].
    simpl. unfold response_types. set_solver.
Qed.

End HandlerFacts.

(** * The detectors and the priority dispatcher *)

(** Case analysis on the tests and calls a hypothesis [H] runs through,
    dropping the branches that contradict it. *)
Ltac branch_in H :=
  match type of H with
  | context [match ?x with _ => _ end] => destruct x eqn:?
  end.

Ltac follow H := repeat (branch_in H; try discriminate H).

Section DetectorFacts.
Import PyStr Re Py Config QueryRouter Spec.
Context {profiles : UserProfileManager}.

(** Every word that excludes a metric query also excludes a price query. *)
Lemma metric_exclusions_exclude_price (q : string) :
  any_in metric_exclusions q = true -> any_in stock_exclusions q = true.
Proof.
  unfold any_in, metric_exclusions, stock_exclusions. cbn [existsb].
  destruct (contains "mutual fund" q), (contains "fund" q),
    (contains "best" q), (contains "top" q); cbn;
    rewrite ?orb_true_r; done.
Qed.

Lemma detect_stock_metric_fires (query : string) :
  metric_trigger (lower query) = true ->
  any_in metric_exclusions (lower query) = false ->
  _detect_stock_metric query = Some (q_action "get_stock_metric" query).
Proof. unfold _detect_stock_metric. by intros -> ->. Qed.

Lemma detect_stock_price_excluded (query : string) :
  any_in metric_exclusions (lower query) = true ->
  _detect_stock_price query = None.
Proof.
  intros Hex. unfold _detect_stock_price.
  rewrite (metric_exclusions_exclude_price _ Hex). by case_match.
Qed.

(** The action each of the later detectors names. *)
Lemma detect_etf_action (query : string) (found : detected) :
  _detect_etf query = Some found -> action found = "get_etf_price".
Proof. unfold _detect_etf. case_match; by intros [= <-]. Qed.

Lemma detect_mf_nav_action (query : string) (found : detected) :
  _detect_mf_nav query = Some found -> action found = "search_mutual_fund".
Proof. unfold _detect_mf_nav. repeat case_match; by intros [= <-]. Qed.

Lemma detect_fund_category_action (query : string) (found : detected) :
  _detect_fund_category query = Some found -> action found = "get_top_funds".
Proof. unfold _detect_fund_category. case_match; by intros [= <-]. Qed.

#[local] Opaque Float64.leb Float64.of_Z Float64.of_decimal Float64.to_Q
  float_of_Q search.

Lemma detect_emi_action (query : string) (found : detected) :
  _detect_emi query = Ok (Some found) -> action found = "calculate_emi".
Proof.
  unfold _detect_emi, mbind, result_bind, mret, result_ret.
  intros Hfound. follow Hfound; injection Hfound as <-; reflexivity.
Qed.

Lemma detect_sip_action (query user_id : string) (cache cache' : profile_cache)
    (found : detected) :
  _detect_sip query user_id cache = (Ok (Some found), cache') ->
  action found = "calculate_sip"
  /\ parameters found !! "expected_return" = Some (VFloat DEFAULT_SIP_RETURN).
Proof.
  unfold _detect_sip, mbind, router_bind, mret, router_ret.
  intros Hfound. follow Hfound; injection Hfound as <- <-; split; reflexivity.
Qed.

Lemma detect_retirement_action (query user_id : string)
    (cache cache' : profile_cache) (found : detected) :
  _detect_retirement query user_id cache = (Ok (Some found), cache') ->
  action found = "calculate_retirement".
Proof.
  unfold _detect_retirement, mbind, router_bind, mret, router_ret.
  intros Hfound. follow Hfound; injection Hfound as <- <-; reflexivity.
Qed.

Lemma detect_portfolio_action (query user_id : string)
    (cache cache' : profile_cache) (found : detected) :
  _detect_portfolio query user_id cache = (Ok (Some found), cache') ->
  action found = "get_portfolio_recommendation".
Proof.
  unfold _detect_portfolio, mbind, router_bind, mret, router_ret.
  intros Hfound. follow Hfound; injection Hfound as <- <-; reflexivity.
Qed.

(** Once the two stock detectors decline, no later detector answers with
    the stock-price action. *)
Lemma later_detectors_not_price (query user_id : string)
    (cache cache' : profile_cache) (found : detected) :
  _detect_stock_metric query = None ->
  _detect_stock_price query = None ->
  _detect_action_with_priority query user_id cache = (Ok (Some found), cache') ->
  action found <> "get_stock_price".
Proof.
  intros Hmetric Hprice.
  unfold _detect_action_with_priority, or_else.
  rewrite Hmetric, Hprice.
  unfold mbind, router_bind, mret, router_ret, lift.
  destruct (_detect_etf query) as [d |] eqn:Hetf.
  { intros [= <- <-]. by rewrite (detect_etf_action _ _ Hetf). }
  destruct (_detect_mf_nav query) as [d |] eqn:Hnav.
  { intros [= <- <-]. by rewrite (detect_mf_nav_action _ _ Hnav). }
  destruct (_detect_fund_category query) as [d |] eqn:Hcat.
  { intros [= <- <-]. by rewrite (detect_fund_category_action _ _ Hcat). }
  destruct (_detect_sip query user_id cache) as [[[d |] | e] c1] eqn:Hsip;
    [| | discriminate].
  { intros [= <- <-]. by destruct (detect_sip_action _ _ _ _ _ Hsip) as [-> _]. }
  destruct (_detect_emi query) as [[d |] | e] eqn:Hemi; [| | discriminate].
  { intros [= <- <-]. by rewrite (detect_emi_action _ _ Hemi). }
  destruct (_detect_retirement query user_id c1) as [[[d |] | e] c2] eqn:Hret;
    [| | discriminate].
  { intros [= <- <-]. by rewrite (detect_retirement_action _ _ _ _ _ Hret). }
  destruct (_detect_portfolio query user_id c2) as [[[d |] | e] c3] eqn:Hport;
    [| | discriminate].
  { intros [= <- <-]. by rewrite (detect_portfolio_action _ _ _ _ _ Hport). }
  discriminate.
Qed.

(** C1, as the code has it. A query that matches a metric trigger phrase
    and holds a price keyword is dispatched to [get_stock_metric] when it
    holds none of the metric detector's exclusion words; with or without
    them it is never dispatched to [get_stock_price]. *)
Theorem metric_before_price (query user_id : string) (cache : profile_cache) :
  metric_trigger (lower query) = true ->
  any_in stock_keywords (lower query) = true ->
  (any_in metric_exclusions (lower query) = false ->
     _detect_action_with_priority query user_id cache
     = (Ok (Some (q_action "get_stock_metric" query)), cache))
  /\ (forall (found : detected) (cache' : profile_cache),
        _detect_action_with_priority query user_id cache
        = (Ok (Some found), cache') ->
        action found <> "get_stock_price").
Proof.
  intros Htrigger _.
  assert (Hfires : any_in metric_exclusions (lower query) = false ->
            _detect_action_with_priority query user_id cache
            = (Ok (Some (q_action "get_stock_metric" query)), cache)).
  { intros Hfree. unfold _detect_action_with_priority, or_else.
    by rewrite (detect_stock_metric_fires _ Htrigger Hfree). }
  split; [exact Hfires |].
  intros found cache' Hfound.
  destruct (any_in metric_exclusions (lower query)) eqn:Hex.
  - eapply later_detectors_not_price; [| | exact Hfound].
    + unfold _detect_stock_metric. by rewrite Htrigger, Hex.
    + by apply detect_stock_price_excluded.
  - rewrite (Hfires eq_refl) in Hfound. by injection Hfound as <- <-.
Qed.

(** C9. Whatever the query says, an action the SIP detector returns
    carries [expected_return = DEFAULT_SIP_RETURN], the double of 0.12. *)
Theorem sip_expected_return_is_default (query user_id : string)
    (cache cache' : profile_cache) (found : detected) :
  _detect_sip query user_id cache = (Ok (Some found), cache') ->
  parameters found !! "expected_return" = Some (VFloat DEFAULT_SIP_RETURN)
  /\ DEFAULT_SIP_RETURN = Float64.to_Q (Float64.of_decimal (chars "0.12")).
Proof.
  intros Hfound. split; [| reflexivity].
  by destruct (detect_sip_action _ _ _ _ _ Hfound).
Qed.

(** The SIP detector past its trigger word, in terms of the amount. *)
Lemma detect_sip_amount (query user_id : string)
    (cache cache' : profile_cache) (amount : Z) :
  contains "sip" (lower query) = true ->
  sip_amount (lower query) user_id cache = (Ok amount, cache') ->
  _detect_sip query user_id cache =
    (Ok (if negb ((SIP_MIN_AMOUNT <=? amount) && (amount <=? SIP_MAX_AMOUNT))
         then None
         else if negb ((SIP_MIN_YEARS <=? sip_years (lower query))
                       && (sip_years (lower query) <=? SIP_MAX_YEARS))
         then None
         else Some (Detected "calculate_sip"
                {[ "monthly_sip" := VInt amount;
                   "years" := VInt (sip_years (lower query));
                   "expected_return" := VFloat DEFAULT_SIP_RETURN ]})),
     cache').
Proof.
  intros Hsip Hamount. unfold _detect_sip. rewrite Hsip.
  unfold mbind, router_bind. rewrite Hamount.
  unfold mret, router_ret. by repeat case_match.
Qed.

(** C3, as the code has it. A resolved amount of 99 is below the minimum
    and detection fails; so does every amount above 1000000; the amount
    1000000 itself is the maximum, which the inclusive bound accepts, and
    detection succeeds whenever the year count is in range. *)
Theorem sip_amount_bounds (query user_id : string)
    (cache cache' : profile_cache) (amount : Z) :
  contains "sip" (lower query) = true ->
  sip_amount (lower query) user_id cache = (Ok amount, cache') ->
  (amount = 99 -> _detect_sip query user_id cache = (Ok None, cache'))
  /\ (SIP_MAX_AMOUNT < amount ->
      _detect_sip query user_id cache = (Ok None, cache'))
  /\ (amount = 1000000 ->
      SIP_MIN_YEARS <= sip_years (lower query) <= SIP_MAX_YEARS ->
      _detect_sip query user_id cache =
        (Ok (Some (Detected "calculate_sip"
               {[ "monthly_sip" := VInt 1000000;
                  "years" := VInt (sip_years (lower query));
                  "expected_return" := VFloat DEFAULT_SIP_RETURN ]})),
         cache')).
Proof.
  intros Hsip Hamount.
  rewrite (detect_sip_amount _ _ _ _ _ Hsip Hamount).
  unfold SIP_MIN_AMOUNT, SIP_MAX_AMOUNT, SIP_MIN_YEARS, SIP_MAX_YEARS.
  repeat split.
  - by intros ->.
  - intros Hbig. replace (amount <=? 1000000) with false by lia.
    by rewrite andb_false_r.
  - intros -> [Hlo Hhi]. cbn [negb andb Z.leb Z.compare Pos.compare Pos.compare_cont].
    replace (1 <=? sip_years (lower query)) with true by lia.
    replace (sip_years (lower query) <=? 50) with true by lia.
    reflexivity.
Qed.

End DetectorFacts.

(** * The amounts of the EMI and portfolio detectors *)

Section AmountFacts.
Import PyStr Re Py Config QueryRouter Spec.



#[local] Opaque Float64.leb Float64.of_Z Float64.of_decimal Float64.to_Q
  float_of_Q search.


#[local] Transparent Float64.leb Float64.of_Z Float64.of_decimal Float64.to_Q
  float_of_Q search.




End AmountFacts.

(** * The calculators *)

(** Boolean tests, read as the inequalities they decide. *)
Lemma Qle_bool_false (x y : Q) : Qle_bool x y = false -> (y < x)%Q.
Proof.
  intros Hb. apply Qnot_le_lt. intros Hle.
  apply Qle_bool_iff in Hle. congruence.
Qed.

Lemma Qltb_true (x y : Q) : FinancialCalculator.Qltb x y = true -> (x < y)%Q.
Proof.
  unfold FinancialCalculator.Qltb. intros Hb.
  apply Qle_bool_false. by destruct (Qle_bool y x).
Qed.

Lemma Qltb_false (x y : Q) : FinancialCalculator.Qltb x y = false -> (y <= x)%Q.
Proof.
  unfold FinancialCalculator.Qltb. intros Hb.
  apply Qle_bool_iff. by destruct (Qle_bool y x).
Qed.

Lemma inject_Z_nonpos (z : Z) : (inject_Z z <= 0)%Q -> z <= 0.
Proof. intros Hz. rewrite (Zle_Qle z 0). exact Hz. Qed.

Lemma inject_Z_pos (z : Z) : (0 < inject_Z z)%Q -> 0 < z.
Proof. intros Hz. rewrite (Zlt_Qlt 0 z). exact Hz. Qed.

Ltac read_tests :=
  repeat match goal with
  | H : _ && _ = true |- _ => apply andb_true_iff in H as [? ?]
  | H : _ && _ = false |- _ => apply andb_false_iff in H as [? | ?]
  | H : Qle_bool _ _ = true |- _ => apply Qle_bool_iff in H
  | H : Qle_bool _ _ = false |- _ => apply Qle_bool_false in H
  | H : FinancialCalculator.Qltb _ _ = true |- _ => apply Qltb_true in H
  | H : FinancialCalculator.Qltb _ _ = false |- _ => apply Qltb_false in H
  | H : (_ <? _) = true |- _ => apply Z.ltb_lt in H
  | H : (_ <? _) = false |- _ => apply Z.ltb_ge in H
  | H : (_ <=? _) = true |- _ => apply Z.leb_le in H
  | H : (_ <=? _) = false |- _ => apply Z.leb_gt in H
  | H : (inject_Z _ <= 0)%Q |- _ => apply inject_Z_nonpos in H
  | H : (0 < inject_Z _)%Q |- _ => apply inject_Z_pos in H
  end.

Section ValidationFacts.
Import Py Config FinancialCalculator Spec.
Context {floats : FloatLib}.

Lemma validation_passes (checks : result unit) :
  checks = Ok tt -> validation checks = Ok None.
Proof. by intros ->. Qed.

Lemma validation_fails (checks : result unit) (msg : string) :
  checks = Raise (ValueError msg) -> validation checks = Ok (Some msg).
Proof. by intros ->. Qed.

(** The checks of [sip_returns] pass on the valid inputs and raise a
    [ValueError] on the others. *)
Lemma sip_checks_spec (monthly_sip : Q) (years : Z) (expected_return : Q) :
  (sip_checks monthly_sip years expected_return = Ok tt
   /\ (0 < monthly_sip)%Q /\ 0 < years <= 50
   /\ (0 <= expected_return <= 1)%Q)
  \/ (exists msg : string,
        sip_checks monthly_sip years expected_return = Raise (ValueError msg)
        /\ sip_invalid monthly_sip years expected_return).
Proof.
  unfold sip_checks, _validate_positive, _validate_percentage, sip_invalid.
  unfold mbind, result_bind, SIP_MAX_YEARS. cbn [num_val].
  destruct (Qle_bool monthly_sip 0) eqn:HP;
    [right; eexists; split; [reflexivity | read_tests; tauto] |].
  destruct (Qle_bool (inject_Z years) 0) eqn:HY;
    [right; eexists; split; [reflexivity | read_tests; tauto] |].
  destruct (Qle_bool 0 expected_return && Qle_bool expected_return 1) eqn:Hr;
    [| right; eexists; split; [reflexivity | read_tests; tauto]].
  destruct (50 <? years) eqn:Hmax;
    [right; eexists; split; [reflexivity | read_tests; tauto] |].
  left. read_tests. repeat split; try done; lia.
Qed.

Lemma emi_checks_spec (loan_amount interest_rate : Q) (tenure_years : Z) :
  (emi_checks loan_amount interest_rate tenure_years = Ok tt
   /\ (0 < loan_amount <= inject_Z EMI_MAX_LOAN)%Q
   /\ (0 < interest_rate <= 30)%Q /\ 0 < tenure_years <= 30)
  \/ (exists msg : string,
        emi_checks loan_amount interest_rate tenure_years
        = Raise (ValueError msg)
        /\ emi_invalid loan_amount interest_rate tenure_years).
Proof.
  unfold emi_checks, _validate_positive, emi_invalid.
  unfold mbind, result_bind, EMI_MAX_TENURE, EMI_MAX_INTEREST. cbn [num_val].
  change (inject_Z 30) with 30%Q.
  destruct (Qle_bool loan_amount 0) eqn:HL;
    [right; eexists; split; [reflexivity | read_tests; tauto] |].
  destruct (Qle_bool interest_rate 0) eqn:Hr;
    [right; eexists; split; [reflexivity | read_tests; tauto] |].
  destruct (Qle_bool (inject_Z tenure_years) 0) eqn:HT;
    [right; eexists; split; [reflexivity | read_tests; tauto] |].
  destruct (Qltb 30 interest_rate) eqn:Hrmax;
    [right; eexists; split; [reflexivity | read_tests; tauto] |].
  destruct (30 <? tenure_years) eqn:HTmax;
    [right; eexists; split; [reflexivity | read_tests; tauto] |].
  destruct (Qltb (inject_Z EMI_MAX_LOAN) loan_amount) eqn:HLmax;
    [right; eexists; split; [reflexivity | read_tests; tauto] |].
  left. read_tests. repeat split; try done; lia.
Qed.

Lemma validate_age_spec (age : Z) (name : string) :
  (_validate_age age name = Ok tt /\ 0 < age < 120)
  \/ (exists msg : string,
        _validate_age age name = Raise (ValueError msg) /\ age_invalid age).
Proof.
  unfold _validate_age, age_invalid.
  destruct ((0 <? age) && (age <? 120)) eqn:Hage; read_tests.
  - left. split; [done | lia].
  - right. eexists. split; [done | lia].
  - right. eexists. split; [done | lia].
Qed.

Lemma validate_percentage_spec (rate : Q) (name : string) :
  (_validate_percentage rate name = Ok tt /\ (0 <= rate <= 1)%Q)
  \/ (exists msg : string,
        _validate_percentage rate name = Raise (ValueError msg)
        /\ rate_invalid rate).
Proof.
  unfold _validate_percentage, rate_invalid.
  destruct (Qle_bool 0 rate && Qle_bool rate 1) eqn:Hrate; read_tests.
  - by left.
  - right. eexists. split; [done | tauto].
  - right. eexists. split; [done | tauto].
Qed.

Lemma retirement_checks_spec (current_age retirement_age : Z)
    (monthly_expense inflation : Q) (post_retirement_years : Z)
    (sip_return post_ret_return : Q) :
  (retirement_checks current_age retirement_age monthly_expense inflation
     post_retirement_years sip_return post_ret_return = Ok tt
   /\ retirement_valid current_age retirement_age monthly_expense inflation
        post_retirement_years sip_return post_ret_return)
  \/ (exists msg : string,
        retirement_checks current_age retirement_age monthly_expense
          inflation post_retirement_years sip_return post_ret_return
        = Raise (ValueError msg)
        /\ retirement_invalid current_age retirement_age monthly_expense
             inflation post_retirement_years sip_return post_ret_return).
Proof.
  unfold retirement_checks, retirement_invalid, retirement_valid.
  unfold mbind, result_bind.
  destruct (validate_age_spec current_age "Current age")
    as [[-> Ha] | (msg & -> & Ha)]; [| right; eexists; split; [done | tauto]].
  destruct (validate_age_spec retirement_age "Retirement age")
    as [[-> Hb] | (msg & -> & Hb)]; [| right; eexists; split; [done | tauto]].
  unfold _validate_positive. cbn [num_val].
  destruct (Qle_bool monthly_expense 0) eqn:HE;
    [right; eexists; split; [reflexivity | read_tests; tauto] |].
  destruct (validate_percentage_spec inflation "Inflation rate")
    as [[-> Hi] | (msg & -> & Hi)]; [| right; eexists; split; [done | tauto]].
  destruct (validate_percentage_spec sip_return "SIP return rate")
    as [[-> Hs] | (msg & -> & Hs)]; [| right; eexists; split; [done | tauto]].
  destruct (validate_percentage_spec post_ret_return
              "Post-retirement return rate")
    as [[-> Hp] | (msg & -> & Hp)]; [| right; eexists; split; [done | tauto]].
  destruct (retirement_age <=? current_age) eqn:Hle;
    [right; eexists; split; [reflexivity | read_tests; tauto] |].
  destruct (50 <? retirement_age - current_age) eqn:Hspan;
    [right; eexists; split; [reflexivity | read_tests; tauto] |].
  destruct (50 <? post_retirement_years) eqn:Hpost;
    [right; eexists; split; [reflexivity | read_tests; tauto] |].
  left. read_tests. repeat split; try done; tauto.
Qed.

(** The three predicates of the specification exclude the valid inputs. *)
Lemma sip_invalid_not_valid (P : Q) (Y : Z) (r : Q) :
  sip_invalid P Y r ->
  ~ ((0 < P)%Q /\ 0 < Y <= 50 /\ (0 <= r <= 1)%Q).
Proof.
  unfold sip_invalid. intros Hbad (HP & HY & Hr).
  destruct Hbad as [? | [? | [? | [? | ?]]]]; lra || lia.
Qed.

Lemma emi_invalid_not_valid (L r : Q) (T : Z) :
  emi_invalid L r T ->
  ~ ((0 < L <= inject_Z EMI_MAX_LOAN)%Q /\ (0 < r <= 30)%Q /\ 0 < T <= 30).
Proof.
  unfold emi_invalid. intros Hbad (HL & Hr & HT).
  destruct Hbad as [? | [? | [? | [? | [? | ?]]]]]; lra || lia.
Qed.

Lemma retirement_invalid_not_valid (a b : Z) (E inf : Q) (pry : Z) (sr prr : Q) :
  retirement_invalid a b E inf pry sr prr ->
  ~ retirement_valid a b E inf pry sr prr.
Proof.
  unfold retirement_invalid, retirement_valid, age_invalid, rate_invalid.
  intros Hbad (Ha & Hb & HE & Hab & Hspan & Hpry & Hi & Hs & Hp).
  destruct Hbad as [? | [? | [? | [? | [? | [? | [? | [? | ?]]]]]]]];
    lra || lia.
Qed.


End ValidationFacts.

(** * Rounding *)

Section RoundingFacts.
Import FinancialCalculator.

Lemma round_half_even_comp (x y : Q) :
  (x == y)%Q -> round_half_even x = round_half_even y.
Proof.
  intros Hxy. unfold round_half_even.
  rewrite (Qfloor_comp _ _ Hxy).
  assert (Qcompare (x - inject_Z (Qfloor y)) (1 # 2)
          = Qcompare (y - inject_Z (Qfloor y)) (1 # 2)) as ->
    by (rewrite Hxy; reflexivity).
  reflexivity.
Qed.

(** Rounding moves a number by at most one half. *)
Lemma round_half_even_near (x : Q) :
  (x - (1 # 2) <= inject_Z (round_half_even x) <= x + (1 # 2))%Q.
Proof.
  unfold round_half_even.
  pose proof (Qfloor_le x) as Hlo. pose proof (Qlt_floor x) as Hhi.
  rewrite inject_Z_plus in Hhi. change (inject_Z 1) with 1%Q in Hhi.
  destruct (Qcompare (x - inject_Z (Qfloor x)) (1 # 2)) eqn:Hcmp.
  - apply Qeq_alt in Hcmp.
    destruct (Z.even (Qfloor x)); rewrite ?inject_Z_plus;
      change (inject_Z 1) with 1%Q; lra.
  - apply Qlt_alt in Hcmp. lra.
  - apply Qgt_alt in Hcmp. rewrite inject_Z_plus.
    change (inject_Z 1) with 1%Q. lra.
Qed.


Lemma round_zero_digits (x : Q) :
  (round x 0 == inject_Z (round_half_even x))%Q.
Proof.
  unfold round. change (inject_Z (10 ^ Z.of_nat 0)) with 1%Q.
  rewrite (round_half_even_comp (x * 1) x) by ring. field.
Qed.


(** Two decimals: the rounded value is within 0.005. *)
Lemma round_two_digits_near (x : Q) :
  (x - (1 # 200) <= round x 2 <= x + (1 # 200))%Q.
Proof.
  unfold round. change (inject_Z (10 ^ Z.of_nat 2)) with 100%Q.
  pose proof (round_half_even_near (x * 100)) as Hnear.
  split.
  - apply Qle_shift_div_l; [reflexivity | lra].
  - apply Qle_shift_div_r; [reflexivity | lra].
Qed.

(** Whole numbers rounded apart: the rounded difference is within one of
    the difference of the rounded values. *)
Lemma round_difference (x y : Q) :
  (Qabs (round x 0 - (round y 0 + round (x - y) 0)) <= 1)%Q.
Proof.
  rewrite !round_zero_digits.
  pose proof (round_half_even_near x) as Hx.
  pose proof (round_half_even_near y) as Hy.
  pose proof (round_half_even_near (x - y)) as Hd.
  set (a := round_half_even x) in *. set (b := round_half_even y) in *.
  set (c := round_half_even (x - y)) in *.
  assert (Hq : (- (3 # 2) <= inject_Z (a - (b + c)) <= 3 # 2)%Q).
  { unfold Z.sub. rewrite !inject_Z_plus, inject_Z_opp, inject_Z_plus. lra. }
  assert (Hz : -1 <= a - (b + c) <= 1).
  { destruct Hq as [Hlo Hhi]. unfold Qle in Hlo, Hhi. simpl in Hlo, Hhi. lia. }
  apply Qabs_Qle_condition.
  replace (inject_Z a - (inject_Z b + inject_Z c))%Q
    with (inject_Z a + - (inject_Z b + inject_Z c))%Q by reflexivity.
  rewrite <- inject_Z_plus, <- inject_Z_opp, <- inject_Z_plus.
  change (-(1))%Q with (inject_Z (-1)). change 1%Q with (inject_Z 1).
  rewrite <- !Zle_Qle. lia.
Qed.

End RoundingFacts.

(** * sip_returns *)

Section SipFacts.
Import Py Config FinancialCalculator Spec.
Context {floats : FloatLib}.

Lemma fdiv_nonzero (x y : Q) : ~ (y == 0)%Q -> fdiv x y = Ok (x / y)%Q.
Proof.
  unfold fdiv. intros Hy. destruct (Qeq_bool y 0) eqn:Hzero; [| done].
  by apply Qeq_bool_eq in Hzero.
Qed.

Lemma fdiv_zero (x y : Q) :
  (y == 0)%Q -> fdiv x y = Raise (ZeroDivisionError "float division by zero").
Proof. unfold fdiv. intros Hy. apply Qeq_bool_iff in Hy. by rewrite Hy. Qed.

(** [b ** n] at a whole exponent is the exact power. *)
Lemma pow_whole (b : Q) (z : Z) : pow b (inject_Z z) = Qpower b z.
Proof.
  unfold pow. rewrite Qred_identity; [done |].
  simpl. apply Z.gcd_1_r.
Qed.

Lemma mapM_ok {A B : Type} (f : A -> result B) (l : list A) :
  (forall x, exists y, f x = Ok y) -> exists ys, mapM f l = Ok ys.
Proof.
  intros Hf. induction l as [| x l [ys IH]]; [by exists [] |].
  destruct (Hf x) as [y Hy]. exists (y :: ys).
  cbn [mapM]. by rewrite Hy, IH.
Qed.

Lemma sip_checks_pass (P : Q) (Y : Z) (r : Q) :
  (0 < P)%Q -> 0 < Y <= 50 -> (0 <= r <= 1)%Q -> sip_checks P Y r = Ok tt.
Proof.
  intros HP HY Hr.
  destruct (sip_checks_spec P Y r) as [[Hok _] | (msg & _ & Hbad)]; [done |].
  by destruct (sip_invalid_not_valid _ _ _ Hbad).
Qed.

(** C2, where the code departs from it. At [expected_return = 0], which
    the validation accepts, [sip_returns] divides by the monthly rate and
    raises [ZeroDivisionError]: no payload is returned. *)
Theorem sip_zero_return_raises (monthly_sip : Q) (years : Z) :
  (0 < monthly_sip)%Q -> 0 < years <= 50 ->
  sip_checks monthly_sip years 0 = Ok tt
  /\ sip_returns monthly_sip years (Some 0%Q)
     = Raise (ZeroDivisionError "float division by zero").
Proof.
  intros HP HY.
  assert (Hpass : sip_checks monthly_sip years 0 = Ok tt)
    by (apply sip_checks_pass; [done | done | lra]).
  split; [exact Hpass |].
  cbv beta iota zeta delta [sip_returns default from_option id].
  rewrite (validation_passes _ Hpass). cbn [mbind result_bind].
  unfold sip_value. by rewrite fdiv_zero.
Qed.

Lemma sip_value_ok (P i : Q) (m : Z) :
  ~ (i == 0)%Q ->
  sip_value P i m
  = Ok (P * ((pow (1 + i) (inject_Z m) - 1) / i) * (1 + i))%Q.
Proof. intros Hi. unfold sip_value. by rewrite fdiv_nonzero. Qed.

(** Away from a zero rate the claim holds: [sip_returns] returns a payload
    whose maturity is the invested total plus the gains within one unit,
    and whose returns percentage is the gains over the invested total
    within 0.005. *)
Lemma sip_returns_consistent (P : Q) (Y : Z) (r : Q) :
  (0 < P)%Q -> 0 < Y <= 50 -> (0 < r <= 1)%Q ->
  exists p : sip_payload,
    sip_returns P Y (Some r) = Ok (Success p)
    /\ (Qabs (sip_maturity_amount p - (sip_total_invested p + sip_gains p))
        <= 1)%Q
    /\ (exists maturity_value : Q,
          sip_value P (r / 12) (Y * 12) = Ok maturity_value
          /\ let total_invested := (P * inject_Z (Y * 12))%Q in
             let gains := (maturity_value - total_invested)%Q in
             (Qabs (sip_returns_percentage p - gains / total_invested * 100)
              <= 1 # 200)%Q).
Proof.
  intros HP HY Hr.
  assert (Hrate : ~ (r / 12 == 0)%Q).
  { intros Hzero. assert (r == 0)%Q; [| lra].
    rewrite <- (Qmult_div_r r 12) by discriminate. rewrite Hzero. ring. }
  assert (Hinvested : (0 < P * inject_Z (Y * 12))%Q).
  { apply Qmult_lt_0_compat; [done |].
    change 0%Q with (inject_Z 0). rewrite <- Zlt_Qlt. lia. }
  cbv beta iota zeta delta [sip_returns default from_option id].
  rewrite (validation_passes (sip_checks P Y r));
    [| apply sip_checks_pass; [done | done | lra]].
  cbn [mbind result_bind]. rewrite (sip_value_ok _ _ _ Hrate).
  destruct (mapM_ok (sip_year_row P (r / 12)) (seqZ 1 Y)) as [rows Hrows].
  { intros year. unfold sip_year_row. rewrite (sip_value_ok _ _ _ Hrate).
    cbn [mbind result_bind]. eauto. }
  cbn [mbind result_bind]. rewrite Hrows.
  cbn [mbind result_bind]. rewrite fdiv_nonzero by lra.
  cbn [mbind result_bind mret result_ret].
  eexists. split; [reflexivity |]. cbn [sip_maturity_amount
    sip_total_invested sip_gains sip_returns_percentage]. split.
  - apply round_difference.
  - eexists. split; [reflexivity |]. cbn zeta.
    apply Qabs_Qle_condition.
    match goal with |- context [round ?x 2] =>
      pose proof (round_two_digits_near x) end. lra.
Qed.

End SipFacts.

(** * retirement_corpus *)

Section RetirementFacts.
Import Py Config FinancialCalculator Spec.
Context {floats : FloatLib}.

(** What is assumed of the C library's [pow]: a positive base gives a
    positive power. *)
Hypothesis fpow_positive : forall b e : Q, (0 < b)%Q -> (0 < fpow b e)%Q.

Lemma pow_positive (b e : Q) : (0 < b)%Q -> (0 < pow b e)%Q.
Proof.
  intros Hb. unfold pow.
  destruct (Pos.eqb (Qden (Qred e)) 1);
    [by apply Qpower_0_lt | by apply fpow_positive].
Qed.

Lemma inject_Z_nonzero (z : Z) : z <> 0 -> ~ (inject_Z z == 0)%Q.
Proof.
  intros Hz Hq. apply Hz. unfold Qeq in Hq. simpl in Hq. lia.
Qed.




End RetirementFacts.

(** * The router and the calculators on concrete inputs *)

Section Instances.
Import PyStr Re Py Config FinancialCalculator QueryRouter Spec Offline.

(** The specification's example of the priority order. *)
Lemma metric_before_price_witness :
  _detect_action_with_priority (profiles := no_profiles)
    "P/E ratio of Infosys stock price" "guest" ∅
  = (Ok (Some (q_action "get_stock_metric" "P/E ratio of Infosys stock price")),
     ∅).
Proof.
  apply (metric_before_price (profiles := no_profiles)); vm_compute; reflexivity.
Defined.

(** C1 as stated fails: this query matches a metric trigger phrase and
    holds the price keywords "stock" and "price", and the dispatcher
    returns no action at all, because "best" excludes it from the metric
    detector. *)
Lemma metric_excluded_counterexample :
  metric_trigger (lower "P/E ratio of best stock price") = true
  /\ any_in stock_keywords (lower "P/E ratio of best stock price") = true
  /\ _detect_action_with_priority (profiles := no_profiles)
       "P/E ratio of best stock price" "guest" ∅
     = (Ok None, ∅).
Proof. repeat split; vm_compute; reflexivity. Qed.

(** A monthly SIP and a horizon at a zero return. *)
Lemma sip_zero_return_raises_witness :
  sip_checks (floats := fraction_lib) 1000 10 0 = Ok tt
  /\ sip_returns (floats := fraction_lib) 1000 10 (Some 0%Q)
     = Raise (ZeroDivisionError "float division by zero").
Proof.
  apply (sip_zero_return_raises (floats := fraction_lib)); [reflexivity | lia].
Defined.

(** An amount of 99, written with a leading zero. *)
Lemma sip_amount_bounds_witness :
  _detect_sip (profiles := no_profiles) "sip of 099" "guest" ∅ = (Ok None, ∅).
Proof.
  refine (proj1 (sip_amount_bounds (profiles := no_profiles)
                   "sip of 099" "guest" ∅ ∅ 99 _ _) _);
    vm_compute; reflexivity.
Defined.

(** C3 as stated fails: the amount 1000000 is resolved and accepted. *)
Lemma sip_max_amount_counterexample :
  sip_amount (profiles := no_profiles) (lower "sip of 1000000") "guest" ∅
  = (Ok 1000000, ∅)
  /\ _detect_sip (profiles := no_profiles) "sip of 1000000" "guest" ∅
     = (Ok (Some (Detected "calculate_sip"
              {[ "monthly_sip" := VInt 1000000;
                 "years" := VInt 10;
                 "expected_return" := VFloat DEFAULT_SIP_RETURN ]})),
        ∅).
Proof. split; vm_compute; reflexivity. Qed.


Lemma fraction_lib_positive (b e : Q) :
  (0 < b)%Q -> (0 < fpow (FloatLib := fraction_lib) b e)%Q.
Proof. intros Hb. by apply Qpower_0_lt. Qed.




(** A query that states 15% returns. *)
Lemma sip_expected_return_is_default_witness :
  parameters
    (Detected "calculate_sip"
       {[ "monthly_sip" := VInt 10000;
          "years" := VInt 20;
          "expected_return" := VFloat DEFAULT_SIP_RETURN ]})
    !! "expected_return"
  = Some (VFloat DEFAULT_SIP_RETURN).
Proof.
  refine (proj1 (sip_expected_return_is_default (profiles := no_profiles)
                   "Calculate SIP of 10000 for 20 years at 15% returns"
                   "guest" ∅ ∅ _ _)).
  vm_compute. reflexivity.
Defined.


(** The end-to-end routes of the specification. *)
Example route_sip_query :
  _detect_action_with_priority (profiles := no_profiles)
    "Calculate SIP of 10000 for 20 years at 12% returns" "guest" ∅
  = (Ok (Some (Detected "calculate_sip"
           {[ "monthly_sip" := VInt 10000;
              "years" := VInt 20;
              "expected_return" := VFloat DEFAULT_SIP_RETURN ]})),
     ∅).
Proof. vm_compute. reflexivity. Qed.

Example route_emi_query :
  _detect_action_with_priority (profiles := no_profiles)
    "EMI for 50 lakh loan at 8.5% for 20 years" "guest" ∅
  = (Ok (Some (Detected "calculate_emi"
           {[ "loan_amount" := VInt 5000000;
              "interest_rate" := VFloat DEFAULT_EMI_INTEREST;
              "tenure_years" := VInt 20 ]})),
     ∅).
Proof. vm_compute. reflexivity. Qed.

(** A loan amount of 400 digits is infinite as a float, and [int] of it
    raises: the detector does not return. *)
Example detect_emi_overflow :
  _detect_emi (text (chars "loan of " ++ replicate 400 "9"%char))
  = Raise (OverflowError "cannot convert float infinity to integer").
Proof. vm_compute. reflexivity. Qed.

(** The handler of the offline router: a detected action gives a finance
    response, summarised by the fallback template; a query that no detector
    takes reaches the unreachable model and gives an error response. *)
Example handle_sip_query_offline :
  match handle_query (market := no_market)
          (calculator := CalculatorBinding.financial_calculator
                           (floats := fraction_lib))
          (llm := no_llm) (retriever := no_retriever) (profiles := no_profiles)
          (format := plain_format) "sip of 5000 for 2 years" "guest" ∅
  with
  | (Ok r, _) =>
      type r = "finance_response"
      /\ data r !! "total_invested" = Some (VFloat 120000)
      /\ data r !! "maturity_amount" = Some (VFloat 136216)
  | (Raise _, _) => False
  end.
Proof. vm_compute. repeat split; reflexivity. Qed.

Example handle_small_talk_offline :
  match handle_query (market := no_market)
          (calculator := CalculatorBinding.financial_calculator
                           (floats := fraction_lib))
          (llm := no_llm) (retriever := no_retriever) (profiles := no_profiles)
          (format := plain_format) "hello there" "guest" ∅
  with
  | (Ok r, _) => type r = "error"
  | (Raise _, _) => False
  end.
Proof. vm_compute. reflexivity. Qed.

End Instances.

(** * More of the router: the executor's error boundary *)

Section ExecutorBoundary.
Import Py QueryRouter Spec.
Context {market : MarketDataAgent} {calculator : Calculator}
        {format : PyFormat}.

(** X1. For the four actions that carry a query, the executor returns what
    the market-data call returns; a call that raises, a missing ["query"]
    key and parameters that are no dictionary all come back as
    [{"error": "Error executing <action>: <message>"}]. *)
Theorem execute_query_action_boundary (name : string)
    (call : pyval -> result pydict) (parameters : pyval) :
  (name, call) ∈ [("get_stock_price", get_stock_price);
                  ("get_stock_metric", get_stock_metric);
                  ("get_etf_price", get_etf_price);
                  ("search_mutual_fund", search_fund_dynamic)] ->
  _execute_action (VStr name) parameters
  = Ok match getitem parameters "query" with
       | Ok query =>
           match call query with
           | Ok result => result
           | Raise e =>
               {[ "error" := VStr ("Error executing " +:+ name +:+ ": "
                                   +:+ exn_msg e) ]}
           end
       | Raise e =>
           {[ "error" := VStr ("Error executing " +:+ name +:+ ": "
                               +:+ exn_msg e) ]}
       end.
Proof.
  intros Hin.
  repeat (apply elem_of_cons in Hin as [[= -> ->] | Hin]);
    [| | | | by apply elem_of_nil in Hin];
    unfold _execute_action; cbn [is_action String.eqb Ascii.eqb Bool.eqb];
    destruct (getitem parameters "query") as [q | e];
    cbn [mbind result_bind try_except str]; try reflexivity;
    match goal with |- context [try_except ?c _] => destruct c end;
    reflexivity.
Qed.

End ExecutorBoundary.

(** * Parameters the executor misses *)

Section MissingParameters.
Import Py QueryRouter Spec.
Context {market : MarketDataAgent} {calculator : Calculator}
        {format : PyFormat}.

Lemma split_one {A : Type} (before after : list A) (x a : A) :
  [a] = before ++ x :: after -> before = [] /\ x = a.
Proof.
  destruct before as [| b [| ? ?]]; intros [= ]; by subst.
Qed.

Lemma split_two {A : Type} (before after : list A) (x a b : A) :
  [a; b] = before ++ x :: after ->
  (before = [] /\ x = a) \/ (before = [a] /\ x = b).
Proof.
  destruct before as [| b1 [| b2 [| ? ?]]]; intros [= ]; subst; auto.
Qed.

Lemma split_three {A : Type} (before after : list A) (x a b c : A) :
  [a; b; c] = before ++ x :: after ->
  (before = [] /\ x = a) \/ (before = [a] /\ x = b)
  \/ (before = [a; b] /\ x = c).
Proof.
  destruct before as [| b1 [| b2 [| b3 [| ? ?]]]]; intros [= ]; subst; auto.
Qed.

(** X2. When the parameters lack a key the executor subscripts for the
    action, the earlier keys being there, the executor calls no
    collaborator and returns
    [{"error": "Error executing <action>: '<key>'"}]. *)
Theorem execute_missing_parameter (name : string) (d : pydict)
    (before after : list string) (key : string) :
  Contract.required_keys name = before ++ key :: after ->
  Forall (fun k => is_Some (d !! k)) before ->
  d !! key = None ->
  _execute_action (VStr name) (VDict d)
  = Ok {[ "error" := VStr ("Error executing " +:+ name +:+ ": '" +:+ key
                           +:+ "'") ]}.
Proof.
  unfold Contract.required_keys, _execute_action. cbn [is_action].
  intros Hkeys Hbefore Hmissing.
  repeat match type of Hkeys with
  | (if String.eqb name ?kind then _ else _) = _ =>
      destruct (String.eqb_spec name kind) as [-> | ?]
  end;
  [.. | by destruct before];
  first [ apply split_one in Hkeys as [-> ->]
        | apply split_two in Hkeys as [[-> ->] | [-> ->]]
        | apply split_three in Hkeys as [[-> ->] | [[-> ->] | [-> ->]]] ];
  repeat match goal with
  | H : Forall _ (_ :: _) |- _ =>
      apply Forall_cons in H as [[? ?] ?]
  end;
  cbn [getitem get];
  repeat match goal with
  | H : d !! _ = _ |- _ => rewrite H; clear H
  end;
  reflexivity.
Qed.

End MissingParameters.

(** * What the dispatcher hands to the executor *)

Section DispatchFacts.
Import PyStr Re Py Config QueryRouter Spec.
Context {profiles : UserProfileManager}.

Lemma between_bounds (lo hi : Z) (v : pyval) :
  between lo v hi = Ok true ->
  exists x : Q, as_number v = Ok x /\ (inject_Z lo <= x <= inject_Z hi)%Q.
Proof.
  unfold between. destruct (as_number v) as [x | e]; [| discriminate].
  cbn [mbind result_bind mret result_ret]. intros [= Hb].
  exists x. split; [reflexivity |]. read_tests. done.
Qed.

Lemma in_range_bounds (lo hi x : Z) :
  negb ((lo <=? x) && (x <=? hi)) = false -> lo <= x <= hi.
Proof. intros Hb. apply negb_false_iff in Hb. read_tests. lia. Qed.

Lemma detect_metric_shape (query : string) (found : detected) :
  _detect_stock_metric query = Some found ->
  found = q_action "get_stock_metric" query.
Proof. unfold _detect_stock_metric. repeat case_match; by intros [= <-]. Qed.

Lemma detect_price_shape (query : string) (found : detected) :
  _detect_stock_price query = Some found ->
  found = q_action "get_stock_price" query.
Proof. unfold _detect_stock_price. repeat case_match; by intros [= <-]. Qed.

Lemma detect_etf_shape (query : string) (found : detected) :
  _detect_etf query = Some found -> found = q_action "get_etf_price" query.
Proof. unfold _detect_etf. case_match; by intros [= <-]. Qed.

Lemma detect_mf_nav_shape (query : string) (found : detected) :
  _detect_mf_nav query = Some found ->
  found = q_action "search_mutual_fund" query.
Proof. unfold _detect_mf_nav. repeat case_match; by intros [= <-]. Qed.

Lemma detect_fund_category_shape (query : string) (found : detected) :
  _detect_fund_category query = Some found ->
  exists category : string,
    found = Detected "get_top_funds"
              {[ "category" := VStr category;
                 "limit" := VInt MF_TOP_FUNDS_LIMIT ]}
    /\ category ∈ ["large cap"; "mid cap"; "small cap"; "elss"; "debt";
                   "hybrid"; "equity"].
Proof.
  unfold _detect_fund_category. case_match; [| discriminate].
  intros [= <-]. eexists. split; [reflexivity |].
  repeat case_match; set_solver.
Qed.

#[local] Opaque Float64.leb Float64.of_Z Float64.of_decimal Float64.to_Q
  float_of_Q search.

Lemma detect_sip_shape (query user_id : string) (cache cache' : profile_cache)
    (found : detected) :
  _detect_sip query user_id cache = (Ok (Some found), cache') ->
  exists amount years : Z,
    found = Detected "calculate_sip"
              {[ "monthly_sip" := VInt amount;
                 "years" := VInt years;
                 "expected_return" := VFloat DEFAULT_SIP_RETURN ]}
    /\ SIP_MIN_AMOUNT <= amount <= SIP_MAX_AMOUNT
    /\ SIP_MIN_YEARS <= years <= SIP_MAX_YEARS.
Proof.
  unfold _detect_sip, mbind, router_bind, mret, router_ret.
  intros Hfound. follow Hfound; injection Hfound as <- <-.
  eexists _, _. split; [reflexivity |].
  split; by apply in_range_bounds.
Qed.

Lemma detect_emi_shape (query : string) (found : detected) :
  _detect_emi query = Ok (Some found) ->
  exists (amt tenure : Z) (interest : Float64.float),
    found = Detected "calculate_emi"
              {[ "loan_amount" := VInt amt;
                 "interest_rate" := VFloat (Float64.to_Q interest);
                 "tenure_years" := VInt tenure ]}
    /\ extract_amount (lower query) = Ok (Some amt)
    /\ interest = match search interest_pattern (lower query) with
                  | Some m_int => Float64.of_decimal (group_text m_int 1)
                  | None => float_of_Q DEFAULT_EMI_INTEREST
                  end
    /\ EMI_MIN_LOAN <= amt <= EMI_MAX_LOAN
    /\ Float64.leb (Float64.of_Z EMI_MIN_INTEREST) interest = true
    /\ Float64.leb interest (Float64.of_Z EMI_MAX_INTEREST) = true
    /\ EMI_MIN_TENURE <= tenure <= EMI_MAX_TENURE.
Proof.
  unfold _detect_emi. destruct (any_in _ _); [| discriminate].
  destruct (extract_amount (lower query)) as [[amt |] | e]; try discriminate.
  cbn [mbind result_bind mret result_ret].
  destruct (negb ((EMI_MIN_LOAN <=? amt) && (amt <=? EMI_MAX_LOAN))) eqn:Hamt;
    [discriminate |].
  set (interest := match search interest_pattern (lower query) with
                   | Some m_int => Float64.of_decimal (group_text m_int 1)
                   | None => float_of_Q DEFAULT_EMI_INTEREST
                   end).
  destruct (negb (Float64.leb (Float64.of_Z EMI_MIN_INTEREST) interest
                  && Float64.leb interest (Float64.of_Z EMI_MAX_INTEREST)))
    eqn:Hint; [discriminate |].
  match goal with |- context [negb ((EMI_MIN_TENURE <=? ?t) && _)] =>
    set (tenure := t) end.
  destruct (negb ((EMI_MIN_TENURE <=? tenure) && (tenure <=? EMI_MAX_TENURE)))
    eqn:Hten; [discriminate |].
  intros [= <-]. exists amt, tenure, interest.
  apply negb_false_iff, andb_true_iff in Hint as [Hlo Hhi].
  split; [reflexivity |]. split; [reflexivity |]. split; [reflexivity |].
  split; [by apply in_range_bounds |].
  split; [exact Hlo |]. split; [exact Hhi |]. by apply in_range_bounds.
Qed.

Lemma detect_retirement_shape (query user_id : string)
    (cache cache' : profile_cache) (found : detected) :
  _detect_retirement query user_id cache = (Ok (Some found), cache') ->
  exists (current_age : pyval) (age : Q) (retirement_age monthly_expense : Z),
    found = Detected "calculate_retirement"
              {[ "current_age" := current_age;
                 "retirement_age" := VInt retirement_age;
                 "monthly_expense" := VInt monthly_expense ]}
    /\ as_number current_age = Ok age
    /\ (inject_Z MIN_AGE <= age <= inject_Z MAX_AGE)%Q
    /\ MIN_RETIREMENT_AGE <= retirement_age <= MAX_RETIREMENT_AGE
    /\ (age < inject_Z retirement_age)%Q
    /\ MIN_MONTHLY_EXPENSE <= monthly_expense <= MAX_MONTHLY_EXPENSE
    /\ (forall m_age, search age_pattern (lower query) = Some m_age ->
          current_age = VInt (digits_val (group_text m_age 1))).
Proof.
  unfold _detect_retirement, mbind, router_bind, mret, router_ret, lift.
  intros Hfound.
  destruct (contains "retirement" (lower query) || contains "corpus" (lower query)
            || contains "retire" (lower query)); [| discriminate].
  destruct (user_profile user_id cache) as [[profile | e] c1]; [| discriminate].
  match type of Hfound with (let (_, _) := ?m in _) = _ =>
    destruct m as [[current_age | e] c2] eqn:Haged end; [| discriminate].
  destruct (between MIN_AGE current_age MAX_AGE) as [[|] | e] eqn:Hbetween;
    try discriminate.
  cbn [negb] in Hfound.
  match type of Hfound with context [negb ((MIN_RETIREMENT_AGE <=? ?r) && _)] =>
    set (retirement_age := r) in * end.
  destruct (negb ((MIN_RETIREMENT_AGE <=? retirement_age)
                  && (retirement_age <=? MAX_RETIREMENT_AGE))) eqn:Hret;
    [discriminate |].
  destruct (between_bounds _ _ _ Hbetween) as (age & Hage & Hrange).
  rewrite Hage in Hfound.
  destruct (Qle_bool (inject_Z retirement_age) age) eqn:Hcmp; [discriminate |].
  follow Hfound; injection Hfound as <- <-.
  all: exists current_age, age, retirement_age; eexists;
    (split; [reflexivity |]); (split; [exact Hage |]);
    (split; [exact Hrange |]); (split; [by apply in_range_bounds |]);
    (split; [by apply Qle_bool_false |]); (split; [by apply in_range_bounds |]);
    intros m_age Hm; rewrite Hm in Haged; by injection Haged.
Qed.

Lemma detect_portfolio_shape (query user_id : string)
    (cache cache' : profile_cache) (found : detected) :
  _detect_portfolio query user_id cache = (Ok (Some found), cache') ->
  exists (age risk : pyval) (amt : Z),
    found = Detected "get_portfolio_recommendation"
              {[ "age" := age;
                 "risk_appetite" := risk;
                 "investment_amount" := VInt amt ]}
    /\ MIN_INVESTMENT <= amt <= MAX_INVESTMENT
    /\ (extract_amount (lower query) = Ok None -> amt = 100000).
Proof.
  unfold _detect_portfolio, mbind, router_bind, mret, router_ret, lift.
  intros Hfound.
  destruct (contains "portfolio" (lower query) || _); [| discriminate].
  destruct (user_profile user_id cache) as [[profile | e] c1]; [| discriminate].
  destruct (extract_amount (lower query)) as [found_amt | e]; [| discriminate].
  destruct (negb ((MIN_INVESTMENT <=? default 100000 found_amt)
                  && (default 100000 found_amt <=? MAX_INVESTMENT))) eqn:Hamt;
    [discriminate |].
  follow Hfound; injection Hfound as <- <-.
  eexists _, _, _. split; [reflexivity |].
  split; [by apply in_range_bounds |]. by intros [= ->].
Qed.

(** The detector a dispatched action comes from. *)
Lemma dispatcher_source (query user_id : string)
    (cache cache' : profile_cache) (found : detected) :
  _detect_action_with_priority query user_id cache = (Ok (Some found), cache') ->
  _detect_stock_metric query = Some found
  \/ _detect_stock_price query = Some found
  \/ _detect_etf query = Some found
  \/ _detect_mf_nav query = Some found
  \/ _detect_fund_category query = Some found
  \/ _detect_sip query user_id cache = (Ok (Some found), cache')
  \/ _detect_emi query = Ok (Some found)
  \/ (exists c0, _detect_retirement query user_id c0 = (Ok (Some found), cache'))
  \/ (exists c0, _detect_portfolio query user_id c0 = (Ok (Some found), cache')).
Proof.
  unfold _detect_action_with_priority, or_else.
  unfold mbind, router_bind, mret, router_ret, lift.
  destruct (_detect_stock_metric query) as [d |] eqn:Hmetric.
  { intros [= <- <-]. tauto. }
  destruct (_detect_stock_price query) as [d |] eqn:Hprice.
  { intros [= <- <-]. tauto. }
  destruct (_detect_etf query) as [d |] eqn:Hetf.
  { intros [= <- <-]. tauto. }
  destruct (_detect_mf_nav query) as [d |] eqn:Hnav.
  { intros [= <- <-]. tauto. }
  destruct (_detect_fund_category query) as [d |] eqn:Hcat.
  { intros [= <- <-]. tauto. }
  destruct (_detect_sip query user_id cache) as [[[d |] | e] c1] eqn:Hsip;
    [| | discriminate].
  { intros [= <- <-]. tauto. }
  destruct (_detect_emi query) as [[d |] | e] eqn:Hemi; [| | discriminate].
  { intros [= <- <-]. tauto. }
  destruct (_detect_retirement query user_id c1) as [[[d |] | e] c2] eqn:Hret;
    [| | discriminate].
  { intros [= <- <-]. do 7 right. left. by exists c1. }
  destruct (_detect_portfolio query user_id c2) as [[[d |] | e] c3] eqn:Hport;
    [| | discriminate].
  { intros [= <- <-]. do 8 right. by exists c2. }
  discriminate.
Qed.

(** X3. An action the dispatcher returns is one of the nine kinds the
    executor knows, and its parameters hold every key the executor
    subscripts for that kind. *)
Theorem dispatcher_contract (query user_id : string)
    (cache cache' : profile_cache) (found : detected) :
  _detect_action_with_priority query user_id cache = (Ok (Some found), cache') ->
  action found ∈ action_kinds
  /\ Forall (fun key => is_Some (parameters found !! key))
       (Contract.required_keys (action found)).
Proof.
  intros Hfound.
  destruct (dispatcher_source _ _ _ _ _ Hfound)
    as [H | [H | [H | [H | [H | [H | [H | [[c0 H] | [c0 H]]]]]]]]].
  - rewrite (detect_metric_shape _ _ H).
    split; [set_solver | repeat constructor; by eexists].
  - rewrite (detect_price_shape _ _ H).
    split; [set_solver | repeat constructor; by eexists].
  - rewrite (detect_etf_shape _ _ H).
    split; [set_solver | repeat constructor; by eexists].
  - rewrite (detect_mf_nav_shape _ _ H).
    split; [set_solver | repeat constructor; by eexists].
  - destruct (detect_fund_category_shape _ _ H) as (category & -> & _).
    split; [set_solver | repeat constructor; by eexists].
  - destruct (detect_sip_shape _ _ _ _ _ H) as (amount & years & -> & _).
    split; [set_solver | repeat constructor; by eexists].
  - destruct (detect_emi_shape _ _ H) as (amt & tenure & interest & -> & _).
    split; [set_solver | repeat constructor; by eexists].
  - destruct (detect_retirement_shape _ _ _ _ _ H)
      as (current_age & age & retirement_age & expense & -> & _).
    split; [set_solver | repeat constructor; by eexists].
  - destruct (detect_portfolio_shape _ _ _ _ _ H) as (age & risk & amt & -> & _).
    split; [set_solver | repeat constructor; by eexists].
Qed.

End DispatchFacts.

(** * The profile cache *)

Section CacheFacts.
Import Py QueryRouter Spec Contract.

(** X5. [_get_cached_profile] never raises. It returns the profile stored
    under the user id when there is one, leaving the cache as it is;
    otherwise it stores what it returns. It leaves the entries of the
    other users alone, and a second call returns the same profile without
    asking the profile manager again: whatever manager is then in place,
    the answer and the cache are the same. *)
Theorem cached_profile_memoised {profiles : UserProfileManager}
    (user_id : string) (cache : profile_cache) :
  exists (profile : pyval) (cache' : profile_cache),
    _get_cached_profile user_id cache = (Ok profile, cache')
    /\ cache' !! user_id = Some profile
    /\ (forall other : string,
          other <> user_id -> cache' !! other = cache !! other)
    /\ (forall stored : pyval,
          cache !! user_id = Some stored -> profile = stored /\ cache' = cache)
    /\ (forall later : UserProfileManager,
          _get_cached_profile (profiles := later) user_id cache'
          = (Ok profile, cache')).
Proof.
  unfold _get_cached_profile.
  destruct (cache !! user_id) as [stored |] eqn:Hcache.
  - exists stored, cache. rewrite Hcache.
    split; [reflexivity |]. split; [reflexivity |].
    split; [reflexivity |]. split; [by intros ? [= ->] |].
    intros later. by rewrite Hcache.
  - rewrite lookup_insert_eq. eexists _, _.
    split; [reflexivity |]. split; [by rewrite lookup_insert_eq |].
    split; [intros other Hne; by rewrite lookup_insert_ne |].
    split; [discriminate |].
    intros later. by rewrite !lookup_insert_eq.
Qed.

Context {profiles : UserProfileManager}.

Lemma get_cached_profile_cache (user_id : string) (cache : profile_cache) :
  (_get_cached_profile user_id cache).2 = memoised user_id cache.
Proof. reflexivity. Qed.

Lemma memoised_lookup (user_id : string) (cache : profile_cache) :
  is_Some (memoised user_id cache !! user_id).
Proof.
  unfold memoised, _get_cached_profile. cbn [snd].
  destruct (cache !! user_id) as [stored |] eqn:Hcache.
  - by rewrite Hcache.
  - by rewrite lookup_insert_eq.
Qed.

Lemma memoised_idem (user_id : string) (cache : profile_cache) :
  memoised user_id (memoised user_id cache) = memoised user_id cache.
Proof.
  destruct (memoised_lookup user_id cache) as [stored Hstored].
  unfold memoised at 1. unfold _get_cached_profile. cbn [snd].
  by rewrite Hstored.
Qed.

Lemma memoised_other (user_id other : string) (cache : profile_cache) :
  other <> user_id -> memoised user_id cache !! other = cache !! other.
Proof.
  intros Hne. unfold memoised, _get_cached_profile. cbn [snd].
  destruct (cache !! user_id); [done | by rewrite lookup_insert_ne].
Qed.

Lemma frames_ret {A : Type} (user_id : string) (a : A) :
  frames user_id (mret a).
Proof. intros cache. by left. Qed.

Lemma frames_lift {A : Type} (user_id : string) (r : result A) :
  frames user_id (lift r).
Proof. intros cache. by left. Qed.

Lemma frames_bind {A B : Type} (user_id : string) (m : Router A)
    (f : A -> Router B) :
  frames user_id m -> (forall a, frames user_id (f a)) ->
  frames user_id (m ≫= f).
Proof.
  intros Hm Hf cache. unfold mbind, router_bind.
  specialize (Hm cache). destruct (m cache) as [[a | e] c1]; cbn [snd] in *.
  - destruct (Hf a c1) as [-> | ->], Hm as [-> | ->]; auto.
    right. apply memoised_idem.
  - exact Hm.
Qed.

Lemma frames_try {A : Type} (user_id : string) (m : Router A)
    (handler : exn -> Router A) :
  frames user_id m -> (forall e, frames user_id (handler e)) ->
  frames user_id (router_try m handler).
Proof.
  intros Hm Hh cache. unfold router_try.
  specialize (Hm cache). destruct (m cache) as [[a | e] c1]; cbn [snd] in *.
  - exact Hm.
  - destruct (Hh e c1) as [-> | ->], Hm as [-> | ->]; auto.
    right. apply memoised_idem.
Qed.

Lemma frames_get_cached_profile (user_id : string) :
  frames user_id (_get_cached_profile user_id).
Proof. intros cache. by right. Qed.

(** Follows a router method through its binds, tests and matches. *)
Ltac frame :=
  repeat first
    [ apply frames_ret
    | apply frames_lift
    | apply frames_get_cached_profile
    | apply frames_bind; [| intros ?]
    | match goal with
      | |- frames _ (if ?b then _ else _) => destruct b
      | |- frames _ (match ?x with _ => _ end) => destruct x
      end ].

Lemma frames_user_profile (user_id : string) :
  frames user_id (user_profile user_id).
Proof. unfold user_profile. frame. Qed.

#[local] Opaque Float64.leb Float64.of_Z Float64.of_decimal Float64.to_Q
  float_of_Q Re.search user_profile.

Lemma frames_detect_sip (query user_id : string) :
  frames user_id (_detect_sip query user_id).
Proof.
  unfold _detect_sip, sip_amount.
  repeat first [apply frames_user_profile | progress frame].
Qed.

Lemma frames_detect_retirement (query user_id : string) :
  frames user_id (_detect_retirement query user_id).
Proof.
  unfold _detect_retirement.
  repeat first [apply frames_user_profile | progress frame].
Qed.

Lemma frames_detect_portfolio (query user_id : string) :
  frames user_id (_detect_portfolio query user_id).
Proof.
  unfold _detect_portfolio.
  repeat first [apply frames_user_profile | progress frame].
Qed.

Lemma frames_dispatcher (query user_id : string) :
  frames user_id (_detect_action_with_priority query user_id).
Proof.
  unfold _detect_action_with_priority, or_else.
  repeat first
    [ apply frames_detect_sip | apply frames_detect_retirement
    | apply frames_detect_portfolio | progress frame ].
Qed.

Context {market : MarketDataAgent} {calculator : Calculator}
        {llm : LLMEngine} {retriever : Retriever} {format : PyFormat}.

(** X6. Whatever the query and whatever fails on the way, [handle_query]
    leaves the profile cache as it was or as it is once the profile of
    this user is memoised: the entries of the other users are never
    touched. *)
Theorem handle_query_cache (query user_id : string) (cache : profile_cache) :
  ((handle_query query user_id cache).2 = cache
   \/ (handle_query query user_id cache).2 = memoised user_id cache)
  /\ (forall other : string,
        other <> user_id ->
        (handle_query query user_id cache).2 !! other = cache !! other).
Proof.
  assert (Hframes : frames user_id (handle_query query user_id)).
  { unfold handle_query, handle_query_body.
    apply frames_try; [| intros e; apply frames_ret].
    apply frames_bind; [apply frames_dispatcher |].
    intros detected_action. frame. }
  split; [apply Hframes |].
  intros other Hne. destruct (Hframes cache) as [-> | ->];
    [reflexivity | by apply memoised_other].
Qed.

End CacheFacts.

(** * More of sip_returns *)

Section SipGrowth.
Import Py Config FinancialCalculator Spec Closed.
Context {floats : FloatLib}.





Lemma mapM_fmap {A B : Type} (f : A -> result B) (g : A -> B) (l : list A) :
  (forall x, f x = Ok (g x)) -> mapM f l = Ok (g <$> l).
Proof.
  intros Hf. induction l as [| x l IH]; [reflexivity |].
  cbn [mapM fmap list_fmap]. rewrite Hf. cbn [mbind result_bind].
  rewrite IH. reflexivity.
Qed.

Lemma rate_nonzero (r : Q) : (0 < r)%Q -> ~ (r / 12 == 0)%Q.
Proof.
  intros Hr Hzero. assert (r == 0)%Q; [| lra].
  rewrite <- (Qmult_div_r r 12) by discriminate. rewrite Hzero. ring.
Qed.

Lemma rate_positive (r : Q) : (0 < r)%Q -> (0 < r / 12)%Q.
Proof. intros Hr. apply Qlt_shift_div_l; lra. Qed.

(** The payload of [sip_returns] on a valid input with a positive rate. *)
Lemma sip_returns_payload (P : Q) (Y : Z) (r : Q) :
  (0 < P)%Q -> 0 < Y <= 50 -> (0 < r <= 1)%Q ->
  exists p : sip_payload,
    sip_returns P Y (Some r) = Ok (Success p)
    /\ sip_monthly_sip p = P /\ sip_years p = Y /\ sip_expected_return p = r
    /\ sip_yearly_breakdown p = sip_row_of P (r / 12) <$> seqZ 1 Y
    /\ sip_total_invested p = round (P * inject_Z (Y * 12)) 0
    /\ sip_maturity_amount p = sy_value (sip_row_of P (r / 12) Y)
    /\ sip_gains p = sy_gains (sip_row_of P (r / 12) Y)
    /\ sip_year_5 p = (if 5 <=? Y then sip_yearly_breakdown p !! 4%nat else None)
    /\ sip_year_10 p = (if 10 <=? Y then sip_yearly_breakdown p !! 9%nat else None)
    /\ sip_year_15 p = (if 15 <=? Y then sip_yearly_breakdown p !! 14%nat else None)
    /\ sip_year_20 p = (if 20 <=? Y then sip_yearly_breakdown p !! 19%nat else None).
Proof.
  intros HP HY Hr.
  pose proof (rate_nonzero r (proj1 Hr)) as Hrate.
  assert (Hinvested : (0 < P * inject_Z (Y * 12))%Q).
  { apply Qmult_lt_0_compat; [done |].
    change 0%Q with (inject_Z 0). rewrite <- Zlt_Qlt. lia. }
  cbv beta iota zeta delta [sip_returns default from_option id].
  rewrite (validation_passes (sip_checks P Y r));
    [| apply sip_checks_pass; [done | done | lra]].
  cbn [mbind result_bind]. rewrite (sip_value_ok _ _ _ Hrate).
  cbn [mbind result_bind].
  rewrite (mapM_fmap _ (sip_row_of P (r / 12))).
  2:{ intros year. unfold sip_year_row. rewrite (sip_value_ok _ _ _ Hrate).
      reflexivity. }
  cbn [mbind result_bind]. rewrite fdiv_nonzero by lra.
  cbn [mbind result_bind mret result_ret].
  eexists. split; [reflexivity |]. cbn. repeat split; reflexivity.
Qed.





End SipGrowth.

(** * From detection to calculation *)

Section DetectedSip.
Import PyStr Re Py Config FinancialCalculator QueryRouter Spec
  CalculatorBinding.
Context {profiles : UserProfileManager} {market : MarketDataAgent}
        {format : PyFormat} {floats : FloatLib}.

Lemma default_sip_return_range : (0 < DEFAULT_SIP_RETURN <= 1)%Q.
Proof. split; [reflexivity | discriminate]. Qed.

Lemma inject_Z_range (lo x hi : Z) :
  lo <= x <= hi -> (inject_Z lo <= inject_Z x <= inject_Z hi)%Q.
Proof. intros [Hlo Hhi]. by rewrite <- !Zle_Qle. Qed.

(** X9. An action the SIP detector returns always passes the validation of
    [sip_returns]: run through the executor with the calculator behind
    it, it yields the dictionary of a payload, with no ["error"] key, for
    a monthly amount between 100 and 1000000 over 1 to 50 years at the
    default return. *)
Theorem detected_sip_is_computed (query user_id : string)
    (cache cache' : profile_cache) (found : detected) :
  _detect_sip query user_id cache = (Ok (Some found), cache') ->
  exists p : sip_payload,
    _execute_action (calculator := financial_calculator)
      (VStr (action found)) (VDict (parameters found))
    = Ok (sip_dict p)
    /\ sip_dict p !! "error" = None
    /\ (inject_Z SIP_MIN_AMOUNT <= sip_monthly_sip p
        <= inject_Z SIP_MAX_AMOUNT)%Q
    /\ SIP_MIN_YEARS <= FinancialCalculator.sip_years p <= SIP_MAX_YEARS
    /\ sip_expected_return p = DEFAULT_SIP_RETURN.
Proof.
  intros Hfound.
  destruct (detect_sip_shape _ _ _ _ _ Hfound)
    as (amount & years & -> & Hamount & Hyears).
  unfold SIP_MIN_AMOUNT, SIP_MAX_AMOUNT in Hamount.
  unfold SIP_MIN_YEARS, SIP_MAX_YEARS in Hyears.
  destruct (sip_returns_payload (inject_Z amount) years DEFAULT_SIP_RETURN)
    as (p & Hp & HP & HY & Hr & _).
  { change 0%Q with (inject_Z 0). rewrite <- Zlt_Qlt. lia. }
  { lia. }
  { exact default_sip_return_range. }
  exists p. cbn [action parameters].
  split.
  { unfold _execute_action. cbn [is_action String.eqb Ascii.eqb Bool.eqb].
    change (getitem (VDict _) "monthly_sip") with (Ok (VInt amount)).
    change (getitem (VDict _) "years") with (Ok (VInt years)).
    change (get (VDict _) "expected_return" _)
      with (Ok (VFloat DEFAULT_SIP_RETURN)).
    cbn [mbind result_bind calc_sip_returns financial_calculator as_number
         as_int as_optional_number mret result_ret].
    rewrite Hp. reflexivity. }
  split; [reflexivity |].
  rewrite HP, HY, Hr.
  split; [by apply inject_Z_range |]. split; [exact Hyears | reflexivity].
Qed.

End DetectedSip.

(** * More of emi_calculator *)

Section EmiFacts.
Import Py Config FinancialCalculator Spec Closed.
Context {floats : FloatLib}.

Lemma monthly_rate_positive (r : Q) : (0 < r)%Q -> (0 < r / 12 / 100)%Q.
Proof.
  intros Hr. apply Qlt_shift_div_l; [reflexivity |].
  apply Qlt_shift_div_l; lra.
Qed.


Lemma emi_of_positive (L i : Q) (n : Z) :
  (0 < L)%Q -> (0 < i)%Q -> 0 < n -> (0 < emi_of L i n)%Q.
Proof.
  intros HL Hi Hn. unfold emi_of. rewrite pow_whole.
  pose proof (Qpower_1_lt (1 + i) n ltac:(lra) Hn) as HG.
  apply Qlt_shift_div_l; [lra |]. rewrite Qmult_0_l.
  repeat apply Qmult_lt_0_compat; lra.
Qed.


(** The payload of [emi_calculator] on a valid input. *)
Lemma emi_calculator_payload (L r : Q) (T : Z) :
  (0 < L <= inject_Z EMI_MAX_LOAN)%Q -> (0 < r <= 30)%Q -> 0 < T <= 30 ->
  let i := (r / 12 / 100)%Q in
  let emi := emi_of L i (T * 12) in
  let total := (emi * inject_Z (T * 12))%Q in
  exists p : emi_payload,
    emi_calculator L (Some r) T = Ok (Success p)
    /\ emi_loan_amount p = L /\ emi_interest_rate p = r
    /\ emi_tenure_years p = T /\ emi_tenure_months p = T * 12
    /\ emi_yearly_breakdown p = emi_schedule emi i L (seqZ 1 T)
    /\ emi_monthly_emi p = round emi 0
    /\ emi_total_payment p = round total 0
    /\ emi_total_interest p = round (total - L) 0
    /\ emi_principal_percentage p = round (L / total * 100) 2
    /\ emi_interest_percentage p = round ((total - L) / total * 100) 2.
Proof.
  intros HL Hr HT i emi total.
  pose proof (monthly_rate_positive r (proj1 Hr)) as Hi. fold i in Hi.
  pose proof (emi_of_positive L i (T * 12) (proj1 HL) Hi ltac:(lia)) as Hemi.
  fold emi in Hemi.
  assert (Htotal : (0 < total)%Q).
  { apply Qmult_lt_0_compat; [done |].
    change 0%Q with (inject_Z 0). rewrite <- Zlt_Qlt. lia. }
  cbv beta iota zeta delta [emi_calculator default from_option id].
  rewrite (validation_passes (emi_checks L r T)).
  2:{ destruct (emi_checks_spec L r T) as [[Hok _] | (msg & _ & Hbad)];
        [done |].
      by destruct (emi_invalid_not_valid _ _ _ Hbad). }
  cbn [mbind result_bind]. fold i.
  assert (Hnz : Qeq_bool i 0 = false).
  { destruct (Qeq_bool i 0) eqn:Hz; [| done].
    apply Qeq_bool_eq in Hz. lra. }
  rewrite Hnz. rewrite fdiv_nonzero.
  2:{ rewrite pow_whole.
      pose proof (Qpower_1_lt (1 + i) (T * 12) ltac:(lra) ltac:(lia)). lra. }
  cbn [mbind result_bind]. fold (emi_of L i (T * 12)). fold emi. fold total.
  rewrite !fdiv_nonzero by lra.
  cbn [mbind result_bind mret result_ret].
  eexists. split; [reflexivity |]. cbn. repeat split; reflexivity.
Qed.








End EmiFacts.

(** * More of retirement_corpus *)

Section RetirementPlan.
Import Py Config FinancialCalculator Spec.
Context {floats : FloatLib}.

(** What is assumed of the C library's [pow]: a positive base gives a
    positive power. *)
Hypothesis fpow_positive : forall b e : Q, (0 < b)%Q -> (0 < fpow b e)%Q.

(** The payload of [retirement_corpus] on a valid input, with the corpus
    and the monthly SIP before rounding. *)
Lemma retirement_corpus_payload (a b : Z) (E inf : Q) (pry : Z) (sr prr : Q) :
  retirement_valid a b E inf pry sr prr ->
  let corpus :=
    (E * pow (1 + inf) (inject_Z (b - a)) * 12 * inject_Z pry
     / pow (1 + prr) (inject_Z pry / 2))%Q in
  let months := (b - a) * 12 in
  let i := (sr / 12)%Q in
  exists (p : retirement_payload) (sip : Q),
    retirement_corpus a b E (Some inf) (Some pry) (Some sr) (Some prr)
    = Ok (Success p)
    /\ ret_years_to_retirement p = b - a
    /\ ret_corpus_needed p = round corpus 0
    /\ ret_monthly_sip_required p = round sip 0
    /\ ret_total_sip_investment p = round (sip * inject_Z months) 0
    /\ ((sr == 0)%Q -> sip = (corpus / inject_Z months)%Q)
    /\ ((0 < sr)%Q ->
        sip = (corpus * i
               / ((pow (1 + i) (inject_Z months) - 1) * (1 + i)))%Q).
Proof.
  intros Hvalid corpus months i.
  pose proof Hvalid as (Ha & Hb & HE & Hab & Hspan & Hpry & Hi & Hs & Hp).
  cbv beta iota zeta delta [retirement_corpus default from_option id].
  rewrite (validation_passes (retirement_checks a b E inf pry sr prr)).
  2:{ destruct (retirement_checks_spec a b E inf pry sr prr)
        as [[Hok _] | (msg & _ & Hbad)]; [done |].
      by destruct (retirement_invalid_not_valid _ _ _ _ _ _ _ Hbad). }
  cbn [mbind result_bind].
  rewrite fdiv_nonzero.
  2:{ pose proof (pow_positive fpow_positive (1 + prr) (inject_Z pry / 2))
        as Hpow. lra. }
  cbn [mbind result_bind]. fold corpus. fold months. fold i.
  destruct (Qeq_bool i 0) eqn:Hrate.
  - rewrite fdiv_nonzero by (apply inject_Z_nonzero; lia).
    cbn [mbind result_bind mret result_ret].
    eexists _, _. split; [reflexivity |]. cbn.
    do 4 (split; [reflexivity |]). split; [reflexivity |].
    intros Hsr. apply Qeq_bool_eq in Hrate.
    pose proof (rate_positive sr Hsr). fold i in H. lra.
  - apply Qeq_bool_neq in Hrate.
    assert (Hsr : (0 < sr)%Q).
    { destruct (Qlt_le_dec 0 sr) as [Hlt | Hle]; [done |].
      exfalso. apply Hrate. assert (Hzero : (sr == 0)%Q) by lra.
      unfold i. rewrite Hzero. reflexivity. }
    pose proof (rate_positive sr Hsr) as Hpos. fold i in Hpos.
    rewrite fdiv_nonzero.
    + cbn [mbind result_bind mret result_ret].
      eexists _, _. split; [reflexivity |]. cbn.
      do 4 (split; [reflexivity |]). split; [| reflexivity].
      intros Hzero. lra.
    + rewrite pow_whole.
      pose proof (Qpower_1_lt (1 + i) months ltac:(lra) ltac:(lia)) as Hgrow.
      intros Hzero.
      assert (0 < ((1 + i) ^ months - 1) * (1 + i))%Q
        by (apply Qmult_lt_0_compat; lra).
      lra.
Qed.


End RetirementPlan.

Section DetectedLoans.
Import PyStr Re Py Config FinancialCalculator QueryRouter Spec
  CalculatorBinding.
Context {market : MarketDataAgent} {format : PyFormat} {floats : FloatLib}.

Lemma default_emi_interest_float :
  Float64.to_Q (float_of_Q DEFAULT_EMI_INTEREST) = DEFAULT_EMI_INTEREST.
Proof. vm_compute. reflexivity. Qed.

Lemma default_emi_interest_range : (0 < DEFAULT_EMI_INTEREST <= 30)%Q.
Proof. split; [reflexivity | discriminate]. Qed.

(** X13. An action the EMI detector returns for a query that names no
    rate is computed at the default 8.5% and always passes the validation
    of [emi_calculator]: through the executor it yields the dictionary of
    a payload, with no ["error"] key, for a loan between 50000 and
    100000000 over 1 to 30 years. *)
Theorem detected_emi_is_computed (query : string) (found : detected) :
  _detect_emi query = Ok (Some found) ->
  search interest_pattern (lower query) = None ->
  exists p : emi_payload,
    _execute_action (calculator := financial_calculator)
      (VStr (action found)) (VDict (parameters found))
    = Ok (emi_dict p)
    /\ emi_dict p !! "error" = None
    /\ emi_interest_rate p = DEFAULT_EMI_INTEREST
    /\ (inject_Z EMI_MIN_LOAN <= emi_loan_amount p <= inject_Z EMI_MAX_LOAN)%Q
    /\ EMI_MIN_TENURE <= emi_tenure_years p <= EMI_MAX_TENURE.
Proof.
  intros Hfound Hrate.
  destruct (detect_emi_shape _ _ Hfound)
    as (amt & tenure & interest & -> & _ & Hinterest & Hamt & _ & _ & Hten).
  rewrite Hrate in Hinterest. subst interest.
  unfold EMI_MIN_LOAN in Hamt. unfold EMI_MIN_TENURE, EMI_MAX_TENURE in Hten.
  destruct (emi_calculator_payload (inject_Z amt) DEFAULT_EMI_INTEREST tenure)
    as (p & Hp & HL & Hr & HT & _).
  { split; [change 0%Q with (inject_Z 0); rewrite <- Zlt_Qlt; lia |].
    rewrite <- Zle_Qle. lia. }
  { exact default_emi_interest_range. }
  { lia. }
  exists p. cbn [action parameters].
  split.
  { unfold _execute_action. cbn [is_action String.eqb Ascii.eqb Bool.eqb].
    change (getitem (VDict _) "loan_amount") with (Ok (VInt amt)).
    change (getitem (VDict _) "tenure_years") with (Ok (VInt tenure)).
    change (get (VDict _) "interest_rate" _)
      with (Ok (VFloat (Float64.to_Q (float_of_Q DEFAULT_EMI_INTEREST)))).
    rewrite default_emi_interest_float.
    cbn [mbind result_bind calc_emi_calculator financial_calculator as_number
         as_int as_optional_number mret result_ret].
    rewrite Hp. reflexivity. }
  split; [reflexivity |].
  rewrite HL, Hr, HT.
  split; [reflexivity |]. split; [| exact Hten].
  apply inject_Z_range. exact Hamt.
Qed.

Context {profiles : UserProfileManager}.

(** What is assumed of the C library's [pow]: a positive base gives a
    positive power. *)
Hypothesis fpow_positive : forall b e : Q, (0 < b)%Q -> (0 < fpow b e)%Q.

Lemma default_rates_valid :
  (0 <= DEFAULT_INFLATION <= 1)%Q /\ (0 <= DEFAULT_SIP_RETURN <= 1)%Q
  /\ (0 <= DEFAULT_POST_RET_RETURN <= 1)%Q.
Proof. repeat split; discriminate. Qed.

(** X15. The retirement detector accepts every age from 18 to 80 and
    every retirement age from 30 to 100 above it, whereas
    [retirement_corpus] refuses more than 50 years to retirement. For a
    detected action whose current age is a whole number, the executor
    returns the dictionary of a payload when the span is at most 50 years
    and [{"error": "Years to retirement cannot exceed 50"}] otherwise. *)
Theorem detected_retirement_span (query user_id : string)
    (cache cache' : profile_cache) (found : detected) (current_age : Z) :
  _detect_retirement query user_id cache = (Ok (Some found), cache') ->
  parameters found !! "current_age" = Some (VInt current_age) ->
  exists retirement_age monthly_expense : Z,
    parameters found !! "retirement_age" = Some (VInt retirement_age)
    /\ parameters found !! "monthly_expense" = Some (VInt monthly_expense)
    /\ MIN_AGE <= current_age <= MAX_AGE
    /\ MIN_RETIREMENT_AGE <= retirement_age <= MAX_RETIREMENT_AGE
    /\ current_age < retirement_age
    /\ MIN_MONTHLY_EXPENSE <= monthly_expense <= MAX_MONTHLY_EXPENSE
    /\ (retirement_age - current_age <= 50 ->
        exists p : retirement_payload,
          _execute_action (calculator := financial_calculator)
            (VStr (action found)) (VDict (parameters found))
          = Ok (retirement_dict p)
          /\ retirement_dict p !! "error" = None
          /\ ret_years_to_retirement p = retirement_age - current_age)
    /\ (50 < retirement_age - current_age ->
        _execute_action (calculator := financial_calculator)
          (VStr (action found)) (VDict (parameters found))
        = Ok {[ "error" := VStr "Years to retirement cannot exceed 50" ]}).
Proof.
  intros Hfound Hage.
  destruct (detect_retirement_shape _ _ _ _ _ Hfound)
    as (age_value & age & retirement_age & expense & -> & Hnum & Hrange
          & Hret & Hlt & Hexp & _).
  cbn [parameters action] in *.
  assert (age_value = VInt current_age) as -> by (by injection Hage).
  injection Hnum as <-. clear Hage.
  unfold MIN_AGE, MAX_AGE in *. unfold MIN_RETIREMENT_AGE, MAX_RETIREMENT_AGE in *.
  unfold MIN_MONTHLY_EXPENSE, MAX_MONTHLY_EXPENSE in *.
  rewrite <- !Zle_Qle in Hrange. rewrite <- Zlt_Qlt in Hlt.
  exists retirement_age, expense.
  split; [reflexivity |]. split; [reflexivity |].
  split; [exact Hrange |]. split; [exact Hret |]. split; [exact Hlt |].
  split; [exact Hexp |].
  assert (Hrun : _execute_action (calculator := financial_calculator)
            (VStr "calculate_retirement")
            (VDict {[ "current_age" := VInt current_age;
                      "retirement_age" := VInt retirement_age;
                      "monthly_expense" := VInt expense ]})
          = try_except
              (o ← retirement_corpus current_age retirement_age
                     (inject_Z expense) None None None None;
               mret (outcome_dict retirement_dict o))
              (fun e => mret (error_result
                 ("Error executing calculate_retirement: " +:+ exn_msg e)))).
  { unfold _execute_action. cbn [is_action String.eqb Ascii.eqb Bool.eqb].
    change (getitem (VDict _) "current_age") with (Ok (VInt current_age)).
    change (getitem (VDict _) "retirement_age") with (Ok (VInt retirement_age)).
    change (getitem (VDict _) "monthly_expense") with (Ok (VInt expense)).
    reflexivity. }
  rewrite Hrun. clear Hrun.
  assert (HE : (0 < inject_Z expense)%Q)
    by (change 0%Q with (inject_Z 0); rewrite <- Zlt_Qlt; lia).
  destruct default_rates_valid as (Hinf & Hsr & Hprr).
  split.
  - intros Hspan.
    destruct (retirement_corpus_payload fpow_positive current_age
                retirement_age (inject_Z expense) DEFAULT_INFLATION
                DEFAULT_POST_RET_YEARS DEFAULT_SIP_RETURN
                DEFAULT_POST_RET_RETURN) as (p & sip & Hp & Hyears & _).
    { unfold retirement_valid, DEFAULT_POST_RET_YEARS.
      repeat split; try done; try lia; tauto. }
    exists p.
    change (retirement_corpus current_age retirement_age (inject_Z expense)
              None None None None)
      with (retirement_corpus current_age retirement_age (inject_Z expense)
              (Some DEFAULT_INFLATION) (Some DEFAULT_POST_RET_YEARS)
              (Some DEFAULT_SIP_RETURN) (Some DEFAULT_POST_RET_RETURN)).
    rewrite Hp. split; [reflexivity |]. split; [reflexivity | exact Hyears].
  - intros Hspan.
    cbv beta iota zeta delta [retirement_corpus default from_option id].
    assert (Hchecks : retirement_checks current_age retirement_age
              (inject_Z expense) DEFAULT_INFLATION DEFAULT_POST_RET_YEARS
              DEFAULT_SIP_RETURN DEFAULT_POST_RET_RETURN
            = Raise (ValueError "Years to retirement cannot exceed 50")).
    { unfold retirement_checks, _validate_age, _validate_positive.
      replace ((0 <? current_age) && (current_age <? 120)) with true
        by (symmetry; apply andb_true_iff; split; lia).
      replace ((0 <? retirement_age) && (retirement_age <? 120)) with true
        by (symmetry; apply andb_true_iff; split; lia).
      cbn [mbind result_bind num_val].
      replace (Qle_bool (inject_Z expense) 0) with false.
      2:{ symmetry. destruct (Qle_bool (inject_Z expense) 0) eqn:Hle; [| done].
          apply Qle_bool_iff in Hle. lra. }
      cbn [mbind result_bind].
      replace (retirement_age <=? current_age) with false by lia.
      replace (50 <? retirement_age - current_age) with true by lia.
      reflexivity. }
    rewrite (validation_fails _ _ Hchecks). reflexivity.
Qed.

End DetectedLoans.

(** * The portfolio recommendation *)

Section PortfolioFacts.
Import PyStr Py MarketData.

Lemma adjustment_cases (risk : string) :
  (risk = "aggressive" /\ adjustments !! risk = Some 20)
  \/ (risk = "moderate" /\ adjustments !! risk = Some 0)
  \/ (risk = "conservative" /\ adjustments !! risk = Some (-20))
  \/ ((risk ∉ ["aggressive"; "moderate"; "conservative"])
      /\ adjustments !! risk = None).
Proof.
  unfold adjustments.
  destruct (decide (risk = "aggressive")) as [-> | Ha]; [by left |].
  destruct (decide (risk = "moderate")) as [-> | Hm]; [by right; left |].
  destruct (decide (risk = "conservative")) as [-> | Hc];
    [by right; right; left |].
  right; right; right. split.
  - rewrite !not_elem_of_cons. split_and!; try done. apply not_elem_of_nil.
  - by rewrite !lookup_insert_ne, lookup_singleton_ne.
Qed.

(** X17. The equity share [_calculate_equity_allocation] recommends is
    always between 20 and 90 and leaves a debt share between 10 and 80. It
    never grows with age, it is ordered by risk appetite (conservative,
    moderate, aggressive), it reads the appetite without regard to case,
    and an appetite it does not know counts as moderate. *)
Theorem equity_allocation_bounds (age : Z) (risk : string) :
  20 <= _calculate_equity_allocation age risk <= 90
  /\ 10 <= 100 - _calculate_equity_allocation age risk <= 80
  /\ (forall older : Z,
        age <= older ->
        _calculate_equity_allocation older risk
        <= _calculate_equity_allocation age risk)
  /\ (_calculate_equity_allocation age "conservative"
      <= _calculate_equity_allocation age "moderate"
      <= _calculate_equity_allocation age "aggressive")
  /\ (forall other : string,
        lower other = lower risk ->
        _calculate_equity_allocation age other
        = _calculate_equity_allocation age risk)
  /\ ((lower risk ∉ ["aggressive"; "moderate"; "conservative"]) ->
      _calculate_equity_allocation age risk
      = _calculate_equity_allocation age "moderate").
Proof.
  unfold _calculate_equity_allocation.
  change (adjustments !! lower "conservative") with (Some (-20)).
  change (adjustments !! lower "moderate") with (Some 0).
  change (adjustments !! lower "aggressive") with (Some 20).
  cbn [default from_option id].
  split; [lia |]. split; [lia |]. split; [intros older Hage; lia |].
  split; [lia |]. split; [by intros other -> |].
  intros Hunknown.
  destruct (adjustment_cases (lower risk))
    as [[Hr _] | [[Hr _] | [[Hr _] | [_ ->]]]];
    [rewrite Hr, !not_elem_of_cons in Hunknown; tauto .. | reflexivity].
Qed.

Section Funds.
Variable top_funds : string -> Z -> result pydict.

Lemma recommend_step (investment_amount : Q) (acc acc' : pydict)
    (c : string) (w : Q) :
  recommend top_funds investment_amount acc (c, w) = Ok acc' ->
  forall category : string,
    is_Some (acc' !! category) -> is_Some (acc !! category) \/ category = c.
Proof.
  unfold recommend.
  destruct (top_funds c 3) as [funds_data | e];
    cbn [mbind result_bind]; [| discriminate].
  destruct (truthy (default VNone (funds_data !! "success"))).
  - destruct (getitem (VDict funds_data) "funds") as [funds | e];
      cbn [mbind result_bind mret result_ret]; [| discriminate].
    intros [= <-] category Hin.
    destruct (decide (category = c)) as [-> | Hne]; [by right |].
    left. by rewrite lookup_insert_ne in Hin.
  - intros [= <-] category Hin. by left.
Qed.

Lemma recommend_keys (investment_amount : Q) (allocation : list (string * Q))
    (acc recommended : pydict) :
  for_each (recommend top_funds investment_amount) acc allocation
  = Ok recommended ->
  forall category : string,
    is_Some (recommended !! category) ->
    is_Some (acc !! category) \/ category ∈ allocation.*1.
Proof.
  revert acc. induction allocation as [| [c w] allocation IH]; intros acc.
  - cbn [for_each]. intros [= <-] category Hin. by left.
  - cbn [for_each].
    destruct (recommend top_funds investment_amount acc (c, w))
      as [acc' | e] eqn:Hstep; cbn [mbind result_bind]; [| discriminate].
    intros Hrest category Hin. cbn [fmap list_fmap fst].
    destruct (IH _ Hrest category Hin) as [Hacc | Hlater].
    + destruct (recommend_step _ _ _ _ _ Hstep category Hacc) as [? | ->];
        [by left | right; apply list_elem_of_here].
    + right. by apply list_elem_of_further.
Qed.

Lemma recommend_nothing (investment_amount : Q)
    (allocation : list (string * Q)) (acc : pydict) :
  (forall category : string,
     exists funds_data : pydict,
       top_funds category 3 = Ok funds_data
       /\ truthy (default VNone (funds_data !! "success")) = false) ->
  for_each (recommend top_funds investment_amount) acc allocation = Ok acc.
Proof.
  intros Hfail. induction allocation as [| [c w] allocation IH];
    [reflexivity |].
  cbn [for_each].
  assert (Hstep : recommend top_funds investment_amount acc (c, w) = Ok acc).
  { unfold recommend. destruct (Hfail c) as (funds_data & -> & Hno).
    cbn [mbind result_bind]. by rewrite Hno. }
  rewrite Hstep. exact IH.
Qed.

(** X18. [get_personalized_portfolio] never raises. It returns either
    [{"error": message}] or a portfolio that echoes the investment, whose
    profile holds the equity share of [_calculate_equity_allocation] and
    the debt share that completes it to 100, and which recommends funds
    for categories of the chosen allocation only. When no fund listing
    reports success, the portfolio is still returned, with no
    recommended fund. *)
Theorem portfolio_never_raises (age : Z) (risk_appetite : string)
    (investment_amount : Q) :
  let equity_pct := _calculate_equity_allocation age risk_appetite in
  (exists d : pydict,
     get_personalized_portfolio top_funds age risk_appetite investment_amount
     = Ok d
     /\ ((exists msg : string, d = {[ "error" := VStr msg ]})
         \/ (exists recommended : pydict,
               d !! "error" = None
               /\ d !! "total_investment" = Some (VFloat investment_amount)
               /\ d !! "profile"
                  = Some (VDict {[ "age" := VInt age;
                                   "risk_appetite" := VStr risk_appetite;
                                   "equity_allocation" := VInt equity_pct;
                                   "debt_allocation" :=
                                     VInt (100 - equity_pct) ]})
               /\ d !! "recommended_funds" = Some (VDict recommended)
               /\ (forall category : string,
                     is_Some (recommended !! category) ->
                     category ∈ (allocation_for equity_pct).*1))))
  /\ ((forall category : string,
         exists funds_data : pydict,
           top_funds category 3 = Ok funds_data
           /\ truthy (default VNone (funds_data !! "success")) = false) ->
      exists d : pydict,
        get_personalized_portfolio top_funds age risk_appetite
          investment_amount = Ok d
        /\ d !! "error" = None
        /\ d !! "recommended_funds" = Some (VDict ∅)).
Proof.
  intros equity_pct. unfold get_personalized_portfolio. fold equity_pct.
  split.
  - destruct (for_each (recommend top_funds investment_amount) ∅
                (allocation_for equity_pct)) as [recommended | e] eqn:Hloop.
    + cbn [mbind result_bind mret result_ret try_except].
      eexists. split; [reflexivity |]. right. exists recommended.
      split; [reflexivity |]. split; [reflexivity |].
      split; [reflexivity |]. split; [reflexivity |].
      intros category Hin.
      destruct (recommend_keys _ _ _ _ Hloop category Hin) as [Hempty | Hcat];
        [| exact Hcat].
      rewrite lookup_empty in Hempty. by destruct Hempty.
    + cbn [mbind result_bind try_except mret result_ret].
      eexists. split; [reflexivity |]. left. by eexists.
  - intros Hfail. rewrite (recommend_nothing _ _ _ Hfail).
    cbn [mbind result_bind mret result_ret try_except].
    eexists. split; [reflexivity |]. split; reflexivity.
Qed.

End Funds.
End PortfolioFacts.

(** * The language-model engine *)

Section EngineFacts.
Import PyStr Py LLM.
Context {client : ChatClient}.

(** X19. [generate] never asks for more tokens than the caller allows, nor
    for more than 300 in JSON mode and 500 in chat mode; it uses the
    temperature of its mode; and it either returns the model's text or
    raises a [RuntimeError] whose message starts with
    ["LLM generation failed: "]: no other exception leaves it. *)
Theorem generate_bounded (prompt : string) (json_mode : bool)
    (context : string) (max_tokens : Z) :
  let request := generate_request prompt json_mode context max_tokens in
  req_max_tokens request <= max_tokens
  /\ req_max_tokens request
     <= (if json_mode then LLM_MAX_TOKENS_QUERY
         else LLM_MAX_TOKENS_CONVERSATION)
  /\ req_temperature request
     = (if json_mode then LLM_TEMPERATURE_JSON else LLM_TEMPERATURE_CHAT)
  /\ ((exists text : string,
         chat_completion (req_prompt request) (req_temperature request)
           (req_max_tokens request) = Ok text
         /\ generate prompt json_mode context max_tokens = Ok text)
      \/ (exists e : exn,
            chat_completion (req_prompt request) (req_temperature request)
              (req_max_tokens request) = Raise e
            /\ generate prompt json_mode context max_tokens
               = Raise (RuntimeError ("LLM generation failed: "
                                      +:+ exn_msg e)))).
Proof.
  intros request. subst request. unfold generate.
  set (request := generate_request prompt json_mode context max_tokens).
  assert (Hcap : req_max_tokens request <= max_tokens
                 /\ req_max_tokens request
                    <= (if json_mode then LLM_MAX_TOKENS_QUERY
                        else LLM_MAX_TOKENS_CONVERSATION)
                 /\ req_temperature request
                    = (if json_mode then LLM_TEMPERATURE_JSON
                       else LLM_TEMPERATURE_CHAT)).
  { subst request. unfold generate_request.
    destruct json_mode; cbn [req_max_tokens req_temperature];
      (split; [lia |]); (split; [lia | reflexivity]). }
  destruct Hcap as (Hmax & Hmode & Htemp).
  split; [exact Hmax |]. split; [exact Hmode |]. split; [exact Htemp |].
  destruct (chat_completion (req_prompt request) (req_temperature request)
              (req_max_tokens request)) as [text | e].
  - left. by exists text.
  - right. by exists e.
Qed.

Lemma generate_raises (prompt : string) (json_mode : bool) (context : string)
    (max_tokens : Z) :
  (forall (p : string) (t : Q) (m : Z), exists e, chat_completion p t m = Raise e) ->
  exists e : exn,
    generate prompt json_mode context max_tokens
    = Raise (RuntimeError ("LLM generation failed: " +:+ exn_msg e)).
Proof.
  intros Hdown. unfold generate.
  match goal with |- context [chat_completion ?p ?t ?m] =>
    destruct (Hdown p t m) as [e ->] end.
  by exists e.
Qed.

(** [get_response] never raises. *)
Lemma get_response_returns (user_query context user_profile : string) :
  exists d : pydict, get_response user_query context user_profile = Ok d.
Proof.
  unfold get_response, try_except.
  match goal with |- context [match ?b with Ok _ => _ | Raise _ => _ end] =>
    destruct b end; eauto.
Qed.

(** X20. [get_response] never raises, and what it returns has one of three
    shapes: the dictionary parsed from the model's answer, holding
    ["action"] and ["parameters"]; [{"content": text}] with the model's
    conversational answer; or, after any failure, the error message with
    the fixed advice to check the model server. *)
Theorem get_response_shapes (user_query context user_profile : string) :
  exists d : pydict,
    get_response user_query context user_profile = Ok d
    /\ ((is_Some (d !! "action") /\ is_Some (d !! "parameters")
         /\ exists response : string,
              extract_json response = Ok (Some d))
        \/ (exists text : string, d = {[ "content" := VStr text ]})
        \/ (exists msg : string,
              d = {[ "error" := VStr msg; "content" := VStr "I'm having trouble connecting to the AI model. Please check if LM Studio is running." ]})).
Proof.
  unfold get_response.
  set (ctx := full_context context user_profile).
  destruct (generate user_query true ctx LLM_MAX_TOKENS_QUERY)
    as [response | e]; cbn [mbind result_bind try_except mret result_ret];
    [| eexists; split; [reflexivity | right; right; by eexists]].
  destruct (extract_json response) as [[d |] | e] eqn:Hparsed;
    cbn [mbind result_bind try_except mret result_ret];
    [| | eexists; split; [reflexivity | right; right; by eexists]].
  - destruct (truthy (VDict d) && bool_decide (is_Some (d !! "action"))
              && bool_decide (is_Some (d !! "parameters"))) eqn:Htest.
    + apply andb_true_iff in Htest as [Htest Hparams].
      apply andb_true_iff in Htest as [_ Haction].
      apply bool_decide_eq_true in Hparams, Haction.
      exists d. split; [reflexivity |]. left.
      split; [exact Haction |]. split; [exact Hparams |]. by exists response.
    + destruct (generate user_query false ctx LLM_MAX_TOKENS_CONVERSATION)
        as [text | e]; cbn [mbind result_bind try_except mret result_ret];
        eexists; (split; [reflexivity |]); right;
        [left | right]; by eexists.
  - destruct (generate user_query false ctx LLM_MAX_TOKENS_CONVERSATION)
      as [text | e]; cbn [mbind result_bind try_except mret result_ret];
      eexists; (split; [reflexivity |]); right;
      [left | right]; by eexists.
Qed.

Lemma get_response_down (user_query context user_profile : string) :
  (forall (p : string) (t : Q) (m : Z), exists e, chat_completion p t m = Raise e) ->
  exists msg : string,
    get_response user_query context user_profile
    = Ok {[ "error" := VStr msg; "content" := VStr "I'm having trouble connecting to the AI model. Please check if LM Studio is running." ]}.
Proof.
  intros Hdown. unfold get_response.
  destruct (generate_raises user_query true
              (full_context context user_profile) LLM_MAX_TOKENS_QUERY Hdown)
    as [e ->].
  cbn [mbind result_bind try_except mret result_ret]. by eexists.
Qed.

End EngineFacts.

(** * The router with the engine behind it *)

Section RouterWithEngine.
Import PyStr Py QueryRouter Spec.
Context {market : MarketDataAgent} {calculator : Calculator}
        {retriever : Retriever} {profiles : UserProfileManager}
        {format : PyFormat} {client : ChatClient}.

(** X21. With the engine of [llm_engine.py] behind it, the router's own
    reply for an unreachable model, the ["error"] reply that says the AI
    service may be unavailable, is never produced: [get_response] catches
    every failure itself. *)
Theorem unavailable_reply_unreachable (query user_id : string)
    (cache : profile_cache) (data : pydict) :
  (handle_query (llm := LLM.engine) query user_id cache).1
  <> Ok (Reply "error"
           (VStr "I'm having trouble processing your query. The AI service may be unavailable.")
           data).
Proof.
  unfold handle_query, router_try.
  destruct (handle_query_body (llm := LLM.engine) query user_id cache)
    as [[r | e] c'] eqn:Hbody; cbn [fst mret router_ret]; [| discriminate].
  intros [= ->].
  unfold handle_query_body in Hbody.
  unfold mbind, router_bind, lift, mret, router_ret in Hbody.
  cbn [get_response summarize_data LLM.engine] in Hbody.
  follow Hbody.
  match goal with
  | H : LLM.get_response ?q ?c ?u = Raise _ |- _ =>
      destruct (get_response_returns q c u) as (d & Hd); congruence
  end.
Qed.

(** X22. When the action the dispatcher found runs into an error, be it a
    failing collaborator or a refused input, the reply is still a
    ["finance_response"]: it carries the error dictionary as its data and
    the engine's apology with the error text as its response, and the
    model is not consulted for it. *)
Theorem failed_action_reply (query user_id : string)
    (cache cache' : profile_cache) (found : detected) (result : pydict)
    (err : pyval) :
  _detect_action_with_priority query user_id cache = (Ok (Some found), cache') ->
  _execute_action (VStr (action found)) (VDict (parameters found)) = Ok result ->
  result !! "error" = Some err ->
  handle_query (llm := LLM.engine) query user_id cache
  = (Ok (Reply "finance_response"
           (VStr ("Sorry, I couldn't find information for '" +:+ query
                  +:+ "'. " +:+ LLM.str err))
           result),
     cache').
Proof.
  intros Hfound Hrun Herr.
  unfold handle_query, router_try, handle_query_body.
  unfold mbind at 1. unfold router_bind at 1. rewrite Hfound.
  unfold mbind, router_bind, lift. rewrite Hrun.
  cbn [summarize_data LLM.engine]. unfold LLM.summarize_data.
  rewrite Herr. rewrite bool_decide_eq_true_2 by (by eexists).
  reflexivity.
Qed.

(** X23. When the model server is down and no detector answers, the user
    gets a ["conversational"] reply with the engine's advice to check the
    server, not an ["error"] reply. *)
Theorem model_down_is_conversational (query user_id : string)
    (cache cache' : profile_cache) (summary : string) :
  (forall (p : string) (t : Q) (m : Z),
     exists e : exn, chat_completion p t m = Raise e) ->
  _detect_action_with_priority query user_id cache = (Ok None, cache') ->
  get_context_summary user_id = Ok summary ->
  (_needs_knowledge_retrieval query = true ->
   exists rag : string, get_context query = Ok rag) ->
  handle_query (llm := LLM.engine) query user_id cache
  = (Ok (Reply "conversational"
           (VStr "I'm having trouble connecting to the AI model. Please check if LM Studio is running.")
           ∅),
     cache').
Proof.
  intros Hdown Hnone Hsummary Hrag.
  unfold handle_query, router_try, handle_query_body.
  unfold mbind at 1. unfold router_bind at 1. rewrite Hnone.
  unfold mbind, router_bind, lift. rewrite Hsummary.
  cbn [get_response LLM.engine].
  destruct (_needs_knowledge_retrieval query).
  - destruct (Hrag eq_refl) as [rag ->].
    destruct (get_response_down query rag summary Hdown) as [msg ->].
    reflexivity.
  - cbn [mret router_ret].
    destruct (get_response_down query EmptyString summary Hdown) as [msg ->].
    reflexivity.
Qed.

End RouterWithEngine.

Section SummaryPaths.
Import PyStr Py QueryRouter Spec.
Context {market : MarketDataAgent} {calculator : Calculator}
        {llm : LLMEngine} {retriever : Retriever}
        {profiles : UserProfileManager} {format : PyFormat}.

(** X24. A failing summariser is handled differently on the two paths.
    After a detected action the router falls back to its own template
    and still answers with a ["finance_response"]; after an action the
    model proposed there is no fallback, and the reply is the ["error"]
    reply of the outer handler. *)
Theorem summariser_failure_paths (query user_id : string)
    (cache cache' : profile_cache) (result : pydict) (e : exn) :
  summarize_data result query = Raise e ->
  (forall (found : detected) (text : string),
     _detect_action_with_priority query user_id cache
     = (Ok (Some found), cache') ->
     _execute_action (VStr (action found)) (VDict (parameters found))
     = Ok result ->
     _fallback_summary result query = Ok text ->
     handle_query query user_id cache
     = (Ok (Reply "finance_response" (VStr text) result), cache'))
  /\ (forall (summary rag : string) (llm_response : pydict)
        (proposed params : pyval),
        _detect_action_with_priority query user_id cache = (Ok None, cache') ->
        get_context_summary user_id = Ok summary ->
        (if _needs_knowledge_retrieval query then get_context query = Ok rag
         else rag = EmptyString) ->
        get_response query rag summary = Ok llm_response ->
        llm_response !! "action" = Some proposed ->
        llm_response !! "parameters" = Some params ->
        _execute_action proposed params = Ok result ->
        handle_query query user_id cache
        = (Ok (Reply "error" (VStr ("An error occurred: " +:+ exn_msg e))
                 {[ "error" := VStr (exn_msg e) ]}),
           cache')).
Proof.
  intros Hfail. split.
  - intros found text Hfound Hrun Htext.
    unfold handle_query, router_try, handle_query_body.
    unfold mbind at 1. unfold router_bind at 1. rewrite Hfound.
    unfold mbind, router_bind, lift. rewrite Hrun, Hfail.
    cbn [try_except]. by rewrite Htext.
  - intros summary rag llm_response proposed params Hnone Hsummary Hrag
      Hresponse Haction Hparams Hrun.
    unfold handle_query, router_try, handle_query_body.
    unfold mbind at 1. unfold router_bind at 1. rewrite Hnone.
    unfold mbind, router_bind, lift. rewrite Hsummary.
    destruct (_needs_knowledge_retrieval query);
      [rewrite Hrag | subst rag; cbn [mret router_ret]];
      rewrite Hresponse; unfold has_key, item; cbn [getitem];
      rewrite Haction, Hparams;
      rewrite !bool_decide_eq_true_2 by (by eexists);
      cbn [andb]; rewrite Hrun, Hfail; reflexivity.
Qed.

End SummaryPaths.

(** * Priorities and defaults of the dispatcher *)

Section Priorities.
Import PyStr Re Py Config QueryRouter Spec.

(** X4. The five detectors that read the query alone come first: the
    dispatcher returns the answer of the first of them that has one, in
    the order metric, price, ETF, NAV, fund category, without loading a
    profile or touching the cache. *)
Theorem query_only_priority {profiles : UserProfileManager}
    (query user_id : string) (cache : profile_cache) (found : detected) :
  head (omap id [_detect_stock_metric query; _detect_stock_price query;
                 _detect_etf query; _detect_mf_nav query;
                 _detect_fund_category query]) = Some found ->
  _detect_action_with_priority query user_id cache = (Ok (Some found), cache)
  /\ action found ∈ ["get_stock_metric"; "get_stock_price"; "get_etf_price";
                     "search_mutual_fund"; "get_top_funds"].
Proof.
  unfold _detect_action_with_priority, or_else.
  unfold mbind, router_bind, mret, router_ret.
  destruct (_detect_stock_metric query) as [d |] eqn:Hmetric.
  { intros [= <-]. split; [reflexivity |].
    rewrite (detect_metric_shape _ _ Hmetric). set_solver. }
  destruct (_detect_stock_price query) as [d |] eqn:Hprice.
  { intros [= <-]. split; [reflexivity |].
    rewrite (detect_price_shape _ _ Hprice). set_solver. }
  destruct (_detect_etf query) as [d |] eqn:Hetf.
  { intros [= <-]. split; [reflexivity |].
    rewrite (detect_etf_shape _ _ Hetf). set_solver. }
  destruct (_detect_mf_nav query) as [d |] eqn:Hnav.
  { intros [= <-]. split; [reflexivity |].
    rewrite (detect_mf_nav_shape _ _ Hnav). set_solver. }
  destruct (_detect_fund_category query) as [d |] eqn:Hcat.
  { intros [= <-]. split; [reflexivity |].
    destruct (detect_fund_category_shape _ _ Hcat) as (category & -> & _).
    set_solver. }
  discriminate.
Qed.

Context {profiles : UserProfileManager}.

(** The profile of a user the cache and the store do not know. *)
Lemma user_profile_unknown (user_id : string) (cache : profile_cache) :
  cache !! user_id = None -> load_profile user_id = VNone ->
  user_profile user_id cache = (Ok (VDict ∅), <[ user_id := VDict ∅ ]> cache).
Proof.
  intros Hcache Hload.
  unfold user_profile, mbind, router_bind, _get_cached_profile, lift.
  rewrite Hcache, Hload. cbn [truthy]. by rewrite lookup_insert_eq.
Qed.

#[local] Opaque Float64.leb Float64.of_Z Float64.of_decimal Float64.to_Q
  float_of_Q search.


(** X16. A portfolio request that names no amount, from a user with no
    stored profile, is detected for 100000 at age 30 with a moderate risk
    appetite. *)
Theorem portfolio_defaults (query user_id : string) (cache : profile_cache) :
  contains "portfolio" (lower query) = true ->
  extract_amount (lower query) = Ok None ->
  cache !! user_id = None -> load_profile user_id = VNone ->
  _detect_portfolio query user_id cache
  = (Ok (Some (Detected "get_portfolio_recommendation"
                 {[ "age" := VInt 30;
                    "risk_appetite" := VStr "moderate";
                    "investment_amount" := VInt 100000 ]})),
     <[ user_id := VDict ∅ ]> cache).
Proof.
  intros Htrigger Hnone Hcache Hload.
  unfold _detect_portfolio. rewrite Htrigger. cbn [orb].
  unfold mbind, router_bind, lift.
  rewrite (user_profile_unknown _ _ Hcache Hload), Hnone.
  reflexivity.
Qed.

End Priorities.

Section Retrieval.
Import PyStr Py QueryRouter Spec.
Context {market : MarketDataAgent} {calculator : Calculator}
        {llm : LLMEngine} {profiles : UserProfileManager} {format : PyFormat}.

(** X25. The knowledge base is consulted only for a query that no detector
    answers and that holds one of the eight knowledge phrases: in every
    other case the reply and the cache are the same whatever the
    retriever does. *)
Theorem retrieval_only_when_asked (query user_id : string)
    (cache : profile_cache) (r1 r2 : Retriever) :
  _needs_knowledge_retrieval query = false
  \/ (exists (found : detected) (cache' : profile_cache),
        _detect_action_with_priority query user_id cache
        = (Ok (Some found), cache')) ->
  handle_query (retriever := r1) query user_id cache
  = handle_query (retriever := r2) query user_id cache.
Proof.
  intros Hcase. unfold handle_query, router_try.
  assert (Hbody : handle_query_body (retriever := r1) query user_id cache
                  = handle_query_body (retriever := r2) query user_id cache);
    [| by rewrite Hbody].
  unfold handle_query_body, mbind, router_bind.
  destruct (_detect_action_with_priority query user_id cache)
    as [[[found |] | e] c'] eqn:Hdetected; try reflexivity.
  destruct Hcase as [Hno | (found & cache' & Hfound)]; [| congruence].
  rewrite Hno. reflexivity.
Qed.

End Retrieval.

(** * The further properties on concrete inputs *)

Section MoreInstances.
Import PyStr Re Py Config FinancialCalculator QueryRouter Spec Offline
  OfflineEngine CalculatorBinding.

Abbreviation offline_calculator :=
  (CalculatorBinding.financial_calculator (floats := fraction_lib)).

(** A price request whose market call fails. *)
Lemma execute_query_action_boundary_witness :
  _execute_action (market := no_market) (calculator := offline_calculator)
    (format := plain_format) (VStr "get_stock_price")
    (VDict {[ "query" := VStr "price of infosys" ]})
  = Ok {[ "error" :=
            VStr "Error executing get_stock_price: service unavailable" ]}.
Proof.
  refine (eq_trans (execute_query_action_boundary (market := no_market)
                      "get_stock_price" get_stock_price _ _) _).
  - apply list_elem_of_here.
  - reflexivity.
Defined.

(** A SIP calculation without its years. *)
Lemma execute_missing_parameter_witness :
  _execute_action (market := no_market) (calculator := offline_calculator)
    (format := plain_format) (VStr "calculate_sip")
    (VDict {[ "monthly_sip" := VInt 5000 ]})
  = Ok {[ "error" := VStr "Error executing calculate_sip: 'years'" ]}.
Proof.
  apply (execute_missing_parameter (market := no_market) "calculate_sip"
           {[ "monthly_sip" := VInt 5000 ]} ["monthly_sip"] [] "years").
  - reflexivity.
  - repeat constructor. by eexists.
  - reflexivity.
Defined.

(** The EMI route of the specification. *)
Lemma dispatcher_contract_witness :
  action
    (Detected "calculate_emi"
       {[ "loan_amount" := VInt 5000000;
          "interest_rate" := VFloat DEFAULT_EMI_INTEREST;
          "tenure_years" := VInt 20 ]})
  ∈ action_kinds
  /\ Forall
       (fun key =>
          is_Some
            (parameters
               (Detected "calculate_emi"
                  {[ "loan_amount" := VInt 5000000;
                     "interest_rate" := VFloat DEFAULT_EMI_INTEREST;
                     "tenure_years" := VInt 20 ]})
             !! key))
       (Contract.required_keys
          (action
             (Detected "calculate_emi"
                {[ "loan_amount" := VInt 5000000;
                   "interest_rate" := VFloat DEFAULT_EMI_INTEREST;
                   "tenure_years" := VInt 20 ]}))).
Proof.
  apply (dispatcher_contract (profiles := no_profiles)
           "EMI for 50 lakh loan at 8.5% for 20 years" "guest" ∅ ∅).
  vm_compute. reflexivity.
Defined.

(** A price query is answered before any profile is read. *)
Lemma query_only_priority_witness :
  _detect_action_with_priority (profiles := no_profiles)
    "share price of Infosys" "guest" ∅
  = (Ok (Some (q_action "get_stock_price" "share price of Infosys")), ∅).
Proof.
  apply (query_only_priority (profiles := no_profiles)).
  vm_compute. reflexivity.
Defined.

(** The first look-up of a user without a stored profile. *)
Lemma cached_profile_memoised_witness :
  exists (profile : pyval) (cache' : profile_cache),
    _get_cached_profile (profiles := no_profiles) "guest" ∅
    = (Ok profile, cache')
    /\ cache' !! "guest" = Some profile.
Proof.
  destruct (cached_profile_memoised (profiles := no_profiles) "guest" ∅)
    as (profile & cache' & Hcall & Hstored & _).
  exists profile, cache'. split; [exact Hcall | exact Hstored].
Defined.

(** Another user's entry survives a query. *)
Lemma handle_query_cache_witness :
  (handle_query (market := no_market) (calculator := offline_calculator)
     (llm := no_llm) (retriever := no_retriever) (profiles := no_profiles)
     (format := plain_format) "start a sip" "guest"
     {[ "asha" := VDict ∅ ]}).2 !! "asha"
  = Some (VDict ∅).
Proof.
  refine (proj2 (handle_query_cache (profiles := no_profiles) "start a sip"
                   "guest" {[ "asha" := VDict ∅ ]}) "asha" _).
  discriminate.
Defined.



(** The SIP route of the specification, through the calculator. *)
Lemma detected_sip_is_computed_witness :
  exists p : sip_payload,
    _execute_action (market := no_market) (calculator := offline_calculator)
      (format := plain_format) (VStr "calculate_sip")
      (VDict {[ "monthly_sip" := VInt 10000;
                "years" := VInt 20;
                "expected_return" := VFloat DEFAULT_SIP_RETURN ]})
    = Ok (sip_dict (floats := fraction_lib) p)
    /\ sip_dict (floats := fraction_lib) p !! "error" = None.
Proof.
  destruct (detected_sip_is_computed (profiles := no_profiles)
              (market := no_market) (format := plain_format)
              (floats := fraction_lib)
              "Calculate SIP of 10000 for 20 years at 12% returns" "guest" ∅ ∅
              (Detected "calculate_sip"
                 {[ "monthly_sip" := VInt 10000;
                    "years" := VInt 20;
                    "expected_return" := VFloat DEFAULT_SIP_RETURN ]}))
    as (p & Hrun & Hclean & _); [vm_compute; reflexivity |].
  exists p. split; [exact Hrun | exact Hclean].
Defined.




(** A loan query that names no rate. *)
Lemma detected_emi_is_computed_witness :
  exists p : emi_payload,
    _execute_action (market := no_market) (calculator := offline_calculator)
      (format := plain_format) (VStr "calculate_emi")
      (VDict {[ "loan_amount" := VInt 5000000;
                "interest_rate" := VFloat DEFAULT_EMI_INTEREST;
                "tenure_years" := VInt 15 ]})
    = Ok (emi_dict (floats := fraction_lib) p)
    /\ emi_interest_rate p = DEFAULT_EMI_INTEREST.
Proof.
  destruct (detected_emi_is_computed (market := no_market)
              (format := plain_format) (floats := fraction_lib)
              "EMI for 50 lakh loan for 15 years"
              (Detected "calculate_emi"
                 {[ "loan_amount" := VInt 5000000;
                    "interest_rate" := VFloat DEFAULT_EMI_INTEREST;
                    "tenure_years" := VInt 15 ]}))
    as (p & Hrun & _ & Hrate & _);
    [vm_compute; reflexivity | vm_compute; reflexivity |].
  exists p. split; [exact Hrun | exact Hrate].
Defined.


(** From 18 to a retirement at 70: detected, then refused. *)
Lemma detected_retirement_span_witness :
  _execute_action (market := no_market) (calculator := offline_calculator)
    (format := plain_format) (VStr "calculate_retirement")
    (VDict {[ "current_age" := VInt 18;
              "retirement_age" := VInt 70;
              "monthly_expense" := VInt 50000 ]})
  = Ok {[ "error" := VStr "Years to retirement cannot exceed 50" ]}.
Proof.
  destruct (detected_retirement_span (market := no_market)
              (format := plain_format) (floats := fraction_lib)
              (profiles := no_profiles) fraction_lib_positive
              "retirement corpus: i am 18 and retire at 70" "guest" ∅
              {[ "guest" := VDict ∅ ]}
              (Detected "calculate_retirement"
                 {[ "current_age" := VInt 18;
                    "retirement_age" := VInt 70;
                    "monthly_expense" := VInt 50000 ]}) 18)
    as (retirement_age & monthly_expense & Hret & _ & _ & _ & _ & _ & _
          & Hrefused);
    [vm_compute; reflexivity | reflexivity |].
  injection Hret as <-. apply Hrefused. reflexivity.
Defined.

(** A portfolio request with no number in it. *)
Lemma portfolio_defaults_witness :
  _detect_portfolio (profiles := no_profiles) "build my portfolio" "guest" ∅
  = (Ok (Some (Detected "get_portfolio_recommendation"
                 {[ "age" := VInt 30;
                    "risk_appetite" := VStr "moderate";
                    "investment_amount" := VInt 100000 ]})),
     {[ "guest" := VDict ∅ ]}).
Proof.
  apply (portfolio_defaults (profiles := no_profiles));
    [vm_compute; reflexivity | vm_compute; reflexivity
    | reflexivity | reflexivity].
Defined.

(** An appetite the table does not know. *)
Lemma equity_allocation_bounds_witness :
  MarketData._calculate_equity_allocation 30 "Balanced"
  = MarketData._calculate_equity_allocation 30 "moderate".
Proof.
  refine (proj2 (proj2 (proj2 (proj2 (proj2
            (equity_allocation_bounds 30 "Balanced"))))) _).
  rewrite !not_elem_of_cons. split_and!; try discriminate.
  apply not_elem_of_nil.
Defined.

(** A fund list that finds nothing for any category. *)
Lemma portfolio_never_raises_witness :
  exists d : pydict,
    MarketData.get_personalized_portfolio no_funds 30 "moderate" 100000 = Ok d
    /\ d !! "error" = None
    /\ d !! "recommended_funds" = Some (VDict ∅).
Proof.
  apply (proj2 (portfolio_never_raises no_funds 30 "moderate" 100000)).
  intros category. eexists. split; reflexivity.
Defined.

(** A price query while the market service is down. *)
Lemma failed_action_reply_witness :
  handle_query (market := no_market) (calculator := offline_calculator)
    (llm := LLM.engine (client := no_client) (format := plain_format))
    (retriever := no_retriever) (profiles := no_profiles)
    (format := plain_format) "share price of Infosys" "guest" ∅
  = (Ok (Reply "finance_response"
           (VStr ("Sorry, I couldn't find information for '"
                  +:+ "share price of Infosys" +:+ "'. "
                  +:+ "Error executing get_stock_price: service unavailable"))
           {[ "error" :=
                VStr "Error executing get_stock_price: service unavailable" ]}),
     ∅).
Proof.
  apply (failed_action_reply (market := no_market) (client := no_client)
           (format := plain_format) "share price of Infosys" "guest" ∅ ∅
           (q_action "get_stock_price" "share price of Infosys")
           {[ "error" :=
                VStr "Error executing get_stock_price: service unavailable" ]}
           (VStr "Error executing get_stock_price: service unavailable"));
    [vm_compute; reflexivity | reflexivity | reflexivity].
Defined.

(** Small talk while the model server is down. *)
Lemma unavailable_reply_unreachable_witness :
  (handle_query (market := no_market) (calculator := offline_calculator)
     (llm := LLM.engine (client := no_client) (format := plain_format))
     (retriever := no_retriever) (profiles := no_profiles)
     (format := plain_format) "hello there" "guest" ∅).1
  <> Ok (Reply "error"
           (VStr "I'm having trouble processing your query. The AI service may be unavailable.")
           ∅).
Proof. apply unavailable_reply_unreachable. Defined.

Lemma model_down_is_conversational_witness :
  handle_query (market := no_market) (calculator := offline_calculator)
    (llm := LLM.engine (client := no_client) (format := plain_format))
    (retriever := no_retriever) (profiles := no_profiles)
    (format := plain_format) "hello there" "guest" ∅
  = (Ok (Reply "conversational"
           (VStr "I'm having trouble connecting to the AI model. Please check if LM Studio is running.")
           ∅),
     ∅).
Proof.
  apply (model_down_is_conversational (client := no_client)
           (profiles := no_profiles) "hello there" "guest" ∅ ∅ EmptyString).
  - intros p t m. eexists. reflexivity.
  - vm_compute. reflexivity.
  - reflexivity.
  - intros Hneeded. vm_compute in Hneeded. discriminate Hneeded.
Defined.

(** A price query whose market call and whose summariser both fail: the
    router's own template answers. *)
Lemma summariser_failure_paths_witness :
  handle_query (market := no_market) (calculator := offline_calculator)
    (llm := no_llm) (retriever := no_retriever) (profiles := no_profiles)
    (format := plain_format) "share price of Infosys" "guest" ∅
  = (Ok (Reply "finance_response"
           (VStr "Sorry, Error executing get_stock_price: service unavailable")
           {[ "error" :=
                VStr "Error executing get_stock_price: service unavailable" ]}),
     ∅).
Proof.
  refine (proj1 (summariser_failure_paths (llm := no_llm)
                   "share price of Infosys" "guest" ∅ ∅
                   {[ "error" :=
                        VStr "Error executing get_stock_price: service unavailable" ]}
                   (Exn "ConnectionError" "service unavailable") _)
            (q_action "get_stock_price" "share price of Infosys") _ _ _ _).
  - reflexivity.
  - vm_compute. reflexivity.
  - reflexivity.
  - reflexivity.
Defined.

(** Small talk never reaches the knowledge base. *)
Lemma retrieval_only_when_asked_witness :
  handle_query (market := no_market) (calculator := offline_calculator)
    (llm := no_llm) (retriever := no_retriever) (profiles := no_profiles)
    (format := plain_format) "hello there" "guest" ∅
  = handle_query (market := no_market) (calculator := offline_calculator)
      (llm := no_llm) (retriever := one_passage) (profiles := no_profiles)
      (format := plain_format) "hello there" "guest" ∅.
Proof.
  apply retrieval_only_when_asked. left. vm_compute. reflexivity.
Defined.

End MoreInstances.
